(** * OSMnx persistence layer: GraphML codec and OSM-XML way reconstruction

    A shallow embedding of [osmnx/io.py] (GraphML save/load and the
    attribute type conversions) and of [osmnx/osm_xml.py] (recovery of a
    way's node order and merging of edge tags), with the properties the
    specification states about them. *)

From Stdlib Require Import ZArith Floats Ascii.
From stdpp Require Import gmap strings list fin_maps pretty.

Set Warnings "-register-all".

Local Open Scope Z_scope.
Local Open Scope string_scope.
Local Open Scope list_scope.

(** ** Python values, exceptions and results *)

Module Py.

(** The Python objects that occur as attribute values.  A [VSet] keeps its
    members in a list; a [VGeometry] is a shapely geometry, identified by
    its well-known text. *)
Inductive value :=
| VNone
| VBool (b : bool)
| VInt (n : Z)
| VFloat (f : float)
| VStr (s : string)
| VList (items : list value)
| VTuple (items : list value)
| VSet (items : list value)
| VDict (items : list (value * value))
| VGeometry (wkt : string).

Inductive pyclass :=
| ValueError | TypeError | SyntaxError | AttributeError | KeyError
| IndexError | RuntimeError | NetworkXUnfeasible | OtherError.

(** An exception is its class and message.  [InvalidBoolLiteral v] is the
    [ValueError(f"invalid literal for boolean: {value!r}")] of
    [_convert_bool_string], kept with the offending value instead of its
    [repr]. *)
Inductive exn :=
| PyExn (cls : pyclass) (msg : string)
| InvalidBoolLiteral (v : value).

Definition class_of (e : exn) : pyclass :=
  match e with
  | PyExn cls _ => cls
  | InvalidBoolLiteral _ => ValueError
  end.

Inductive res (A : Type) :=
| Ok (a : A)
| Err (e : exn).
Arguments Ok {A} a.
Arguments Err {A} e.

Definition bind {A B} (r : res A) (k : A -> res B) : res B :=
  match r with
  | Ok a => k a
  | Err e => Err e
  end.

(** The class of the exception a result raises, if it raises. *)
Definition class_of_result {A} (r : res A) : option pyclass :=
  match r with
  | Ok _ => None
  | Err e => Some (class_of e)
  end.

(** [[f(x) for x in l]]: stops at the first exception. *)
Fixpoint mapM {A B} (f : A -> res B) (l : list A) : res (list B) :=
  match l with
  | [] => Ok []
  | x :: l' =>
      bind (f x) (fun y => bind (mapM f l') (fun ys => Ok (y :: ys)))
  end.

(** [hash(v)] succeeds: lists, sets and dicts are unhashable, a tuple is
    hashable when its members are. *)
Fixpoint hashable (v : value) : bool :=
  match v with
  | VList _ | VSet _ | VDict _ => false
  | VTuple items => forallb hashable items
  | _ => true
  end.

Definition type_name (v : value) : string :=
  match v with
  | VNone => "NoneType"
  | VBool _ => "bool"
  | VInt _ => "int"
  | VFloat _ => "float"
  | VStr _ => "str"
  | VList _ => "list"
  | VTuple _ => "tuple"
  | VSet _ => "set"
  | VDict _ => "dict"
  | VGeometry _ => "LineString"
  end.

(** [s.startswith(p)] and [s.endswith(p)] on [str]. *)
Definition startswith (p s : string) : bool := String.prefix p s.

Definition endswith (p s : string) : bool :=
  String.prefix (String.rev p) (String.rev s).

End Py.
Export Py.

Notation "x <- y ;; z" := (bind y (fun x => z))
  (at level 20, y at level 99, z at level 200, only parsing).
Notation "' x <- y ;; z" := (bind y (fun x => z))
  (at level 20, x pattern, y at level 99, z at level 200, only parsing).

(** ** networkx: the part of [MultiDiGraph] the two modules rely on *)

Module Nx.

(** An edge [(u, v, key)] with its attribute dict. *)
Record edge (D : Type) := Edge { src : Z; dst : Z; key : Z; data : D }.
Arguments Edge {D} src dst key data.
Arguments src {D} _.
Arguments dst {D} _.
Arguments key {D} _.
Arguments data {D} _.

(** A [MultiDiGraph]: [G.graph], [G._node] (node to attribute dict, in
    insertion order) and the edges in the order [G.edges] reports them.
    [D] is what stands for an attribute dict: the dict itself for a graph
    no one else holds, a heap address where aliasing matters. *)
Record MultiDiGraph (D : Type) :=
  Graph { graph : D; _node : list (Z * D); _edge : list (edge D) }.
Arguments Graph {D} graph _node _edge.
Arguments graph {D} _.
Arguments _node {D} _.
Arguments _edge {D} _.

Section Views.
Context {D : Type}.
Implicit Types (G : MultiDiGraph D) (u v n : Z).

Definition nodes G : list Z := (_node G).*1.

Definition has_node G n : bool := bool_decide (n ∈ nodes G).

(** The parallel edges from [u] to [v]: [G[u][v]]. *)
Definition edges_between G u v : list (edge D) :=
  filter (λ e, src e = u ∧ dst e = v) (_edge G).

Definition number_of_edges G u v : nat := length (edges_between G u v).

Definition in_degree G v : Z :=
  Z.of_nat (length (filter (λ e, dst e = v) (_edge G))).

(** The members of [l], each once, in the order they first occur. *)
Definition unique (l : list Z) : list Z :=
  foldl (λ acc x, if bool_decide (x ∈ acc) then acc else acc ++ [x]) [] l.

(** [G.neighbors(u)]: the successors of [u], each once, in the order
    their first edge was added. *)
Definition neighbors G u : list Z :=
  unique (dst <$> filter (λ e, src e = u) (_edge G)).

(** Neighbours in either direction, for weak connectivity. *)
Definition undirected_neighbors G n : list Z :=
  (dst <$> filter (λ e, src e = n) (_edge G))
    ++ (src <$> filter (λ e, dst e = n) (_edge G)).

(** [new_edge_key]: [key = len(keydict)], then
    [while key in keydict: key += 1]. *)
Fixpoint first_free (keys : list Z) (k : Z) (fuel : nat) : Z :=
  match fuel with
  | O => k
  | S fuel' =>
      if bool_decide (k ∈ keys) then first_free keys (k + 1) fuel' else k
  end.

Definition new_edge_key G u v : Z :=
  let keys := key <$> edges_between G u v in
  first_free keys (Z.of_nat (length keys)) (length keys).

(** [G.add_node(n)] without attributes, [empty] being a new dict. *)
Definition add_node (empty : D) G n : MultiDiGraph D :=
  if has_node G n then G
  else Graph (graph G) (_node G ++ [(n, empty)]) (_edge G).

Definition add_nodes_from (empty : D) G (ns : list Z) : MultiDiGraph D :=
  foldl (add_node empty) G ns.

(** [G.add_edge(u, v)] with a new key and no attributes. *)
Definition add_edge (empty : D) G u v : MultiDiGraph D :=
  let G1 := add_node empty (add_node empty G u) v in
  Graph (graph G1) (_node G1)
        (_edge G1 ++ [Edge u v (new_edge_key G1 u v) empty]).

Definition add_edges_from (empty : D) G (uvs : list (Z * Z))
  : MultiDiGraph D :=
  foldl (λ G uv, add_edge empty G uv.1 uv.2) G uvs.

(** [G.subgraph(ns)] made a graph of its own: the nodes of [ns] and the
    edges between them. *)
Definition subgraph G (ns : list Z) : MultiDiGraph D :=
  Graph (graph G)
        (filter (λ nd, nd.1 ∈ ns) (_node G))
        (filter (λ e, src e ∈ ns ∧ dst e ∈ ns) (_edge G)).

(** *** Weakly connected components

    [_plain_bfs] from a node, as the closure of the set reached so far
    under [undirected_neighbors]; [length (nodes G)] rounds reach a
    fixed point. *)
Definition grow G (seen : list Z) : list Z :=
  remove_dups (seen ++ mjoin (undirected_neighbors G <$> seen)).

Fixpoint reach (rounds : nat) G (seen : list Z) : list Z :=
  match rounds with
  | O => seen
  | S r => reach r G (grow G seen)
  end.

Definition component_of G n : list Z :=
  let c := reach (length (nodes G)) G [n] in
  filter (λ m, m ∈ c) (nodes G).

(** [for v in G: if v not in seen: ... yield c]. *)
Fixpoint components_from G (todo seen : list Z) : list (list Z) :=
  match todo with
  | [] => []
  | n :: todo' =>
      if bool_decide (n ∈ seen) then components_from G todo' seen
      else
        let c := component_of G n in
        c :: components_from G todo' (seen ++ c)
  end.

Definition weakly_connected_components G : list (list Z) :=
  components_from G (nodes G) [].

Definition is_weakly_connected G : bool :=
  bool_decide (length (weakly_connected_components G) = 1%nat).

(** [max(cs, key=len)]: the first of the longest. *)
Definition max_by_len (cs : list (list Z)) : list Z :=
  foldl (λ best c, if bool_decide (length best < length c)%nat
                   then c else best) [] cs.

(** *** Topological sort

    [topological_generations]: Kahn's algorithm, one generation of
    nodes without remaining predecessors at a time. *)
Definition visit_child G (node : Z) (st : list Z * gmap Z Z) (child : Z)
  : res (list Z * gmap Z Z) :=
  let '(zero_indegree, indegree_map) := st in
  match indegree_map !! child with
  | None => Err (PyExn RuntimeError "Graph changed during iteration")
  | Some d =>
      let d' := d - Z.of_nat (number_of_edges G node child) in
      if bool_decide (d' = 0)
      then Ok (zero_indegree ++ [child], delete child indegree_map)
      else Ok (zero_indegree, <[child := d']> indegree_map)
  end.

Fixpoint foldM {A B} (f : A -> B -> res A) (a : A) (l : list B) : res A :=
  match l with
  | [] => Ok a
  | x :: l' => a' <- f a x;; foldM f a' l'
  end.

Definition visit_node G (st : list Z * gmap Z Z) (node : Z)
  : res (list Z * gmap Z Z) :=
  if has_node G node then foldM (visit_child G node) st (neighbors G node)
  else Err (PyExn RuntimeError "Graph changed during iteration").

Fixpoint generations (fuel : nat) G (zero_indegree : list Z)
    (indegree_map : gmap Z Z) : res (list (list Z)) :=
  match zero_indegree with
  | [] =>
      if bool_decide (indegree_map = ∅) then Ok []
      else Err (PyExn NetworkXUnfeasible
             "Graph contains a cycle or graph changed during iteration")
  | _ =>
      match fuel with
      | O => Err (PyExn OtherError "generations: out of fuel")
      | S fuel' =>
          st <- foldM (visit_node G) ([], indegree_map) zero_indegree;;
          rest <- generations fuel' G st.1 st.2;;
          Ok (zero_indegree :: rest)
      end
  end.

Definition topological_generations G : res (list (list Z)) :=
  let degs := (λ v, (v, in_degree G v)) <$> nodes G in
  let indegree_map : gmap Z Z :=
    list_to_map (filter (λ vd, 0 < vd.2) degs) in
  let zero_indegree := (filter (λ vd, vd.2 = 0) degs).*1 in
  generations (length (nodes G)) G zero_indegree indegree_map.

(** [list(nx.topological_sort(G))]. *)
Definition topological_sort G : res (list Z) :=
  gens <- topological_generations G;; Ok (mjoin gens).

End Views.

End Nx.

(** ** osmnx/osm_xml.py *)

Module Osm_xml.

(** *** pandas and ElementTree, as far as the module uses them *)

(** A row of the edges frame: its index label, the node columns [u] and
    [v], and the cells of the other columns (a column without a cell in
    the row holds NaN there). *)
Record row := Row { label : Z; u : Z; v : Z; cells : gmap string value }.

(** A frame with an unnamed, single-level index; [columns] lists the
    columns besides [u] and [v]. *)
Record DataFrame := Frame { columns : list string; rows : list row }.

Definition has_column (df : DataFrame) (c : string) : bool :=
  bool_decide (c ∈ "u" :: "v" :: columns df).

Definition cell (r : row) (c : string) : option value :=
  if decide (c = "u") then Some (VInt (u r))
  else if decide (c = "v") then Some (VInt (v r))
  else cells r !! c.

(** [df[c]]: the column, NaN cells as [None]. *)
Definition column (df : DataFrame) (c : string) : list (option value) :=
  (λ r, cell r c) <$> rows df.

(** [df.reset_index(inplace=True)]: the old index becomes the column
    ["index"], or ["level_0"] when there is an ["index"] column already,
    and inserting a column that exists raises [ValueError]; the rows are
    relabelled [0, 1, ...]. *)
Definition reset_index (df : DataFrame) : res DataFrame :=
  let name := if has_column df "index" then "level_0" else "index" in
  if has_column df name
  then Err (PyExn ValueError ("cannot insert " +:+ name +:+ ", already exists"))
  else Ok (Frame (name :: columns df)
             (imap (λ i r, Row (Z.of_nat i) (u r) (v r)
                             (<[name := VInt (label r)]> (cells r)))
                   (rows df))).

(** [df.iloc[1:]]. *)
Definition iloc_from_1 (df : DataFrame) : DataFrame :=
  Frame (columns df) (tail (rows df)).

(** An XML element: tag, attributes in the order given, children. *)
Inductive Element :=
| Elem (tag : string) (attrib : list (string * string))
       (children : list Element).

(** [ET.SubElement(parent, tag, attrib)]: the parent with the new element
    as its last child. *)
Definition SubElement (parent : Element) (tag : string)
    (attrib : list (string * string)) : Element :=
  match parent with
  | Elem t a cs => Elem t a (cs ++ [Elem tag attrib []])
  end.

Definition children_of (e : Element) : list Element :=
  match e with Elem _ _ cs => cs end.

(** The values of the [tag] children of [e] whose key is [k]. *)
Definition tag_values (e : Element) (k : string) : list string :=
  omap (λ c, match c with
             | Elem "tag" [("k", k'); ("v", x)] _ =>
                 if decide (k' = k) then Some x else None
             | _ => None
             end) (children_of e).

(** Modelled from the spec: [utils_graph.get_largest_component] is not
    among the sources.  With [strongly=False] it computes the largest
    weakly-connected component of the graph (connectivity ignoring edge
    direction); nodes outside the largest component are dropped, and a
    graph that is connected is returned as it is. *)
Definition get_largest_component (G : Nx.MultiDiGraph (gmap string value))
  : Nx.MultiDiGraph (gmap string value) :=
  if Nx.is_weakly_connected G then G
  else Nx.subgraph G (Nx.max_by_len (Nx.weakly_connected_components G)).

(** [utils.log(f"Recovered order for {n} of {total} nodes")]. *)
Definition recovered_msg (n total : nat) : string :=
  "Recovered order for " +:+ pretty n +:+ " of " +:+ pretty total
    +:+ " nodes".

(** The outcome of a call that may change the frame it is given and may
    log: the frame and the log as the call leaves them, and what it
    returns or raises. *)
Record outcome (A : Type) :=
  Outcome { frame_after : DataFrame; log_after : list string; result : res A }.
Arguments Outcome {A} frame_after log_after result.
Arguments frame_after {A} _.
Arguments log_after {A} _.
Arguments result {A} _.

(** [_get_unique_nodes_ordered_from_way(df_way_edges)]. *)
Definition _get_unique_nodes_ordered_from_way (df_way_edges : DataFrame)
    (log : list string) : outcome (list Z) :=
  match reset_index df_way_edges with
  | Err e => Outcome df_way_edges log (Err e)
  | Ok df =>
      let all_nodes := (u <$> rows df) ++ (v <$> rows df) in
      let G := Nx.Graph (∅ : gmap string value) [] [] in
      let G := Nx.add_nodes_from ∅ G all_nodes in
      let G := Nx.add_edges_from ∅ G ((λ r, (u r, v r)) <$> rows df) in
      let H := get_largest_component G in
      match Nx.topological_sort H with
      | Err e => Outcome df log (Err e)
      | Ok unique_ordered_nodes =>
          let num_unique_nodes := length (remove_dups all_nodes) in
          let log' :=
            if bool_decide (length unique_ordered_nodes < num_unique_nodes)%nat
            then log ++ [recovered_msg (length unique_ordered_nodes)
                                       num_unique_nodes]
            else log in
          Outcome df log' (Ok unique_ordered_nodes)
      end
  end.

(** The [try: ... except nx.NetworkXUnfeasible: ...] of
    [_append_nodes_as_edge_attrs], which computes [ordered_nodes]. *)
Definition ordered_nodes_of_way (all_edges_df : DataFrame)
    (log : list string) : outcome (list Z) :=
  let o := _get_unique_nodes_ordered_from_way all_edges_df log in
  match result o with
  | Err (PyExn NetworkXUnfeasible _) =>
      let df := frame_after o in
      match rows df with
      | [] => Outcome df (log_after o)
                (Err (PyExn IndexError
                        "single positional indexer is out-of-bounds"))
      | r :: _ =>
          let first_node := u r in
          let o' := _get_unique_nodes_ordered_from_way (iloc_from_1 df)
                      (log_after o) in
          Outcome df (log_after o')
            (ordered_nodes <- result o';; Ok (first_node :: ordered_nodes))
      end
  | _ => o
  end.

Section Tags.
(** Python's [str], on the values that occur in a frame. *)
Variable str : value -> string.

(** [row.dropna().astype(str)]: the cells that are not NaN, as strings. *)
Definition dropna_astype_str (df : DataFrame) (r : row)
  : gmap string string :=
  list_to_map
    (omap (λ c, (λ x, (c, str x)) <$> cell r c)
          ("u" :: "v" :: columns df)).

(** [_append_nodes_as_edge_attrs(xml_edge, sample_edge, all_edges_df)]. *)
Definition _append_nodes_as_edge_attrs (xml_edge : Element)
    (sample_edge : gmap string string) (all_edges_df : DataFrame)
    (log : list string) : outcome Element :=
  if bool_decide (length (rows all_edges_df) = 1%nat) then
    Outcome all_edges_df log
      match sample_edge !! "u", sample_edge !! "v" with
      | Some su, Some sv =>
          Ok (SubElement (SubElement xml_edge "nd" [("ref", su)])
                         "nd" [("ref", sv)])
      | None, _ => Err (PyExn KeyError "u")
      | _, None => Err (PyExn KeyError "v")
      end
  else
    let o := ordered_nodes_of_way all_edges_df log in
    Outcome (frame_after o) (log_after o)
      (ordered_nodes <- result o;;
       Ok (foldl (λ e node, SubElement e "nd" [("ref", str (VInt node))])
                 xml_edge ordered_nodes)).

(** [tag in (t for t, agg in edge_tag_aggs)]. *)
Definition is_aggregated {A} (edge_tag_aggs : list (string * A))
    (tag : string) : bool :=
  bool_decide (tag ∈ edge_tag_aggs.*1).

(** [_append_merged_edge_attrs(xml_edge, sample_edge, all_edges_df,
    edge_tags, edge_tag_aggs)].  An aggregation operator is what
    [Series.aggregate] makes of it: a function of the column. *)
Definition _append_merged_edge_attrs (xml_edge : Element)
    (sample_edge : gmap string string) (all_edges_df : DataFrame)
    (edge_tags : list string)
    (edge_tag_aggs : option (list (string * (list (option value) -> res value))))
  : res Element :=
  let tag_from_sample (keep : string -> bool) (e : Element) (tag : string) :=
    match sample_edge !! tag with
    | Some val =>
        if keep tag then SubElement e "tag" [("k", tag); ("v", val)] else e
    | None => e
    end in
  match edge_tag_aggs with
  | None => Ok (foldl (tag_from_sample (λ _, true)) xml_edge edge_tags)
  | Some aggs =>
      let e1 :=
        foldl (tag_from_sample (λ tag, negb (is_aggregated aggs tag)))
              xml_edge edge_tags in
      Nx.foldM
        (λ e '(tag, agg),
           if has_column all_edges_df tag then
             a <- agg (column all_edges_df tag);;
             Ok (SubElement e "tag" [("k", tag); ("v", str a)])
           else Ok e)
        e1 aggs
  end.

(** The body of the loop over the way groups in
    [_append_edges_xml_tree], for one group [all_way_edges]. *)
Definition append_merged_way (root : Element) (all_way_edges : DataFrame)
    (edge_attrs edge_tags : list string)
    (edge_tag_aggs : option (list (string * (list (option value) -> res value))))
    (log : list string) : outcome Element :=
  match rows all_way_edges with
  | [] => Outcome all_way_edges log
            (Err (PyExn IndexError
                    "single positional indexer is out-of-bounds"))
  | r :: _ =>
      let first := dropna_astype_str all_way_edges r in
      match mapM (λ a, match first !! a with
                       | Some x => Ok (a, x)
                       | None => Err (PyExn KeyError a)
                       end) edge_attrs with
      | Err e => Outcome all_way_edges log (Err e)
      | Ok attrib =>
          let edge := Elem "way" attrib [] in
          let o := _append_nodes_as_edge_attrs edge first all_way_edges log in
          Outcome (frame_after o) (log_after o)
            (edge1 <- result o;;
             edge2 <- _append_merged_edge_attrs edge1 first (frame_after o)
                        edge_tags edge_tag_aggs;;
             Ok match root with
                | Elem t a cs => Elem t a (cs ++ [edge2])
                end)
      end
  end.

End Tags.

(** pandas' ["sum"] on a float64 column: NaN cells are skipped and the
    others added up from the left, starting from zero.  Columns of another
    dtype are outside the model. *)
Fixpoint float_cells (col : list (option value)) : option (list float) :=
  match col with
  | [] => Some []
  | None :: col' => float_cells col'
  | Some (VFloat x) :: col' => cons x <$> float_cells col'
  | Some _ :: _ => None
  end.

Definition agg_sum (col : list (option value)) : res value :=
  match float_cells col with
  | Some xs => Ok (VFloat (foldl PrimFloat.add 0%float xs))
  | None => Err (PyExn OtherError "sum: not a float64 column")
  end.

End Osm_xml.

(** ** osmnx/io.py *)

Module Io.

(** [_convert_bool_string(value)]:
    [value in {"True", "False"}] hashes [value] first, which raises
    [TypeError] on an unhashable one; a [bool] is never equal to one of the
    two strings, so it falls to the [isinstance] test. *)
Definition _convert_bool_string (value : value) : res Py.value :=
  if negb (hashable value) then
    Err (PyExn TypeError ("unhashable type: '" +:+ type_name value +:+ "'"))
  else
    match value with
    | VStr s =>
        if decide (s = "True" \/ s = "False")
        then Ok (VBool (bool_decide (s = "True")))
        else Err (InvalidBoolLiteral value)
    | VBool b => Ok (VBool b)
    | _ => Err (InvalidBoolLiteral value)
    end.


(** The text looks like a list, or like a set or dict:
    [(value.startswith("[") and value.endswith("]")) or
     (value.startswith("{") and value.endswith("}"))]. *)
Definition bracket_shaped (s : string) : bool :=
  (startswith "[" s && endswith "]" s) || (startswith "{" s && endswith "}" s).

(** [for k, v in d.items(): d[k] = f(k, v)], stopping at the first
    exception.  The keys are visited in the order [map_to_list] lists
    them; which of several failing keys raises is the only thing that
    depends on it. *)
Definition dict_mapM (f : string -> value -> res value)
    (d : gmap string value) : res (gmap string value) :=
  kvs <- mapM (λ kv, x <- f kv.1 kv.2;; Ok (kv.1, x)) (map_to_list d);;
  Ok (list_to_map kvs).

Section Load.
(** [ast.literal_eval] on a string. *)
Variable literal_eval : string -> res value.

(** [wkt.loads]. *)
Variable wkt_loads : value -> res value.

(** [with contextlib.suppress(SyntaxError, ValueError)]. *)
Definition suppressed (e : exn) : bool :=
  match class_of e with
  | SyntaxError | ValueError => true
  | _ => false
  end.

(** The body of the first loop over [data.items()], for one value: a
    value that is no [str] has no [startswith]. *)
Definition eval_literal (value : value) : res Py.value :=
  match value with
  | VStr s =>
      if bracket_shaped s then
        match literal_eval s with
        | Ok parsed => Ok parsed
        | Err e => if suppressed e then Ok value else Err e
        end
      else Ok value
  | _ => Err (PyExn AttributeError
                ("'" +:+ type_name value
                   +:+ "' object has no attribute 'startswith'"))
  end.

Definition eval_literals (data : gmap string value)
  : res (gmap string value) :=
  dict_mapM (λ _ x, eval_literal x) data.

(** [dtypes[attr](data[attr])] for an [attr] of [dtypes], the value as
    it is for another. *)
Definition coerce (dtypes : gmap string (value -> res value))
    (attr : string) (x : value) : res value :=
  match dtypes !! attr with
  | Some conv => conv x
  | None => Ok x
  end.

(** The same in [_convert_edge_attr_types], where a [list] is converted
    item by item: [[dtypes[attr](item) for item in data[attr]]]. *)
Definition coerce_items (dtypes : gmap string (value -> res value))
    (attr : string) (x : value) : res value :=
  match dtypes !! attr with
  | Some conv =>
      match x with
      | VList items => items' <- mapM conv items;; Ok (VList items')
      | _ => conv x
      end
  | None => Ok x
  end.

(** [for attr in data.keys() & dtypes.keys():
       data[attr] = dtypes[attr](data[attr])]. *)
Definition convert_whole (dtypes : gmap string (value -> res value))
    (data : gmap string value) : res (gmap string value) :=
  dict_mapM (coerce dtypes) data.

(** The loop of [_convert_edge_attr_types] over the same keys. *)
Definition convert_items (dtypes : gmap string (value -> res value))
    (data : gmap string value) : res (gmap string value) :=
  dict_mapM (coerce_items dtypes) data.

Definition MultiDiGraph := Nx.MultiDiGraph (gmap string value).

(** [_convert_graph_attr_types(G, dtypes)]. *)
Definition _convert_graph_attr_types (G : MultiDiGraph)
    (dtypes : gmap string (value -> res value)) : res MultiDiGraph :=
  let graph := delete "edge_default" (delete "node_default" (Nx.graph G)) in
  graph' <- convert_whole dtypes graph;;
  Ok (Nx.Graph graph' (Nx._node G) (Nx._edge G)).

(** What [_convert_node_attr_types] does to one node's [data]. *)
Definition convert_node_data (dtypes : gmap string (value -> res value))
    (data : gmap string value) : res (gmap string value) :=
  data1 <- eval_literals data;;
  convert_whole dtypes data1.

(** [_convert_node_attr_types(G, dtypes)]. *)
Definition _convert_node_attr_types (G : MultiDiGraph)
    (dtypes : gmap string (value -> res value)) : res MultiDiGraph :=
  _node' <- mapM (λ nd, data <- convert_node_data dtypes nd.2;;
                        Ok (nd.1, data)) (Nx._node G);;
  Ok (Nx.Graph (Nx.graph G) _node' (Nx._edge G)).

(** What [_convert_edge_attr_types] does to one edge's [data]. *)
Definition convert_edge_data (dtypes : gmap string (value -> res value))
    (data : gmap string value) : res (gmap string value) :=
  let data0 := delete "id" data in
  data1 <- eval_literals data0;;
  data2 <- convert_items dtypes data1;;
  match data2 !! "geometry" with
  | Some g => geom <- wkt_loads g;; Ok (<["geometry" := geom]> data2)
  | None => Ok data2
  end.

(** [_convert_edge_attr_types(G, dtypes)]. *)
Definition _convert_edge_attr_types (G : MultiDiGraph)
    (dtypes : gmap string (value -> res value)) : res MultiDiGraph :=
  _edge' <- mapM (λ e, data <- convert_edge_data dtypes (Nx.data e);;
                       Ok (Nx.Edge (Nx.src e) (Nx.dst e) (Nx.key e) data))
                 (Nx._edge G);;
  Ok (Nx.Graph (Nx.graph G) (Nx._node G) _edge').

(** Python's [float] and [int], as converters. *)
Variables py_float py_int : value -> res value.

(** [nx.read_graphml(Path(filepath), node_type, force_multigraph=True)]
    and [nx.parse_graphml(graphml_str, node_type, force_multigraph=True)]. *)
Variable read_graphml : string -> (value -> res value) -> res MultiDiGraph.
Variable parse_graphml : string -> (value -> res value) -> res MultiDiGraph.

(** What a call does besides returning: reading the file, parsing the
    string, the messages of [utils.log]. *)
Inductive event :=
| ReadFile (filepath : string)
| ParseString (graphml_str : string)
| Log (msg : string)
| LogLoaded (n_nodes n_edges : nat) (source : string).

Definition default_graph_dtypes : gmap string (value -> res value) :=
  {[ "simplified" := _convert_bool_string ]}.

Definition default_node_dtypes : gmap string (value -> res value) :=
  list_to_map
    [ ("elevation", py_float); ("elevation_res", py_float);
      ("lat", py_float); ("lon", py_float); ("osmid", py_int);
      ("street_count", py_int); ("x", py_float); ("y", py_float) ].

Definition default_edge_dtypes : gmap string (value -> res value) :=
  list_to_map
    [ ("bearing", py_float); ("grade", py_float); ("grade_abs", py_float);
      ("length", py_float); ("oneway", _convert_bool_string);
      ("osmid", py_int); ("reversed", _convert_bool_string);
      ("speed_kph", py_float); ("travel_time", py_float) ].

(** [defaults.update(user)] when [user] is not [None]. *)
Definition updated (defaults : gmap string (value -> res value))
    (user : option (gmap string (value -> res value)))
  : gmap string (value -> res value) :=
  match user with
  | Some dtypes => dtypes ∪ defaults
  | None => defaults
  end.

Definition one_and_only_one : string :=
  "You must pass one and only one of `filepath` or `graphml_str`.".

(** [load_graphml(filepath, graphml_str, node_dtypes, edge_dtypes,
    graph_dtypes)]: the events of the call, in order, and what it
    returns or raises. *)
Definition load_graphml (filepath graphml_str : option string)
    (node_dtypes edge_dtypes graph_dtypes
       : option (gmap string (value -> res value)))
  : list event * res MultiDiGraph :=
  match filepath, graphml_str with
  | None, None | Some _, Some _ =>
      ([], Err (PyExn ValueError one_and_only_one))
  | _, _ =>
      let graph_dt := updated default_graph_dtypes graph_dtypes in
      let node_dt := updated default_node_dtypes node_dtypes in
      let edge_dt := updated default_edge_dtypes edge_dtypes in
      match node_dt !! "osmid" with
      | None => ([], Err (PyExn KeyError "osmid"))
      | Some node_type =>
          let '(source, ev, read) :=
            match filepath with
            | Some fp => (fp, ReadFile fp, read_graphml fp node_type)
            | None =>
                let doc := default "" graphml_str in
                ("string", ParseString doc, parse_graphml doc node_type)
            end in
          match read with
          | Err e => ([ev], Err e)
          | Ok G =>
              let log1 :=
                Log "Converting node, edge, and graph-level attribute data types" in
              match (G1 <- _convert_graph_attr_types G graph_dt;;
                     G2 <- _convert_node_attr_types G1 node_dt;;
                     _convert_edge_attr_types G2 edge_dt) with
              | Err e => ([ev; log1], Err e)
              | Ok G3 =>
                  ([ev; log1;
                    LogLoaded (length (Nx._node G3)) (length (Nx._edge G3))
                              source],
                   Ok G3)
              end
          end
      end
  end.

End Load.

(** *** Saving

    [save_graphml] works on graph objects that the caller holds too, so
    the attribute dicts live in a heap and a graph refers to them by
    address: [Nx.MultiDiGraph nat].  The values in a dict are not changed
    in place by anything here. *)

Abbreviation heap := (list (gmap string value)).

Definition deref (h : heap) (l : nat) : gmap string value :=
  default ∅ (h !! l).

(** A new dict object holding [d]. *)
Definition alloc (h : heap) (d : gmap string value) : heap * nat :=
  (h ++ [d], length h).

Fixpoint alloc_all (h : heap) (ds : list (gmap string value))
  : heap * list nat :=
  match ds with
  | [] => (h, [])
  | d :: ds' =>
      let '(h1, l) := alloc h d in
      let '(h2, ls) := alloc_all h1 ds' in
      (h2, l :: ls)
  end.

Definition with_data {A B} (e : Nx.edge A) (d : B) : Nx.edge B :=
  Nx.Edge (Nx.src e) (Nx.dst e) (Nx.key e) d.

(** The graph with [f] applied to what stands for each dict. *)
Definition map_dicts {A B} (f : A -> B) (G : Nx.MultiDiGraph A)
  : Nx.MultiDiGraph B :=
  Nx.Graph (f (Nx.graph G))
           ((λ nd, (nd.1, f nd.2)) <$> Nx._node G)
           ((λ e, with_data e (f (Nx.data e))) <$> Nx._edge G).

(** The graph as its dicts stand in the heap. *)
Definition snapshot (h : heap) (G : Nx.MultiDiGraph nat)
  : Nx.MultiDiGraph (gmap string value) :=
  map_dicts (deref h) G.

(** The addresses of the dicts of a graph, and that they are in the heap. *)
Definition locs (G : Nx.MultiDiGraph nat) : list nat :=
  Nx.graph G :: (Nx._node G).*2 ++ (Nx.data <$> Nx._edge G).

Definition in_heap (h : heap) (G : Nx.MultiDiGraph nat) : Prop :=
  Forall (λ l, l < length h)%nat (locs G).

(** [G.copy()]: a new graph whose [graph] dict, node dicts and edge dicts
    are new objects with the contents of the old ones. *)
Definition copy (h : heap) (G : Nx.MultiDiGraph nat)
  : heap * Nx.MultiDiGraph nat :=
  let '(h1, g) := alloc h (deref h (Nx.graph G)) in
  let '(h2, nls) := alloc_all h1 (deref h <$> (Nx._node G).*2) in
  let '(h3, els) := alloc_all h2 (deref h <$> (Nx.data <$> Nx._edge G)) in
  (h3, Nx.Graph g (zip (Nx._node G).*1 nls) (zip_with with_data (Nx._edge G) els)).

(** [if n not in self._succ: self._node[n] = {}]. *)
Definition add_node_ref (st : heap * Nx.MultiDiGraph nat) (n : Z)
  : heap * Nx.MultiDiGraph nat :=
  let '(h, G) := st in
  if Nx.has_node G n then st
  else
    let '(h1, l) := alloc h ∅ in
    (h1, Nx.Graph (Nx.graph G) (Nx._node G ++ [(n, l)]) (Nx._edge G)).

(** [key = self.add_edge(u, v, key); self[u][v][key].update(ddd)]: an
    edge that exists under the key keeps its dict, which is updated. *)
Definition add_edge_ref (st : heap * Nx.MultiDiGraph nat)
    (uvkd : Z * Z * Z * gmap string value) : heap * Nx.MultiDiGraph nat :=
  let '(u, v, k, ddd) := uvkd in
  let '(h, G) := add_node_ref (add_node_ref st u) v in
  match list_find (λ e, Nx.src e = u ∧ Nx.dst e = v ∧ Nx.key e = k)
                  (Nx._edge G) with
  | Some (_, e) =>
      (<[Nx.data e := ddd ∪ deref h (Nx.data e)]> h, G)
  | None =>
      let '(h1, l) := alloc h ddd in
      (h1, Nx.Graph (Nx.graph G) (Nx._node G) (Nx._edge G ++ [Nx.Edge u v k l]))
  end.

(** [nx.MultiDiGraph(uvkd)] for an iterable of 4-tuples. *)
Definition from_edgelist (h : heap)
    (uvkd : list (Z * Z * Z * gmap string value))
  : heap * Nx.MultiDiGraph nat :=
  let '(h0, g) := alloc h ∅ in
  foldl add_edge_ref (h0, Nx.Graph g [] []) uvkd.

(** [((u, v, k, d) for k, (u, v, d) in
      enumerate(G.edges(keys=False, data=True)))]. *)
Definition enumerate_edges (h : heap) (G : Nx.MultiDiGraph nat)
  : list (Z * Z * Z * gmap string value) :=
  imap (λ k e, (Nx.src e, Nx.dst e, Z.of_nat k, deref h (Nx.data e)))
       (Nx._edge G).

(** The edge a 4-tuple stands for, and the end nodes of the tuples in
    the order [add_edge] meets them. *)
Definition edge_of (uvkd : Z * Z * Z * gmap string value)
  : Nx.edge (gmap string value) :=
  let '(u, v, k, d) := uvkd in Nx.Edge u v k d.

Definition endpoints (ts : list (Z * Z * Z * gmap string value)) : list Z :=
  ts ≫= (λ t, [Nx.src (edge_of t); Nx.dst (edge_of t)]).

(** The state of [nx.MultiDiGraph(uvkd)] over the heap [h] once the nodes
    [ns] and the tuples [ts] are in: the heap has grown at its end, the
    dicts of the new graph are distinct new objects, its [graph] dict and
    node dicts are empty and its edges are those of [ts]. *)
Definition built (h : heap) (st : heap * Nx.MultiDiGraph nat)
    (ns : list Z) (ts : list (Z * Z * Z * gmap string value)) : Prop :=
  (exists t, st.1 = h ++ t) /\
  NoDup (locs st.2) /\
  Forall (λ l, length h <= l < length st.1)%nat (locs st.2) /\
  snapshot st.1 st.2
  = Nx.Graph ∅ ((λ n, (n, ∅)) <$> Nx.unique ns) (edge_of <$> ts).

Section Save.
(** Python's [str]. *)
Variable str : value -> string.

(** [for attr, value in data.items(): data[attr] = str(value)] on the
    dict at [l]. *)
Definition stringify (d : gmap string value) : gmap string value :=
  (λ x, VStr (str x)) <$> d.

Definition stringify_at (h : heap) (l : nat) : heap :=
  <[l := stringify (deref h l)]> h.

(** [save_graphml(G, filepath, gephi, encoding)]: the heap after the
    call and the graph handed to [nx.write_graphml]. *)
Definition save_graphml (h : heap) (G : Nx.MultiDiGraph nat)
    (gephi : bool) : heap * Nx.MultiDiGraph nat :=
  let '(h1, G1) :=
    if gephi then from_edgelist h (enumerate_edges h G) else copy h G in
  let h2 := stringify_at h1 (Nx.graph G1) in
  let h3 := foldl stringify_at h2 (Nx._node G1).*2 in
  let h4 := foldl stringify_at h3 (Nx.data <$> Nx._edge G1) in
  (h4, G1).

(** What [nx.write_graphml] is given to write. *)
Definition written (h : heap) (G : Nx.MultiDiGraph nat) (gephi : bool)
  : Nx.MultiDiGraph (gmap string value) :=
  let '(h', G') := save_graphml h G gephi in snapshot h' G'.

End Save.

End Io.

(** ** Python built-ins on a fragment, for running the code on examples

    The functions above take [ast.literal_eval], [str], [int] and the
    graph readers as they are.  To run them, this section gives those
    built-ins on a fragment of their inputs. *)

Module Builtins.

Local Open Scope char_scope.

Definition is_space (c : ascii) : bool :=
  bool_decide (c ∈ [" "; "009"; "010"; "013"]).

Definition is_digit (c : ascii) : bool :=
  bool_decide (c ∈ ["0"; "1"; "2"; "3"; "4"; "5"; "6"; "7"; "8"; "9"]).

(** A character that continues a name or a number. *)
Definition is_word (c : ascii) : bool :=
  let n := nat_of_ascii c in
  is_digit c || bool_decide (c = "_") || bool_decide (c = ".")
  || (bool_decide (65 <= n)%nat && bool_decide (n <= 90)%nat)
  || (bool_decide (97 <= n)%nat && bool_decide (n <= 122)%nat).

Fixpoint skip_ws (s : list ascii) : list ascii :=
  match s with
  | c :: r => if is_space c then skip_ws r else s
  | [] => []
  end.

Definition invalid_syntax {A} : res A := Err (PyExn SyntaxError "invalid syntax").

(** The text starts with the word [w], which ends there. *)
Definition keyword (w : string) (s : list ascii) : option (list ascii) :=
  let cs := String.list_ascii_of_string w in
  if bool_decide (take (length cs) s = cs) then
    match drop (length cs) s with
    | (c :: _) as r => if is_word c then None else Some r
    | [] => Some []
    end
  else None.

(** The characters of a quoted string up to the closing quote [q]; a
    backslash or a line end inside is outside the fragment. *)
Fixpoint quoted (q : ascii) (s : list ascii) : res (list ascii * list ascii) :=
  match s with
  | [] => invalid_syntax
  | c :: r =>
      if bool_decide (c = q) then Ok ([], r)
      else if bool_decide (c ∈ ["\"; "010"; "013"]) then invalid_syntax
      else '(cs, r') <- quoted q r;; Ok (c :: cs, r')
  end.

Fixpoint decimal (s : list ascii) (acc : Z) : Z * list ascii :=
  match s with
  | c :: r =>
      if is_digit c
      then decimal r (10 * acc + Z.of_nat (nat_of_ascii c - 48))
      else (acc, s)
  | [] => (acc, [])
  end.

(** A decimal integer: no leading zero before other digits, nothing of a
    name or a float after it. *)
Definition number (s : list ascii) : res (Z * list ascii) :=
  match s with
  | c :: r =>
      if is_digit c then
        let '(n, r') := decimal s 0 in
        let leading_zero :=
          bool_decide (c = "0") && bool_decide (n ≠ 0%Z) in
        match r' with
        | c' :: _ => if is_word c' || leading_zero then invalid_syntax
                     else Ok (n, r')
        | [] => if leading_zero then invalid_syntax else Ok (n, r')
        end
      else invalid_syntax
  | [] => invalid_syntax
  end.

Definition atom (s : list ascii) : res (value * list ascii) :=
  match keyword "True" s, keyword "False" s, keyword "None" s with
  | Some r, _, _ => Ok (VBool true, r)
  | _, Some r, _ => Ok (VBool false, r)
  | _, _, Some r => Ok (VNone, r)
  | _, _, _ =>
      match s with
      | "'" :: r => '(cs, r') <- quoted "'" r;;
                    Ok (VStr (String.string_of_list_ascii cs), r')
      | "034" :: r => '(cs, r') <- quoted "034" r;;
                     Ok (VStr (String.string_of_list_ascii cs), r')
      | "-" :: r => '(n, r') <- number (skip_ws r);; Ok (VInt (- n), r')
      | "+" :: r => '(n, r') <- number (skip_ws r);; Ok (VInt n, r')
      | _ => '(n, r') <- number s;; Ok (VInt n, r')
      end
  end.

Section Sequences.
(** The parser of one value. *)
Variable value_at : list ascii -> res (value * list ascii).

(** After an item of a display closed by [close]: the closing bracket,
    or a comma and either the closing bracket or the next item. *)
Fixpoint more_items (fuel : nat) (close : ascii) (s : list ascii)
  : res (list value * list ascii) :=
  match fuel with
  | O => invalid_syntax
  | S fuel' =>
      match skip_ws s with
      | c :: r =>
          if bool_decide (c = close) then Ok ([], r)
          else if bool_decide (c = ",") then
            match skip_ws r with
            | c' :: r' =>
                if bool_decide (c' = close) then Ok ([], r')
                else
                  '(x, r1) <- value_at (c' :: r');;
                  '(xs, r2) <- more_items fuel' close r1;;
                  Ok (x :: xs, r2)
            | [] => invalid_syntax
            end
          else invalid_syntax
      | [] => invalid_syntax
      end
  end.

(** [key: value] of a dict display. *)
Definition entry_at (s : list ascii) : res (value * value * list ascii) :=
  '(k, r) <- value_at s;;
  match skip_ws r with
  | ":" :: r1 => '(x, r2) <- value_at r1;; Ok (k, x, r2)
  | _ => invalid_syntax
  end.

Fixpoint more_entries (fuel : nat) (s : list ascii)
  : res (list (value * value) * list ascii) :=
  match fuel with
  | O => invalid_syntax
  | S fuel' =>
      match skip_ws s with
      | "}" :: r => Ok ([], r)
      | "," :: r =>
          match skip_ws r with
          | "}" :: r' => Ok ([], r')
          | c' :: r' =>
              '(k, x, r1) <- entry_at (c' :: r');;
              '(kxs, r2) <- more_entries fuel' r1;;
              Ok ((k, x) :: kxs, r2)
          | [] => invalid_syntax
          end
      | _ => invalid_syntax
      end
  end.
End Sequences.

(** The syntax tree of a literal, sets and dicts as written. *)
Fixpoint value_at (fuel : nat) (s : list ascii) : res (value * list ascii) :=
  match fuel with
  | O => invalid_syntax
  | S fuel' =>
      match skip_ws s with
      | "[" :: r =>
          match skip_ws r with
          | "]" :: r' => Ok (VList [], r')
          | _ =>
              '(x, r1) <- value_at fuel' r;;
              '(xs, r2) <- more_items (value_at fuel') (length r1) "]" r1;;
              Ok (VList (x :: xs), r2)
          end
      | "{" :: r =>
          match skip_ws r with
          | "}" :: r' => Ok (VDict [], r')
          | _ =>
              '(x, r1) <- value_at fuel' r;;
              match skip_ws r1 with
              | ":" :: r2 =>
                  '(y, r3) <- value_at fuel' r2;;
                  '(kxs, r4) <- more_entries (value_at fuel') (length r3) r3;;
                  Ok (VDict ((x, y) :: kxs), r4)
              | _ =>
                  '(xs, r2) <- more_items (value_at fuel') (length r1) "}" r1;;
                  Ok (VSet (x :: xs), r2)
              end
          end
      | s' => atom s'
      end
  end.

Local Close Scope char_scope.

(** [==] on the hashable values of the fragment: [True == 1]. *)
Definition atom_eqb (a b : value) : bool :=
  match a, b with
  | VNone, VNone => true
  | VStr s, VStr t => bool_decide (s = t)
  | VInt n, VInt m => bool_decide (n = m)
  | VBool x, VBool y => bool_decide (x = y)
  | VInt n, VBool x | VBool x, VInt n =>
      bool_decide (n = if x then 1 else 0)
  | _, _ => false
  end.

Definition unhashable {A} (x : value) : res A :=
  Err (PyExn TypeError ("unhashable type: '" +:+ type_name x +:+ "'")).

(** [set(items)]: the first of equal members stays. *)
Fixpoint make_set (seen items : list value) : res (list value) :=
  match items with
  | [] => Ok seen
  | x :: items' =>
      if negb (hashable x) then unhashable x
      else if existsb (atom_eqb x) seen then make_set seen items'
      else make_set (seen ++ [x]) items'
  end.

(** [dict(zip(keys, values))]: a key that comes again keeps its place and
    takes the later value. *)
Fixpoint make_dict (seen kxs : list (value * value))
  : res (list (value * value)) :=
  match kxs with
  | [] => Ok seen
  | (k, x) :: kxs' =>
      if negb (hashable k) then unhashable k
      else if existsb (λ ky, atom_eqb k ky.1) seen
      then make_dict ((λ ky, if atom_eqb k ky.1 then (ky.1, x) else ky) <$> seen)
                     kxs'
      else make_dict (seen ++ [(k, x)]) kxs'
  end.

(** The value of a syntax tree, displays evaluated inside out. *)
Fixpoint evaluate (t : value) : res value :=
  match t with
  | VList items => items' <- mapM evaluate items;; Ok (VList items')
  | VSet items =>
      items' <- mapM evaluate items;;
      members <- make_set [] items';; Ok (VSet members)
  | VDict kxs =>
      kxs' <- mapM (λ kx, k <- evaluate kx.1;; x <- evaluate kx.2;; Ok (k, x))
                   kxs;;
      entries <- make_dict [] kxs';; Ok (VDict entries)
  | _ => Ok t
  end.

(** [ast.literal_eval] on text made of list, set and dict displays,
    decimal integers, [True], [False], [None] and quoted strings without
    escapes: the text is parsed as a whole, then evaluated.  Text outside
    this fragment is answered with [SyntaxError] though Python may accept
    it (floats, tuples, escapes, adjacent strings). *)
Definition literal_eval (s : string) : res value :=
  let cs := String.list_ascii_of_string s in
  '(t, r) <- value_at (S (length cs)) cs;;
  match skip_ws r with
  | [] => evaluate t
  | _ => invalid_syntax
  end.

(** Python's [str] on strings, integers, booleans and [None], and on a
    float with an integral value below [10^16], which is written with
    [.0]; other values are outside the fragment and answered with their
    type name in angle brackets. *)
Definition str_float (f : float) : option string :=
  match Prim2SF f with
  | S754_zero sign => Some (if sign then "-0.0" else "0.0")
  | S754_finite sign m e =>
      let n :=
        if bool_decide (0 <= e) then Some (Z.pos m * 2 ^ e)
        else if bool_decide (Z.pos m mod 2 ^ (- e) = 0)
             then Some (Z.pos m / 2 ^ (- e)) else None in
      match n with
      | Some n =>
          if bool_decide (n < 10 ^ 16)
          then Some ((if sign then "-" else "") +:+ pretty n +:+ ".0")
          else None
      | None => None
      end
  | S754_infinity sign => Some (if sign then "-inf" else "inf")
  | S754_nan => Some "nan"
  end.

Definition str (x : value) : string :=
  match x with
  | VStr s => s
  | VInt n => pretty n
  | VBool b => if b then "True" else "False"
  | VNone => "None"
  | VFloat f => default "<float>" (str_float f)
  | _ => "<" +:+ type_name x +:+ ">"
  end.

(** [int] on an integer, a boolean, and text that is a decimal integer
    with an optional sign; other text is a [ValueError], other types are
    outside the fragment. *)
Definition int_of_text (cs : list ascii) : option Z :=
  let digits cs :=
    match cs with
    | [] => None
    | _ => match decimal cs 0 with
           | (n, []) => Some n
           | _ => None
           end
    end in
  match cs with
  | "-"%char :: r => Z.opp <$> digits r
  | "+"%char :: r => digits r
  | _ => digits cs
  end.

Definition int (x : value) : res value :=
  match x with
  | VInt n => Ok (VInt n)
  | VBool b => Ok (VInt (if b then 1 else 0))
  | VStr s =>
      match int_of_text (String.list_ascii_of_string s) with
      | Some n => Ok (VInt n)
      | None => Err (PyExn ValueError "invalid literal for int() with base 10")
      end
  | _ => Err (PyExn TypeError "int() argument must be a string or a real number")
  end.

(** [float] on a float, and on text [d.0] or [d] for a decimal integer
    [d] of magnitude below [2^53], where it is exact; other text is
    answered with [ValueError] though Python may accept it. *)
Definition float_of_Z (n : Z) : float :=
  if bool_decide (0 <= n) then PrimFloat.of_uint63 (Uint63.of_Z n)
  else PrimFloat.opp (PrimFloat.of_uint63 (Uint63.of_Z (- n))).

Definition float (x : value) : res value :=
  let bad := Err (PyExn ValueError "could not convert string to float") in
  match x with
  | VFloat f => Ok (VFloat f)
  | VStr s =>
      let cs := String.list_ascii_of_string s in
      let cs := match reverse cs with
                | "0"%char :: "."%char :: r => reverse r
                | _ => cs
                end in
      match int_of_text cs with
      | Some n => if bool_decide (Z.abs n < 2 ^ 53) then Ok (VFloat (float_of_Z n))
                  else bad
      | None => bad
      end
  | _ => Err (PyExn TypeError "float() argument must be a string or a real number")
  end.

(** [wkt.loads] keeps the text it is given as the geometry's name; what
    is no text is a [TypeError]. *)
Definition wkt_loads (x : value) : res value :=
  match x with
  | VStr s => Ok (VGeometry s)
  | _ => Err (PyExn TypeError "Expected bytes or string")
  end.

End Builtins.

(** ** Example graphs and frames *)

Module Examples.

(** A parser that yields [G] for whatever document it is given. *)
Definition parsed_as (G : Io.MultiDiGraph)
  : string -> (value -> res value) -> res Io.MultiDiGraph :=
  λ _ _, Ok G.

Definition no_such_file
  : string -> (value -> res value) -> res Io.MultiDiGraph :=
  λ _ _, Err (PyExn OtherError "No such file or directory").

(** A saved graph as the reader returns it, every value a string: two
    nodes and an edge that carries the ["id"] written with it. *)
Definition saved : Io.MultiDiGraph :=
  Nx.Graph
    {[ "simplified" := VStr "True"; "node_default" := VStr "{}" ]}
    [ (1, {[ "x" := VStr "3.0"; "street_count" := VStr "2" ]});
      (2, {[ "x" := VStr "4.0"; "note" := VStr "[1, 2" ]}) ]
    [ Nx.Edge 1 2 0
        {[ "id" := VStr "0"; "osmid" := VStr "[10, 11]";
           "oneway" := VStr "False"; "length" := VStr "12.0";
           "name" := VStr "[1, 2" ]} ].

(** A node whose attribute holds a list of booleans as text, with the
    boolean coercion registered for it. *)
Definition flagged : Io.MultiDiGraph :=
  Nx.Graph ∅ [ (1, {[ "flags" := VStr "[True, False]" ]}) ] [].

Definition flags_dtypes : gmap string (value -> res value) :=
  {[ "flags" := Io._convert_bool_string ]}.

(** The same attribute on an edge. *)
Definition flagged_edge : Io.MultiDiGraph :=
  Nx.Graph ∅ [ (1, ∅); (2, ∅) ]
    [ Nx.Edge 1 2 0 {[ "flags" := VStr "[True, False]" ]} ].

(** A node whose attribute is a set display with a list in it. *)
Definition tagged : Io.MultiDiGraph :=
  Nx.Graph ∅ [ (1, {[ "tags" := VStr "{[1, 2]}" ]}) ] [].

(** The edges of one way, as the rows of a frame with the way's id. *)
Definition way_frame (way_id : Z) (uvs : list (Z * Z)) : Osm_xml.DataFrame :=
  Osm_xml.Frame ["id"]
    (imap (λ i uv, Osm_xml.Row (Z.of_nat i) uv.1 uv.2 {[ "id" := VInt way_id ]})
          uvs).

Definition chain : Osm_xml.DataFrame := way_frame 7 [(1, 2); (2, 3); (3, 4)].
Definition loop : Osm_xml.DataFrame := way_frame 7 [(1, 2); (2, 3); (3, 1)].
Definition disconnected : Osm_xml.DataFrame :=
  way_frame 7 [(1, 2); (2, 3); (10, 11)].

(** The rows of [loop] in a frame that has an ["index"] column already,
    as the frame of [_append_edges_xml_tree] has after its own
    [reset_index]. *)
Definition loop_indexed : Osm_xml.DataFrame :=
  Osm_xml.Frame ["index"; "id"]
    ((λ r, Osm_xml.Row (Osm_xml.label r) (Osm_xml.u r) (Osm_xml.v r)
             (<["index" := VInt (Osm_xml.label r)]> (Osm_xml.cells r)))
       <$> Osm_xml.rows loop).

(** Two edges of one way with lengths 5.0 and 7.0. *)
Definition first_edge : Osm_xml.row :=
  Osm_xml.Row 0 1 2 {[ "id" := VInt 7; "length" := VFloat 5%float ]}.

Definition second_edge : Osm_xml.row :=
  Osm_xml.Row 1 2 3 {[ "id" := VInt 7; "length" := VFloat 7%float ]}.

Definition lengths : Osm_xml.DataFrame :=
  Osm_xml.Frame ["id"; "length"] [first_edge; second_edge].

(** A graph the caller holds: its dicts in the heap [store], nodes 10, 20
    and 30, two parallel edges from 10 to 20, node 30 without an edge. *)
Definition store : list (gmap string value) :=
  [ {[ "simplified" := VBool true ]};
    {[ "x" := VInt 1 ]}; {[ "x" := VInt 2 ]}; {[ "x" := VInt 3 ]};
    {[ "osmid" := VInt 7 ]}; {[ "osmid" := VInt 8 ]} ].

Definition held : Nx.MultiDiGraph nat :=
  Nx.Graph 0%nat [ (10, 1%nat); (20, 2%nat); (30, 3%nat) ]
    [ Nx.Edge 10 20 0 4%nat; Nx.Edge 10 20 1 5%nat ].

(** What the load of [saved] from a string returns, and its events. *)
Definition loaded : list Io.event * res Io.MultiDiGraph :=
  Eval vm_compute in
    Io.load_graphml Builtins.literal_eval Builtins.wkt_loads Builtins.float
      Builtins.int no_such_file (parsed_as saved)
      None (Some "<graphml/>") None None None.

Definition loaded_graph : Io.MultiDiGraph :=
  Eval vm_compute in
    match loaded.2 with
    | Ok G => G
    | Err _ => Nx.Graph ∅ [] []
    end.

(** [flagged_edge] with the attribute types of its edge converted. *)
Definition flagged_edge_converted : Io.MultiDiGraph :=
  Eval vm_compute in
    match Io._convert_edge_attr_types Builtins.literal_eval
            Builtins.wkt_loads flagged_edge flags_dtypes with
    | Ok G => G
    | Err _ => Nx.Graph ∅ [] []
    end.

End Examples.

(** ** osmnx/osm_xml.py: the node and way records of the tree *)

Module Osm_tree.

Import Osm_xml.

(** [series[labels].to_dict()]: the entries of the labels, in their
    order; a label the series does not have is a [KeyError]. *)
Definition select (series : gmap string string) (labels : list string)
  : res (list (string * string)) :=
  mapM (λ a, match series !! a with
             | Some x => Ok (a, x)
             | None => Err (PyExn KeyError a)
             end) labels.

(** [for tag in tags: if tag in row:
       ET.SubElement(e, "tag", attrib={"k": tag, "v": row[tag]})]. *)
Definition append_tags (row : gmap string string) (tags : list string)
    (e : Element) : Element :=
  foldl (λ e tag, match row !! tag with
                  | Some x => SubElement e "tag" [("k", tag); ("v", x)]
                  | None => e
                  end) e tags.

Definition append_child (parent child : Element) : Element :=
  match parent with
  | Elem t a cs => Elem t a (cs ++ [child])
  end.

Section Trees.
(** Python's [str]. *)
Variable str : value -> string.

(** [_append_nodes_xml_tree(root, gdf_nodes, node_attrs, node_tags)]: a
    row of the nodes frame is the dict of its cells that are not NaN. *)
Definition _append_nodes_xml_tree (root : Element)
    (gdf_nodes : list (gmap string value))
    (node_attrs node_tags : list string) : res Element :=
  Nx.foldM
    (λ root cells,
       let row := str <$> cells in
       attrib <- select row node_attrs;;
       Ok (append_child root
             (append_tags row node_tags (Elem "node" attrib []))))
    root gdf_nodes.

(** [_create_way_for_each_edge(root, gdf_edges, edge_attrs, edge_tags)]:
    the root as the call leaves it. *)
Definition _create_way_for_each_edge (root : Element) (gdf_edges : DataFrame)
    (edge_attrs edge_tags : list string) : res Element :=
  Nx.foldM
    (λ root r,
       let row := dropna_astype_str str gdf_edges r in
       attrib <- select row edge_attrs;;
       match row !! "u", row !! "v" with
       | Some ru, Some rv =>
           let edge := Elem "way" attrib [] in
           let edge := SubElement edge "nd" [("ref", ru)] in
           let edge := SubElement edge "nd" [("ref", rv)] in
           Ok (append_child root (append_tags row edge_tags edge))
       | None, _ => Err (PyExn KeyError "u")
       | _, None => Err (PyExn KeyError "v")
       end)
    root (rows gdf_edges).

(** [gdf_edges.groupby("id")]: the frames of the groups, in the order of
    their ids. *)
Variable groupby_id : DataFrame -> list DataFrame.

(** The loop over the way groups, the log carried along. *)
Fixpoint append_merged_ways (root : Element) (groups : list DataFrame)
    (edge_attrs edge_tags : list string)
    (edge_tag_aggs : option (list (string * (list (option value) -> res value))))
    (log : list string) : list string * res Element :=
  match groups with
  | [] => (log, Ok root)
  | all_way_edges :: groups' =>
      let o := append_merged_way str root all_way_edges edge_attrs edge_tags
                 edge_tag_aggs log in
      match result o with
      | Ok root' =>
          append_merged_ways root' groups' edge_attrs edge_tags edge_tag_aggs
            (log_after o)
      | Err e => (log_after o, Err e)
      end
  end.

(** [_append_edges_xml_tree(root, gdf_edges, edge_attrs, edge_tags,
    edge_tag_aggs, merge_edges)]: what was logged, and the root or the
    exception. *)
Definition _append_edges_xml_tree (root : Element) (gdf_edges : DataFrame)
    (edge_attrs edge_tags : list string)
    (edge_tag_aggs : option (list (string * (list (option value) -> res value))))
    (merge_edges : bool) (log : list string) : list string * res Element :=
  match reset_index gdf_edges with
  | Err e => (log, Err e)
  | Ok gdf_edges =>
      if merge_edges then
        append_merged_ways root (groupby_id gdf_edges) edge_attrs edge_tags
          edge_tag_aggs log
      else
        (log, _create_way_for_each_edge root gdf_edges edge_attrs edge_tags)
  end.

End Trees.

(** An [nd] child with the reference [ref], and a [tag] child whose key
    is one of [tags]. *)
Definition is_nd (ref : string) (e : Element) : Prop :=
  e = Elem "nd" [("ref", ref)] [].

Definition is_tag_of (tags : list string) (e : Element) : Prop :=
  exists k x, k ∈ tags /\ e = Elem "tag" [("k", k); ("v", x)] [].

(** A [way] element as the edges are written: the [nd] references
    first, then [tag] elements for labels of [tags]. *)
Definition way_shaped (attrs tags : list string) (e : Element) : Prop :=
  exists attrib nds tgs,
    e = Elem "way" attrib (nds ++ tgs) /\
    attrib.*1 = attrs /\
    Forall (λ c, exists ref, is_nd ref c) nds /\
    Forall (is_tag_of tags) tgs.

(** The labels that have an aggregation. *)
Definition aggregated_labels {A} (edge_tag_aggs : option (list (string * A)))
  : list string :=
  match edge_tag_aggs with
  | Some aggs => aggs.*1
  | None => []
  end.

End Osm_tree.

(** ** osmnx/osm_xml.py: the SAX content handler *)

Module Osm_sax.

(** A record the handler builds: the dict with its [type], the XML
    attributes (converted where the code converts them), its [tags], and
    its [nodes] or its [members], whichever key the dict has. *)
Record element := Element {
  etype : string;
  fields : gmap string value;
  tags : gmap string string;
  nodes : option (list value);
  members : option (list (gmap string value))
}.

(** The handler: the record dicts it has made, as objects in [store];
    [self._element], the address of the current one or [None];
    [self.object["elements"]], the addresses appended so far; and the
    other keys of [self.object]. *)
Record handler := Handler {
  store : list element;
  _element : option nat;
  elements : list (option nat);
  meta : gmap string string
}.

(** [__init__]. *)
Definition init : handler := Handler [] None [] ∅.

Inductive event :=
| Start (name : string) (attrs : gmap string string)
| End_ (name : string).

Definition not_subscriptable {A} : res A :=
  Err (PyExn TypeError "'NoneType' object is not subscriptable").

Section Handler.
(** Python's [float] and [int]. *)
Variables float int : value -> res value.

(** [{k: conv(v) for k, v in attrs.items() if k in keys}] put over the
    dict. *)
Definition convert_keys (conv : value -> res value) (keys : list string)
    (d : gmap string value) : res (gmap string value) :=
  Io.dict_mapM (λ k x, if bool_decide (k ∈ keys) then conv x else Ok x) d.

Definition int_keys : list string := ["id"; "uid"; "version"; "changeset"].

(** [dict(type=name, tags={}, ..., **attrs)]: an attribute named like
    one of the keywords is a [TypeError]. *)
Definition keyword_clash (keywords : list string)
    (attrs : gmap string string) : option string :=
  head (filter (λ k, is_Some (attrs !! k)) keywords).

Definition multiple_values {A} (k : string) : res A :=
  Err (PyExn TypeError
         ("dict() got multiple values for keyword argument '" +:+ k +:+ "'")).

Definition set_current (h : handler) (el : element) : handler :=
  Handler (store h ++ [el]) (Some (length (store h))) (elements h) (meta h).

(** The current record, for [self._element[key]]. *)
Definition current (h : handler) : res (nat * element) :=
  match _element h with
  | None => not_subscriptable
  | Some c =>
      match store h !! c with
      | Some el => Ok (c, el)
      | None => not_subscriptable
      end
  end.

Definition put (h : handler) (c : nat) (el : element) : handler :=
  Handler (<[c := el]> (store h)) (_element h) (elements h) (meta h).

Definition attr (attrs : gmap string string) (k : string) : res string :=
  match attrs !! k with
  | Some x => Ok x
  | None => Err (PyExn KeyError k)
  end.

(** [startElement(name, attrs)]. *)
Definition startElement (h : handler) (name : string)
    (attrs : gmap string string) : res handler :=
  if decide (name = "osm") then
    Ok (Handler (store h) (_element h) (elements h)
          (filter (λ kv, kv.1 ∈ ["version"; "generator"]) attrs ∪ meta h))
  else if decide (name = "node" \/ name = "way") then
    match keyword_clash ["type"; "tags"; "nodes"] attrs with
    | Some k => multiple_values k
    | None =>
        fields1 <- convert_keys float ["lat"; "lon"] (VStr <$> attrs);;
        fields2 <- convert_keys int int_keys fields1;;
        Ok (set_current h (Element name fields2 ∅ (Some []) None))
    end
  else if decide (name = "relation") then
    match keyword_clash ["type"; "tags"; "members"] attrs with
    | Some k => multiple_values k
    | None =>
        fields1 <- convert_keys int int_keys (VStr <$> attrs);;
        Ok (set_current h (Element name fields1 ∅ None (Some [])))
    end
  else if decide (name = "tag") then
    '(c, el) <- current h;;
    k <- attr attrs "k";;
    x <- attr attrs "v";;
    Ok (put h c (Element (etype el) (fields el) (<[k := x]> (tags el))
                   (nodes el) (members el)))
  else if decide (name = "nd") then
    '(c, el) <- current h;;
    match nodes el with
    | None => Err (PyExn KeyError "nodes")
    | Some refs =>
        ref <- attr attrs "ref";;
        n <- int (VStr ref);;
        Ok (put h c (Element (etype el) (fields el) (tags el)
                       (Some (refs ++ [n])) (members el)))
    end
  else if decide (name = "member") then
    '(c, el) <- current h;;
    match members el with
    | None => Err (PyExn KeyError "members")
    | Some ms =>
        m <- convert_keys int ["ref"] (VStr <$> attrs);;
        Ok (put h c (Element (etype el) (fields el) (tags el)
                       (nodes el) (Some (ms ++ [m]))))
    end
  else Ok h.

(** [endElement(name)]. *)
Definition endElement (h : handler) (name : string) : handler :=
  if decide (name = "node" \/ name = "way" \/ name = "relation")
  then Handler (store h) (_element h) (elements h ++ [_element h]) (meta h)
  else h.

Definition handle (h : handler) (ev : event) : res handler :=
  match ev with
  | Start name attrs => startElement h name attrs
  | End_ name => Ok (endElement h name)
  end.

(** [xml.sax.parse] calling the handler on the events of a document. *)
Definition parse (h : handler) (evs : list event) : res handler :=
  Nx.foldM handle h evs.

End Handler.

(** [handler.object["elements"]], the records read through their
    addresses; [None] where [None] was appended. *)
Definition records (h : handler) : list (option element) :=
  (λ r, r ≫= (λ c, store h !! c)) <$> elements h.

(** The events of a [tag] and of an [nd] child. *)
Definition tag_events (kv : string * string) : list event :=
  [Start "tag" {[ "k" := kv.1; "v" := kv.2 ]}; End_ "tag"].

Definition nd_events (ref : string) : list event :=
  [Start "nd" {[ "ref" := ref ]}; End_ "nd"].

(** Every address the handler holds is one of a record it has made. *)
Definition addressed (h : handler) : Prop :=
  (forall c, _element h = Some c -> (c < length (store h))%nat) /\
  Forall (λ r, forall c, r = Some c -> (c < length (store h))%nat)
         (elements h).

(** The start events of a record and of a child of a record. *)
Definition starts_record_or_child (ev : event) : Prop :=
  match ev with
  | Start name _ =>
      name ∈ ["node"; "way"; "relation"; "tag"; "nd"; "member"]
  | End_ _ => False
  end.

(** The end events that append a record. *)
Definition closes_record (ev : event) : Prop :=
  match ev with
  | End_ name => name = "node" \/ name = "way" \/ name = "relation"
  | Start _ _ => False
  end.

Global Instance closes_record_dec ev : Decision (closes_record ev).
Proof. destruct ev; simpl; apply _. Defined.

End Osm_sax.

(** ** environments/make-env-files.py *)

Module Env_files.

(** A [packaging] requirement: its name, the specifiers of its specifier
    set (operator and version), and [str(requirement)]. *)
Record Specifier := { operator : string; version : string }.

Record Requirement := {
  name : string;
  specifier : list Specifier;
  text : string
}.

(** [make_requirement(requirement, pin_exact, is_conda)]. *)
Definition make_requirement (requirement : Requirement)
    (pin_exact is_conda : bool) : string :=
  match specifier requirement with
  | [s] =>
      if pin_exact then
        let spec := name requirement +:+ "==" +:+ version s in
        if is_conda && negb (endswith ".*" spec) then spec +:+ ".*" else spec
      else text requirement
  | _ => text requirement
  end.

End Env_files.

(** ** What round trips, and the dicts of a graph *)

Module Codec.

(** The dicts of a graph: its [graph] dict, its node dicts, its edge
    dicts. *)
Definition dicts {D} (G : Nx.MultiDiGraph D) : list D :=
  Nx.graph G :: (Nx._node G).*2 ++ (Nx.data <$> Nx._edge G).

(** The edges without their data. *)
Definition skeleton {D} (G : Nx.MultiDiGraph D) : list (Z * Z * Z) :=
  (λ e, (Nx.src e, Nx.dst e, Nx.key e)) <$> Nx._edge G.

(** A dict whose values are booleans under names registered for
    [_convert_bool_string], and strings under names with no registered
    coercion; [parsed] says that strings that look like a list, set or
    dict are ruled out. *)
Definition plain (parsed : bool)
    (dtypes : gmap string (value -> res value))
    (d : gmap string value) : Prop :=
  forall k x, d !! k = Some x ->
    (exists b, x = VBool b /\ dtypes !! k = Some Io._convert_bool_string) \/
    (exists s, x = VStr s /\ dtypes !! k = None /\
               (parsed = true -> Io.bracket_shaped s = false)).

End Codec.

(** ** More example graphs *)

Module More_examples.

(** A graph as a reader returns it for a document with a typed
    attribute: the street count is an [int], not text. *)
Definition typed : Io.MultiDiGraph :=
  Nx.Graph ∅ [ (1, {[ "street_count" := VInt 3 ]}) ] [].

(** A graph with an edge whose ["oneway"] is neither of the two
    literals. *)
Definition bad_oneway : Io.MultiDiGraph :=
  Nx.Graph ∅ [ (1, ∅); (2, ∅) ]
    [ Nx.Edge 1 2 0 {[ "oneway" := VStr "yes" ]} ].

(** The attributes of an edge with a geometry. *)
Definition with_geometry : gmap string value :=
  {[ "geometry" := VStr "LINESTRING (0 0, 1 1)"; "name" := VStr "Main" ]}.

Definition with_geometry_converted : gmap string value :=
  Eval vm_compute in
    match Io.convert_edge_data Builtins.literal_eval Builtins.wkt_loads ∅
            with_geometry with
    | Ok d => d
    | Err _ => ∅
    end.

(** A graph the caller holds whose attributes are booleans and plain
    strings, and the coercions registered for the booleans. *)
Definition plain_store : list (gmap string value) :=
  [ {[ "simplified" := VBool true; "crs" := VStr "[epsg:4326" ]};
    {[ "highway" := VStr "stop" ]}; ∅;
    {[ "oneway" := VBool false; "name" := VStr "Main" ]} ].

Definition plain_held : Nx.MultiDiGraph nat :=
  Nx.Graph 0%nat [ (1, 1%nat); (2, 2%nat) ] [ Nx.Edge 1 2 0 3%nat ].

Definition bool_dtypes (names : list string)
  : gmap string (value -> res value) :=
  list_to_map ((λ k, (k, Io._convert_bool_string)) <$> names).

(** Two rows of a nodes frame, the second without a ["highway"], and
    the tree [_append_nodes_xml_tree] makes of them. *)
Definition node_rows : list (gmap string value) :=
  [ {[ "id" := VInt 1; "highway" := VStr "stop" ]}; {[ "id" := VInt 2 ]} ].

Definition nodes_tree : Osm_xml.Element :=
  Eval vm_compute in
    match Osm_tree._append_nodes_xml_tree Builtins.str
            (Osm_xml.Elem "osm" [] []) node_rows ["id"] ["highway"] with
    | Ok root => root
    | Err _ => Osm_xml.Elem "osm" [] []
    end.

(** The tree with one way for each edge of [Examples.lengths]. *)
Definition ways_tree : Osm_xml.Element :=
  Eval vm_compute in
    match Osm_tree._create_way_for_each_edge Builtins.str
            (Osm_xml.Elem "osm" [] []) Examples.lengths ["id"] ["length"] with
    | Ok root => root
    | Err _ => Osm_xml.Elem "osm" [] []
    end.

(** A way of one edge. *)
Definition one_edge : Osm_xml.DataFrame :=
  Osm_xml.Frame ["id"; "length"] [Examples.first_edge].

(** The way of [Examples.lengths] with its lengths summed, when no tag
    was asked for. *)
Definition aggregated_way : Osm_xml.Element :=
  Eval vm_compute in
    match Osm_xml._append_merged_edge_attrs Builtins.str
            (Osm_xml.Elem "way" [] [])
            (Osm_xml.dropna_astype_str Builtins.str Examples.lengths
               Examples.first_edge)
            Examples.lengths [] (Some [("length", Osm_xml.agg_sum)]) with
    | Ok e => e
    | Err _ => Osm_xml.Elem "way" [] []
    end.

(** The events of a small document: the root and a node, then a way
    with two node references and a tag. *)
Definition node_attrs : gmap string string :=
  {[ "id" := "1"; "lat" := "48.0"; "lon" := "2.0"; "user" := "ann" ]}.

Definition document : list Osm_sax.event :=
  [ Osm_sax.Start "osm" {[ "version" := "0.6"; "upload" := "false" ]};
    Osm_sax.Start "node" node_attrs; Osm_sax.End_ "node" ].

Definition way_block : list Osm_sax.event :=
  Osm_sax.Start "way" {[ "id" := "7" ]}
    :: (["1"; "2"] ≫= Osm_sax.nd_events)
    ++ ([("highway", "residential")] ≫= Osm_sax.tag_events)
    ++ [Osm_sax.End_ "way"].

Definition parsed (h : Osm_sax.handler) (evs : list Osm_sax.event)
  : Osm_sax.handler :=
  match Osm_sax.parse Builtins.float Builtins.int h evs with
  | Ok h' => h'
  | Err _ => h
  end.

Definition after_node : Osm_sax.handler :=
  Eval vm_compute in parsed Osm_sax.init document.

Definition after_way : Osm_sax.handler :=
  Eval vm_compute in parsed Osm_sax.init (document ++ way_block).

Definition node_started : Osm_sax.handler :=
  Eval vm_compute in
    parsed Osm_sax.init [Osm_sax.Start "node" node_attrs].


(** [Examples.lengths] written as one merged way: what was logged and
    the tree.  All its edges have the same id, so the frame is the one
    group. *)
Definition one_group (df : Osm_xml.DataFrame) : list Osm_xml.DataFrame :=
  [df].

Definition merged_tree : list string * Osm_xml.Element :=
  Eval vm_compute in
    match Osm_tree._append_edges_xml_tree Builtins.str one_group
            (Osm_xml.Elem "osm" [] []) Examples.lengths ["id"] ["length"]
            (Some [("length", Osm_xml.agg_sum)]) true [] with
    | (log, Ok root) => (log, root)
    | (log, Err _) => (log, Osm_xml.Elem "osm" [] [])
    end.

End More_examples.

(** * Properties *)

Import Io.

(** ** Results and dicts *)

Section Monad_facts.
Context {A B : Type}.
Implicit Types (f : A -> res B) (l : list A).

Lemma mapM_Ok_Forall2 f l (l' : list B) :
  mapM f l = Ok l' <-> Forall2 (λ x y, f x = Ok y) l l'.
Proof.
  revert l'. induction l as [|x l IH]; intros l'; simpl.
  - split.
    + intros [= <-]. constructor.
    + intros H. inversion H. reflexivity.
  - split.
    + destruct (f x) as [y|e] eqn:Hx; simpl; [|discriminate].
      destruct (mapM f l) as [ys|e] eqn:Hl; simpl; [|discriminate].
      intros [= <-]. constructor; [assumption|]. by apply IH.
    + intros H. inversion H as [|? y ? ys Hx Hl]; subst.
      rewrite Hx. simpl. apply IH in Hl. rewrite Hl. reflexivity.
Qed.


End Monad_facts.

Section Dict_facts.
Implicit Types (f : string -> value -> res value) (d : gmap string value).

Lemma dict_mapM_Ok f d d' :
  dict_mapM f d = Ok d' ->
  forall k, match d !! k with
            | Some x => exists y, f k x = Ok y /\ d' !! k = Some y
            | None => d' !! k = None
            end.
Proof.
  unfold dict_mapM.
  destruct (mapM _ (map_to_list d)) as [kvs|e] eqn:Hm; simpl; [|discriminate].
  intros [= <-] k.
  apply mapM_Ok_Forall2 in Hm.
  assert (Hkeys : kvs.*1 = (map_to_list d).*1).
  { clear -Hm. induction Hm as [|kv kv' l l' H _ IH]; [done|].
    rewrite !fmap_cons, IH. f_equal.
    destruct (f kv.1 kv.2); simpl in H; [|discriminate]. by injection H as <-. }
  assert (Hnd : NoDup kvs.*1).
  { rewrite Hkeys. apply NoDup_fst_map_to_list. }
  destruct (d !! k) as [x|] eqn:Hk.
  - apply elem_of_map_to_list in Hk.
    clear Hkeys. induction Hm as [|kv kv' l l' H Hm IH]; [by apply elem_of_nil in Hk|].
    apply elem_of_cons in Hk as [<-|Hk].
    + simpl in H. destruct (f k x) as [y|]; simpl in H; [|discriminate].
      injection H as <-. exists y. split; [done|].
      simpl. apply lookup_insert_eq.
    + rewrite fmap_cons in Hnd. apply NoDup_cons in Hnd as [Hnotin Hnd].
      destruct (IH Hnd Hk) as (y & Hy & Hl). exists y. split; [done|].
      simpl. rewrite lookup_insert_ne; [done|].
      intros Heq. apply Hnotin. rewrite Heq.
      apply elem_of_list_to_map_2 in Hl.
      apply list_elem_of_fmap. by exists (k, y).
  - apply not_elem_of_list_to_map_1. rewrite Hkeys.
    intros Hin. apply list_elem_of_fmap in Hin as ([k' x] & -> & Hin).
    apply elem_of_map_to_list in Hin. simpl in Hk. congruence.
Qed.


End Dict_facts.

Lemma dict_mapM_ext (f g : string -> value -> res value)
    (d : gmap string value) :
  (forall k x, d !! k = Some x -> f k x = g k x) ->
  dict_mapM f d = dict_mapM g d.
Proof.
  intros H. unfold dict_mapM. f_equal.
  assert (Hl : forall kv, kv ∈ map_to_list d -> f kv.1 kv.2 = g kv.1 kv.2).
  { intros [k x] Hin. apply H. by apply elem_of_map_to_list. }
  induction (map_to_list d) as [|kv l IH]; [done|].
  simpl. rewrite (Hl kv) by left. rewrite IH; [done|].
  intros kv' Hin. apply Hl. by right.
Qed.

Lemma dict_mapM_singleton (f : string -> value -> res value) k x y :
  f k x = Ok y -> dict_mapM f {[k := x]} = Ok {[k := y]}.
Proof.
  intros Hf. unfold dict_mapM. rewrite map_to_list_singleton.
  change (mapM ?g [(k, x)]) with
    (bind (g (k, x)) (λ kv, bind (Ok []) (λ kvs, Ok (kv :: kvs)))).
  cbn [fst snd]. rewrite Hf. simpl. by rewrite insert_empty.
Qed.

(** ** Boolean coercion *)

(** C4: [_convert_bool_string] maps the text ["False"] to [False] and the
    text ["True"] to [True], and raises [ValueError] on every other text:
    no text becomes a boolean by truthiness. *)
Theorem convert_bool_string_strict (s : string) :
  _convert_bool_string (VStr "False") = Ok (VBool false) /\
  _convert_bool_string (VStr "True") = Ok (VBool true) /\
  (s <> "True" -> s <> "False" ->
   _convert_bool_string (VStr s) = Err (InvalidBoolLiteral (VStr s)) /\
   class_of (InvalidBoolLiteral (VStr s)) = ValueError).
Proof.
  split; [reflexivity|]. split; [reflexivity|].
  intros HT HF. split; [|reflexivity].
  unfold _convert_bool_string. simpl.
  destruct (decide (s = "True" \/ s = "False")) as [[?|?]|_]; done.
Qed.

Lemma convert_bool_string_strict_witness :
  _convert_bool_string (VStr "") = Err (InvalidBoolLiteral (VStr "")) /\
  _convert_bool_string (VStr "false") = Err (InvalidBoolLiteral (VStr "false")).
Proof.
  split.
  - apply (convert_bool_string_strict ""); discriminate.
  - apply (convert_bool_string_strict "false"); discriminate.
Defined.

(** ** Loading *)

Section Load_facts.
Variable literal_eval : string -> res value.
Variable wkt_loads : value -> res value.
Variables py_float py_int : value -> res value.
Variable read_graphml : string -> (value -> res value) -> res MultiDiGraph.
Variable parse_graphml : string -> (value -> res value) -> res MultiDiGraph.

Abbreviation eval_literal := (eval_literal literal_eval).
Abbreviation eval_literals := (eval_literals literal_eval).
Abbreviation convert_node_data := (convert_node_data literal_eval).
Abbreviation convert_edge_data := (convert_edge_data literal_eval wkt_loads).
Abbreviation _convert_node_attr_types := (_convert_node_attr_types literal_eval).
Abbreviation _convert_edge_attr_types :=
  (_convert_edge_attr_types literal_eval wkt_loads).
Abbreviation load_graphml :=
  (load_graphml literal_eval wkt_loads py_float py_int read_graphml
                parse_graphml).

Implicit Types (data : gmap string value)
  (dtypes : gmap string (value -> res value)) (G : MultiDiGraph).

Lemma eval_literals_lookup data data1 attr :
  eval_literals data = Ok data1 ->
  match data !! attr with
  | Some x => exists y, eval_literal x = Ok y /\ data1 !! attr = Some y
  | None => data1 !! attr = None
  end.
Proof. intros H. apply (dict_mapM_Ok _ _ _ H attr). Qed.

(** The edges of the converted graph are the edges of the graph, each
    with its data converted. *)
Lemma convert_edge_attr_types_edges G dtypes G' :
  _convert_edge_attr_types G dtypes = Ok G' ->
  Forall2 (λ e e', Nx.src e' = Nx.src e /\ Nx.dst e' = Nx.dst e /\
                   Nx.key e' = Nx.key e /\
                   convert_edge_data dtypes (Nx.data e) = Ok (Nx.data e'))
          (Nx._edge G) (Nx._edge G').
Proof.
  unfold Io._convert_edge_attr_types.
  destruct (mapM _ (Nx._edge G)) as [es|] eqn:Hm; simpl; [|discriminate].
  intros [= <-]. simpl. apply mapM_Ok_Forall2 in Hm.
  eapply Forall2_impl; [exact Hm|].
  intros e e' H. simpl in H.
  destruct (Io.convert_edge_data _ _ _ _) as [d|]; simpl in H; [|discriminate].
  injection H as <-. done.
Qed.

Lemma convert_node_attr_types_nodes G dtypes G' :
  _convert_node_attr_types G dtypes = Ok G' ->
  Forall2 (λ nd nd', nd'.1 = nd.1 /\
                     convert_node_data dtypes nd.2 = Ok nd'.2)
          (Nx._node G) (Nx._node G').
Proof.
  unfold Io._convert_node_attr_types.
  destruct (mapM _ (Nx._node G)) as [ns|] eqn:Hm; simpl; [|discriminate].
  intros [= <-]. simpl. apply mapM_Ok_Forall2 in Hm.
  eapply Forall2_impl; [exact Hm|].
  intros nd nd' H. simpl in H.
  destruct (Io.convert_node_data _ _ _) as [d|]; simpl in H; [|discriminate].
  injection H as <-. done.
Qed.

(** No conversion step gives an edge a key it did not have. *)
Lemma convert_edge_data_no_id dtypes data data' :
  convert_edge_data dtypes data = Ok data' -> data' !! "id" = None.
Proof.
  unfold Io.convert_edge_data.
  destruct (Io.eval_literals _ _) as [data1|] eqn:H1; simpl; [|discriminate].
  destruct (convert_items dtypes data1) as [data2|] eqn:H2; simpl; [|discriminate].
  assert (Hid : data2 !! "id" = None).
  { pose proof (eval_literals_lookup _ _ "id" H1) as Ha.
    rewrite lookup_delete_eq in Ha.
    pose proof (dict_mapM_Ok _ _ _ H2 "id") as Hb.
    by rewrite Ha in Hb. }
  destruct (data2 !! "geometry") as [g|]; [|by intros [= <-]].
  destruct (wkt_loads g); simpl; [|discriminate].
  intros [= <-]. by rewrite lookup_insert_ne.
Qed.

Lemma convert_edge_data_ignores_id_dtype dtypes data :
  convert_edge_data (delete "id" dtypes) data = convert_edge_data dtypes data.
Proof.
  unfold Io.convert_edge_data.
  destruct (Io.eval_literals _ _) as [data1|] eqn:H1; simpl; [|done].
  assert (Hid : data1 !! "id" = None).
  { pose proof (eval_literals_lookup _ _ "id" H1) as Ha.
    by rewrite lookup_delete_eq in Ha. }
  replace (convert_items (delete "id" dtypes) data1)
    with (convert_items dtypes data1); [done|].
  apply dict_mapM_ext. intros k x Hk. unfold coerce_items.
  rewrite lookup_delete_ne; [done|]. intros <-. congruence.
Qed.

Lemma convert_edge_attr_types_ignores_id_dtype G dtypes :
  _convert_edge_attr_types G (delete "id" dtypes)
  = _convert_edge_attr_types G dtypes.
Proof.
  unfold Io._convert_edge_attr_types. f_equal.
  induction (Nx._edge G) as [|e es IH]; [done|].
  simpl. by rewrite convert_edge_data_ignores_id_dtype, IH.
Qed.

Lemma updated_delete_id (defaults : gmap string (value -> res value)) user :
  defaults !! "id" = None ->
  updated defaults (delete "id" <$> user) = delete "id" (updated defaults user).
Proof.
  intros Hd. destruct user as [dtypes|]; simpl.
  - apply map_eq. intros k. rewrite lookup_delete, !lookup_union.
    case_decide as Hk.
    + subst k. by rewrite lookup_delete_eq, Hd.
    + by rewrite lookup_delete_ne.
  - symmetry. by apply delete_id.
Qed.

(** C6: [load_graphml] raises its [ValueError] on the two sources, before
    anything is read, parsed or logged, exactly when both [filepath] and
    [graphml_str] are given or neither is. *)
Theorem load_graphml_source_check filepath graphml_str
    node_dtypes edge_dtypes graph_dtypes :
  load_graphml filepath graphml_str node_dtypes edge_dtypes graph_dtypes
    = ([], Err (PyExn ValueError one_and_only_one))
  <-> (filepath = None /\ graphml_str = None)
      \/ (is_Some filepath /\ is_Some graphml_str).
Proof.
  unfold Io.load_graphml.
  destruct filepath as [fp|], graphml_str as [doc|].
  - split; [|done]. intros _. right. eauto.
  - split.
    + destruct (_ !! "osmid"); [|discriminate].
      destruct (read_graphml fp _); [|discriminate].
      destruct (bind _ _); discriminate.
    + intros [[? _]|[_ [? ?]]]; discriminate.
  - split.
    + destruct (_ !! "osmid"); [|discriminate].
      simpl. destruct (parse_graphml doc _); [|discriminate].
      destruct (bind _ _); discriminate.
    + intros [[_ ?]|[[? ?] _]]; discriminate.
  - split; [|done]. intros _. by left.
Qed.

(** C10: after [load_graphml] no edge has an attribute ["id"], whatever
    the document gave it, and an entry for ["id"] in [edge_dtypes] changes
    nothing: the load goes as it does without the entry. *)
Theorem load_graphml_drops_edge_id filepath graphml_str
    node_dtypes edge_dtypes graph_dtypes events G :
  load_graphml filepath graphml_str node_dtypes edge_dtypes graph_dtypes
    = (events, Ok G) ->
  Forall (λ e, Nx.data e !! "id" = None) (Nx._edge G) /\
  load_graphml filepath graphml_str node_dtypes (delete "id" <$> edge_dtypes)
               graph_dtypes = (events, Ok G).
Proof.
  intros Hload. split.
  - revert Hload. unfold Io.load_graphml.
    assert (Hconv : forall G0 gdt ndt edt ev1 ev2 n m src,
      match (G1 <- _convert_graph_attr_types G0 gdt;;
             G2 <- _convert_node_attr_types G1 ndt;;
             _convert_edge_attr_types G2 edt) with
      | Err e => ([ev1; ev2], Err e)
      | Ok G3 => ([ev1; ev2; LogLoaded (n G3) (m G3) src], Ok G3)
      end = (events, Ok G) ->
      Forall (λ e, Nx.data e !! "id" = None) (Nx._edge G)).
    { intros G0 gdt ndt edt ev1 ev2 n m src.
      destruct (_convert_graph_attr_types G0 gdt) as [G1|]; simpl; [|discriminate].
      destruct (_convert_node_attr_types G1 ndt) as [G2|]; simpl; [|discriminate].
      destruct (_convert_edge_attr_types G2 edt) as [G3|] eqn:H3; [|discriminate].
      intros [= _ <-].
      apply convert_edge_attr_types_edges in H3.
      clear -H3. induction H3 as [|e e' es es' (_ & _ & _ & He) _ IH];
        constructor; [|done].
      by apply convert_edge_data_no_id in He. }
    destruct filepath as [fp|], graphml_str as [doc|]; try discriminate.
    + destruct (_ !! "osmid"); [|discriminate].
      destruct (read_graphml fp _); [|discriminate]. apply Hconv.
    + destruct (_ !! "osmid"); [|discriminate].
      simpl. destruct (parse_graphml doc _); [|discriminate]. apply Hconv.
  - rewrite <- Hload. unfold Io.load_graphml.
    rewrite updated_delete_id by reflexivity.
    destruct filepath as [fp|], graphml_str as [doc|]; try done.
    + destruct (_ !! "osmid"); [|done].
      destruct (read_graphml fp _); [|done].
      destruct (_convert_graph_attr_types _ _); simpl; [|done].
      destruct (Io._convert_node_attr_types _ _ _); simpl; [|done].
      by rewrite convert_edge_attr_types_ignores_id_dtype.
    + destruct (_ !! "osmid"); [|done].
      simpl. destruct (parse_graphml doc _); [|done].
      destruct (_convert_graph_attr_types _ _); simpl; [|done].
      destruct (Io._convert_node_attr_types _ _ _); simpl; [|done].
      by rewrite convert_edge_attr_types_ignores_id_dtype.
Qed.

(** What becomes of one attribute of a node, and of an edge. *)
Lemma convert_node_data_lookup dtypes data data' attr x :
  convert_node_data dtypes data = Ok data' ->
  data !! attr = Some x ->
  exists parsed y, eval_literal x = Ok parsed /\
                   coerce dtypes attr parsed = Ok y /\
                   data' !! attr = Some y.
Proof.
  unfold Io.convert_node_data. intros H Hx.
  destruct (Io.eval_literals _ _) as [data1|] eqn:H1; simpl in H; [|discriminate].
  pose proof (eval_literals_lookup _ _ attr H1) as Ha. rewrite Hx in Ha.
  destruct Ha as (parsed & Hp & Hl1).
  pose proof (dict_mapM_Ok _ _ _ H attr) as Hb. rewrite Hl1 in Hb.
  destruct Hb as (y & Hy & Hl). eauto.
Qed.

Lemma convert_edge_data_lookup dtypes data data' attr x :
  convert_edge_data dtypes data = Ok data' ->
  data !! attr = Some x -> attr <> "id" -> attr <> "geometry" ->
  exists parsed y, eval_literal x = Ok parsed /\
                   coerce_items dtypes attr parsed = Ok y /\
                   data' !! attr = Some y.
Proof.
  unfold Io.convert_edge_data. intros H Hx Hid Hgeo.
  destruct (Io.eval_literals _ _) as [data1|] eqn:H1; simpl in H; [|discriminate].
  destruct (convert_items dtypes data1) as [data2|] eqn:H2; simpl in H; [|discriminate].
  pose proof (eval_literals_lookup _ _ attr H1) as Ha.
  rewrite lookup_delete_ne, Hx in Ha by done.
  destruct Ha as (parsed & Hp & Hl1).
  pose proof (dict_mapM_Ok _ _ _ H2 attr) as Hb. rewrite Hl1 in Hb.
  destruct Hb as (y & Hy & Hl2).
  exists parsed, y. split; [done|]. split; [done|].
  destruct (data2 !! "geometry") as [g|]; [|by injection H as <-].
  destruct (wkt_loads g); simpl in H; [|discriminate].
  injection H as <-. by rewrite lookup_insert_ne.
Qed.

(** C5, as the code has it: a string that is not bracket-shaped at both
    ends (so ["[1, 2"], which does not end with a bracket) is not parsed,
    and a bracket-shaped string on which [ast.literal_eval] raises
    [SyntaxError] or [ValueError] (so ["[1 2]"]) is kept by the
    structural-parse step, which raises nothing; the node or edge
    attribute that holds such a string and has no registered coercion is
    that same string after the conversion, and a dict of this one
    attribute converts to itself.  A graph-level attribute is not parsed
    and without a registered coercion stays the same string too. *)
Theorem bracket_shaped_unparsable_kept (s : string) :
  (bracket_shaped s = true ->
   exists e, literal_eval s = Err e /\
             (class_of e = SyntaxError \/ class_of e = ValueError)) ->
  eval_literal (VStr s) = Ok (VStr s) /\
  (forall dtypes data data' attr,
     data !! attr = Some (VStr s) -> dtypes !! attr = None ->
     convert_node_data dtypes data = Ok data' ->
     data' !! attr = Some (VStr s)) /\
  (forall dtypes data data' attr,
     data !! attr = Some (VStr s) -> dtypes !! attr = None ->
     attr <> "id" -> attr <> "geometry" ->
     convert_edge_data dtypes data = Ok data' ->
     data' !! attr = Some (VStr s)) /\
  (forall dtypes attr,
     dtypes !! attr = None ->
     convert_node_data dtypes {[attr := VStr s]} = Ok {[attr := VStr s]} /\
     (attr <> "id" -> attr <> "geometry" ->
      convert_edge_data dtypes {[attr := VStr s]} = Ok {[attr := VStr s]})) /\
  (forall G dtypes G' attr,
     Nx.graph G !! attr = Some (VStr s) -> dtypes !! attr = None ->
     attr <> "node_default" -> attr <> "edge_default" ->
     _convert_graph_attr_types G dtypes = Ok G' ->
     Nx.graph G' !! attr = Some (VStr s)).
Proof.
  intros Hfail.
  assert (Hkeep : eval_literal (VStr s) = Ok (VStr s)).
  { unfold Io.eval_literal, suppressed.
    destruct (bracket_shaped s); [|done].
    destruct Hfail as (e & -> & [-> | ->]); done. }
  split; [exact Hkeep|]. split; [|split; [|split]].
  - intros dtypes data data' attr Hx Hdt H.
    destruct (convert_node_data_lookup _ _ _ _ _ H Hx) as (p & y & Hp & Hy & Hl).
    unfold coerce in Hy. rewrite Hdt in Hy. congruence.
  - intros dtypes data data' attr Hx Hdt Hid Hgeo H.
    destruct (convert_edge_data_lookup _ _ _ _ _ H Hx Hid Hgeo)
      as (p & y & Hp & Hy & Hl).
    unfold coerce_items in Hy. rewrite Hdt in Hy. congruence.
  - intros dtypes attr Hdt.
    assert (H1 : eval_literals {[attr := VStr s]} = Ok {[attr := VStr s]}).
    { by apply dict_mapM_singleton. }
    split.
    + unfold Io.convert_node_data. rewrite H1. simpl.
      apply dict_mapM_singleton. unfold coerce. by rewrite Hdt.
    + intros Hid Hgeo. unfold Io.convert_edge_data.
      rewrite delete_singleton_ne by done. rewrite H1. simpl.
      unfold convert_items. rewrite (dict_mapM_singleton _ _ _ (VStr s)).
      * simpl. by rewrite lookup_singleton_ne.
      * unfold coerce_items. by rewrite Hdt.
  - intros G dtypes G' attr Hx Hdt Hnd Hed H.
    unfold _convert_graph_attr_types in H.
    destruct (convert_whole _ _) as [graph'|] eqn:Hc; simpl in H; [|discriminate].
    injection H as <-. simpl.
    pose proof (dict_mapM_Ok _ _ _ Hc attr) as Hb.
    rewrite !lookup_delete_ne, Hx in Hb by done.
    destruct Hb as (y & Hy & Hl). unfold coerce in Hy. rewrite Hdt in Hy.
    congruence.
Qed.

(** C2, as the code has it: the coercion registered for an edge
    attribute is applied to each item when the parsed value is a [list];
    an edge value parsed to anything else, and every node value, is given
    to the coercion as a whole; a graph-level value is not parsed and is
    given to the coercion as it is. *)
Theorem coercion_elementwise_on_edge_lists :
  (forall G dtypes G' i e attr x conv items,
     _convert_edge_attr_types G dtypes = Ok G' ->
     Nx._edge G !! i = Some e -> Nx.data e !! attr = Some x ->
     attr <> "id" -> attr <> "geometry" ->
     dtypes !! attr = Some conv -> eval_literal x = Ok (VList items) ->
     exists e' items',
       Nx._edge G' !! i = Some e' /\ mapM conv items = Ok items' /\
       Nx.data e' !! attr = Some (VList items')) /\
  (forall G dtypes G' i e attr x conv parsed,
     _convert_edge_attr_types G dtypes = Ok G' ->
     Nx._edge G !! i = Some e -> Nx.data e !! attr = Some x ->
     attr <> "id" -> attr <> "geometry" ->
     dtypes !! attr = Some conv -> eval_literal x = Ok parsed ->
     (forall items, parsed <> VList items) ->
     exists e' y,
       Nx._edge G' !! i = Some e' /\ conv parsed = Ok y /\
       Nx.data e' !! attr = Some y) /\
  (forall G dtypes G' i n data attr x conv parsed,
     _convert_node_attr_types G dtypes = Ok G' ->
     Nx._node G !! i = Some (n, data) -> data !! attr = Some x ->
     dtypes !! attr = Some conv -> eval_literal x = Ok parsed ->
     exists data' y,
       Nx._node G' !! i = Some (n, data') /\ conv parsed = Ok y /\
       data' !! attr = Some y) /\
  (forall G dtypes G' attr x conv,
     _convert_graph_attr_types G dtypes = Ok G' ->
     Nx.graph G !! attr = Some x ->
     attr <> "node_default" -> attr <> "edge_default" ->
     dtypes !! attr = Some conv ->
     exists y, conv x = Ok y /\ Nx.graph G' !! attr = Some y).
Proof.
  split; [|split; [|split]].
  - intros G dtypes G' i e attr x conv items H He Hx Hid Hgeo Hdt Hp.
    apply convert_edge_attr_types_edges in H.
    destruct (Forall2_lookup_l _ _ _ _ _ H He) as (e' & He' & _ & _ & _ & Hc).
    destruct (convert_edge_data_lookup _ _ _ _ _ Hc Hx Hid Hgeo)
      as (p & y & Hp' & Hy & Hl).
    rewrite Hp in Hp'. injection Hp' as <-.
    unfold coerce_items in Hy. rewrite Hdt in Hy.
    destruct (mapM conv items) as [items'|]; simpl in Hy; [|discriminate].
    injection Hy as <-. eauto.
  - intros G dtypes G' i e attr x conv parsed H He Hx Hid Hgeo Hdt Hp Hnl.
    apply convert_edge_attr_types_edges in H.
    destruct (Forall2_lookup_l _ _ _ _ _ H He) as (e' & He' & _ & _ & _ & Hc).
    destruct (convert_edge_data_lookup _ _ _ _ _ Hc Hx Hid Hgeo)
      as (p & y & Hp' & Hy & Hl).
    rewrite Hp in Hp'. injection Hp' as <-.
    unfold coerce_items in Hy. rewrite Hdt in Hy.
    exists e', y. split; [done|]. split; [|done].
    destruct parsed; try done. by destruct (Hnl items).
  - intros G dtypes G' i n data attr x conv parsed H Hn Hx Hdt Hp.
    apply convert_node_attr_types_nodes in H.
    destruct (Forall2_lookup_l _ _ _ _ _ H Hn) as ([n' data'] & Hn' & Hn1 & Hc).
    simpl in Hn1, Hc. subst n'.
    destruct (convert_node_data_lookup _ _ _ _ _ Hc Hx)
      as (p & y & Hp' & Hy & Hl).
    rewrite Hp in Hp'. injection Hp' as <-.
    unfold coerce in Hy. rewrite Hdt in Hy. eauto.
  - intros G dtypes G' attr x conv H Hx Hnd Hed Hdt.
    unfold _convert_graph_attr_types in H.
    destruct (convert_whole _ _) as [graph'|] eqn:Hc; simpl in H; [|discriminate].
    injection H as <-. simpl.
    pose proof (dict_mapM_Ok _ _ _ Hc attr) as Hb.
    rewrite !lookup_delete_ne, Hx in Hb by done.
    destruct Hb as (y & Hy & Hl). unfold coerce in Hy. rewrite Hdt in Hy. eauto.
Qed.

End Load_facts.

Lemma load_graphml_drops_edge_id_witness :
  load_graphml Builtins.literal_eval Builtins.wkt_loads Builtins.float
    Builtins.int Examples.no_such_file (Examples.parsed_as Examples.saved)
    None (Some "<graphml/>") None None None
    = (Examples.loaded.1, Ok Examples.loaded_graph) /\
  Forall (λ e, Nx.data e !! "id" = None) (Nx._edge Examples.loaded_graph).
Proof.
  assert (Hload :
    load_graphml Builtins.literal_eval Builtins.wkt_loads Builtins.float
      Builtins.int Examples.no_such_file (Examples.parsed_as Examples.saved)
      None (Some "<graphml/>") None None None
      = (Examples.loaded.1, Ok Examples.loaded_graph)).
  { vm_cast_no_check (eq_refl (Examples.loaded.1, Ok Examples.loaded_graph)). }
  split; [exact Hload|].
  exact (proj1 (load_graphml_drops_edge_id _ _ _ _ _ _ _ _ _ _ _ _ _ Hload)).
Defined.

Lemma bracket_shaped_unparsable_kept_witness :
  (eval_literal Builtins.literal_eval (VStr "[1, 2") = Ok (VStr "[1, 2") /\
   convert_node_data Builtins.literal_eval ∅ {[ "note" := VStr "[1, 2" ]}
     = Ok {[ "note" := VStr "[1, 2" ]}) /\
  (eval_literal Builtins.literal_eval (VStr "[1 2]") = Ok (VStr "[1 2]") /\
   convert_edge_data Builtins.literal_eval Builtins.wkt_loads ∅
     {[ "name" := VStr "[1 2]" ]} = Ok {[ "name" := VStr "[1 2]" ]}).
Proof.
  split.
  - destruct (bracket_shaped_unparsable_kept Builtins.literal_eval
                Builtins.wkt_loads "[1, 2") as (H1 & _ & _ & H4 & _).
    { intros H. vm_compute in H. discriminate. }
    split; [exact H1|].
    destruct (H4 ∅ "note") as [Hnode _]; [apply lookup_empty|]. exact Hnode.
  - destruct (bracket_shaped_unparsable_kept Builtins.literal_eval
                Builtins.wkt_loads "[1 2]") as (H1 & _ & _ & H4 & _).
    { intros _. exists (PyExn SyntaxError "invalid syntax").
      split; [reflexivity | by left]. }
    split; [exact H1|].
    destruct (H4 ∅ "name") as [_ Hedge]; [apply lookup_empty|].
    apply Hedge; discriminate.
Defined.

(** The claim C5 as it is written fails on a bracket-shaped string whose
    evaluation raises another class of error: the set display
    ["{[1, 2]}"] has an unhashable member, [ast.literal_eval] raises
    [TypeError], and the conversion of the node attributes raises it too. *)
Lemma unhashable_member_aborts_conversion :
  bracket_shaped "{[1, 2]}" = true /\
  Builtins.literal_eval "{[1, 2]}"
    = Err (PyExn TypeError "unhashable type: 'list'") /\
  _convert_node_attr_types Builtins.literal_eval Examples.tagged ∅
    = Err (PyExn TypeError "unhashable type: 'list'").
Proof. split; [|split]; vm_compute; reflexivity. Defined.

Lemma coercion_elementwise_on_edge_lists_witness :
  exists e',
    _convert_edge_attr_types Builtins.literal_eval Builtins.wkt_loads
      Examples.flagged_edge Examples.flags_dtypes
      = Ok Examples.flagged_edge_converted /\
    Nx._edge Examples.flagged_edge_converted !! 0%nat = Some e' /\
    Nx.data e' !! "flags" = Some (VList [VBool true; VBool false]).
Proof.
  assert (HG :
    _convert_edge_attr_types Builtins.literal_eval Builtins.wkt_loads
      Examples.flagged_edge Examples.flags_dtypes
      = Ok Examples.flagged_edge_converted).
  { vm_cast_no_check (eq_refl (Ok Examples.flagged_edge_converted)). }
  destruct (proj1 (coercion_elementwise_on_edge_lists Builtins.literal_eval
                     Builtins.wkt_loads)
              Examples.flagged_edge Examples.flags_dtypes
              Examples.flagged_edge_converted 0%nat
              (Nx.Edge 1 2 0 {[ "flags" := VStr "[True, False]" ]}) "flags"
              (VStr "[True, False]") _convert_bool_string
              [VBool true; VBool false] HG)
    as (e' & items' & He' & Hitems & Hl);
    [reflexivity | reflexivity | discriminate | discriminate | reflexivity
    | vm_compute; reflexivity |].
  exists e'. split; [exact HG|]. split; [exact He'|].
  rewrite Hl. vm_compute in Hitems. by injection Hitems as <-.
Defined.

(** The claim C2 as it is written fails at node scope: the attribute
    parses to the list [[True, False]], the boolean coercion is
    registered for it and would convert each item, but the code gives it
    the list as a whole and the coercion raises [TypeError]. *)
Lemma node_list_coerced_as_a_whole :
  eval_literal Builtins.literal_eval (VStr "[True, False]")
    = Ok (VList [VBool true; VBool false]) /\
  mapM _convert_bool_string [VBool true; VBool false]
    = Ok [VBool true; VBool false] /\
  _convert_node_attr_types Builtins.literal_eval Examples.flagged
    Examples.flags_dtypes = Err (PyExn TypeError "unhashable type: 'list'").
Proof. split; [|split]; vm_compute; reflexivity. Defined.

(** ** Way reconstruction *)

Import Osm_xml.

Lemma loop_order :
  result (ordered_nodes_of_way Examples.loop []) = Ok [1; 2; 3; 1].
Proof. vm_compute. reflexivity. Qed.

Lemma disconnected_order :
  ordered_nodes_of_way Examples.disconnected []
  = Outcome (frame_after (ordered_nodes_of_way Examples.disconnected []))
            [recovered_msg 3 5] (Ok [1; 2; 3]).
Proof. vm_compute. reflexivity. Qed.

(** The claim C1 as it is written fails: the order recovered for the
    loop is not one of three unique nodes. *)
Lemma loop_order_is_not_three_unique_nodes :
  ~ exists order,
      result (ordered_nodes_of_way Examples.loop []) = Ok order /\
      head order = Some 1 /\ length order = 3%nat /\ NoDup order.
Proof.
  intros (order & H & _ & Hlen & _).
  rewrite loop_order in H. injection H as <-. discriminate Hlen.
Defined.

(** C1, as the code has it: on the loop [(1,2), (2,3), (3,1)] the
    topological sort raises [NetworkXUnfeasible], which
    [_append_nodes_as_edge_attrs] catches; it takes the origin of the
    first edge, recovers [[2, 3, 1]] from the other two edges and puts
    node 1 in front: the order is [[1, 2, 3, 1]], of length 4, node 1
    first and last and the nodes after the first unique.  The way element
    gets these four node references. *)
Theorem loop_order_by_cycle_fallback :
  class_of_result (result (_get_unique_nodes_ordered_from_way Examples.loop []))
    = Some NetworkXUnfeasible /\
  result (_get_unique_nodes_ordered_from_way (iloc_from_1
            (frame_after (_get_unique_nodes_ordered_from_way Examples.loop [])))
            []) = Ok [2; 3; 1] /\
  result (ordered_nodes_of_way Examples.loop []) = Ok [1; 2; 3; 1] /\
  log_after (ordered_nodes_of_way Examples.loop []) = [] /\
  forall (str : value -> string) attrib sample,
    result (_append_nodes_as_edge_attrs str (Elem "way" attrib []) sample
              Examples.loop [])
    = Ok (Elem "way" attrib
            [ Elem "nd" [("ref", str (VInt 1))] [];
              Elem "nd" [("ref", str (VInt 2))] [];
              Elem "nd" [("ref", str (VInt 3))] [];
              Elem "nd" [("ref", str (VInt 1))] [] ]).
Proof.
  split; [vm_compute; reflexivity|].
  split; [vm_compute; reflexivity|].
  split; [exact loop_order|].
  split; [vm_compute; reflexivity|].
  intros str attrib sample. vm_compute. reflexivity.
Qed.

(** In a frame that has an ["index"] column already, the first
    [reset_index] inserts ["level_0"], the rows after the first keep that
    column, and the [reset_index] of the second call cannot insert it
    again: the fallback raises [ValueError]. *)
Example loop_in_an_indexed_frame :
  result (ordered_nodes_of_way Examples.loop_indexed [])
  = Err (PyExn ValueError "cannot insert level_0, already exists").
Proof. vm_compute. reflexivity. Qed.

(** The claim C3 as it is written fails on the count: the message is not
    the one for 3 of 4 nodes. *)
Lemma disconnected_way_does_not_report_four_nodes :
  ~ (recovered_msg 3 4 ∈ log_after (ordered_nodes_of_way Examples.disconnected [])).
Proof.
  rewrite disconnected_order. simpl.
  intros H. apply list_elem_of_singleton in H. vm_compute in H. discriminate H.
Defined.

(** C3, as the code has it: on the edges [(1,2), (2,3), (10,11)] the
    order is [[1, 2, 3]], the larger weakly-connected component, and the
    one message logged is that the order of 3 of 5 nodes was recovered:
    the edges have the five unique nodes 1, 2, 3, 10 and 11. *)
Theorem disconnected_way_keeps_larger_component :
  result (ordered_nodes_of_way Examples.disconnected []) = Ok [1; 2; 3] /\
  log_after (ordered_nodes_of_way Examples.disconnected [])
    = ["Recovered order for 3 of 5 nodes"] /\
  length (remove_dups ((u <$> rows Examples.disconnected)
                         ++ (v <$> rows Examples.disconnected))) = 5%nat /\
  Nx.weakly_connected_components
    (Nx.add_edges_from ∅ (Nx.Graph (∅ : gmap string value) [] [])
       ((λ r, (u r, v r)) <$> rows Examples.disconnected))
    = [[1; 2; 3]; [10; 11]].
Proof.
  rewrite disconnected_order. simpl.
  split; [reflexivity|]. split; [vm_compute; reflexivity|].
  split; vm_compute; reflexivity.
Qed.

(** ** Merged tags *)

Section Tag_facts.
Variable str : value -> string.

(** The tags added for the aggregations are those of [edge_tag_aggs]:
    the values of a tag that is not among them stay as they were. *)
Lemma aggregated_tags_leave_others df k aggs e0 e :
  k ∉ aggs.*1 ->
  Nx.foldM
    (λ e '(tag, agg),
       if has_column df tag then
         a <- agg (column df tag);;
         Ok (SubElement e "tag" [("k", tag); ("v", str a)])
       else Ok e) e0 aggs = Ok e ->
  tag_values e k = tag_values e0 k.
Proof.
  revert e0. induction aggs as [|[tag agg] aggs IH]; intros e0 Hk H.
  - by injection H as <-.
  - rewrite fmap_cons in Hk. apply not_elem_of_cons in Hk as [Hne Hk].
    simpl in H, Hne.
    destruct (has_column df tag).
    + destruct (agg (column df tag)) as [a|]; simpl in H; [|discriminate].
      rewrite (IH _ Hk H). destruct e0 as [t attrib cs].
      unfold tag_values. simpl. rewrite omap_app. simpl.
      destruct (decide (tag = k)) as [->|_]; [done|]. apply app_nil_r.
    + by apply IH.
Qed.

(** C7: for the two edges of one way with lengths 5.0 and 7.0, where
    [str] writes the floats 5.0 and 12.0 as Python does: with the
    aggregation [("length", "sum")] the way gets the one tag
    [length = "12.0"], the sum over both edges and not the sample edge's
    value; with no aggregations at all, or with aggregations none of
    which is for ["length"], the [length] tag has the value of the first
    edge, ["5.0"]. *)
Theorem merged_length_tag (attrib : list (string * string)) :
  str (VFloat 5%float) = "5.0" ->
  str (VFloat 12%float) = "12.0" ->
  _append_merged_edge_attrs str (Elem "way" attrib [])
    (dropna_astype_str str Examples.lengths Examples.first_edge)
    Examples.lengths ["length"] (Some [("length", agg_sum)])
  = Ok (Elem "way" attrib [Elem "tag" [("k", "length"); ("v", "12.0")] []]) /\
  _append_merged_edge_attrs str (Elem "way" attrib [])
    (dropna_astype_str str Examples.lengths Examples.first_edge)
    Examples.lengths ["length"] None
  = Ok (Elem "way" attrib [Elem "tag" [("k", "length"); ("v", "5.0")] []]) /\
  (forall aggs e,
     "length" ∉ aggs.*1 ->
     _append_merged_edge_attrs str (Elem "way" attrib [])
       (dropna_astype_str str Examples.lengths Examples.first_edge)
       Examples.lengths ["length"] (Some aggs) = Ok e ->
     tag_values e "length" = ["5.0"]) /\
  result (append_merged_way str (Elem "osm" [] []) Examples.lengths ["id"]
            ["length"] (Some [("length", agg_sum)]) [])
  = Ok (Elem "osm" []
          [Elem "way" [("id", str (VInt 7))]
             [ Elem "nd" [("ref", str (VInt 1))] [];
               Elem "nd" [("ref", str (VInt 2))] [];
               Elem "nd" [("ref", str (VInt 3))] [];
               Elem "tag" [("k", "length"); ("v", "12.0")] [] ]]).
Proof.
  intros H5 H12.
  assert (Hsample :
    dropna_astype_str str Examples.lengths Examples.first_edge !! "length"
    = Some "5.0").
  { rewrite <- H5. vm_compute. reflexivity. }
  assert (Hsum : agg_sum (column Examples.lengths "length")
                 = Ok (VFloat 12%float)).
  { vm_compute. reflexivity. }
  split; [|split; [|split]].
  - unfold _append_merged_edge_attrs. cbn [foldl]. rewrite Hsample.
    cbn [is_aggregated fmap list_fmap fst negb].
    replace (is_aggregated [("length", agg_sum)] "length") with true
      by (vm_compute; reflexivity).
    cbn [negb Nx.foldM bind].
    replace (has_column Examples.lengths "length") with true
      by (vm_compute; reflexivity).
    rewrite Hsum. cbn [bind]. by rewrite H12.
  - unfold _append_merged_edge_attrs. cbn [foldl]. by rewrite Hsample.
  - intros aggs e Hk H. unfold _append_merged_edge_attrs in H.
    cbn [foldl] in H. rewrite Hsample in H.
    replace (is_aggregated aggs "length") with false in H
      by (symmetry; unfold is_aggregated; by apply bool_decide_eq_false).
    cbn [negb] in H.
    by rewrite (aggregated_tags_leave_others _ _ _ _ _ Hk H).
  - rewrite <- H12. vm_compute. reflexivity.
Qed.

End Tag_facts.

Lemma merged_length_tag_witness :
  _append_merged_edge_attrs Builtins.str (Elem "way" [("id", "7")] [])
    (dropna_astype_str Builtins.str Examples.lengths Examples.first_edge)
    Examples.lengths ["length"] (Some [("length", agg_sum)])
  = Ok (Elem "way" [("id", "7")]
          [Elem "tag" [("k", "length"); ("v", "12.0")] []]) /\
  _append_merged_edge_attrs Builtins.str (Elem "way" [("id", "7")] [])
    (dropna_astype_str Builtins.str Examples.lengths Examples.first_edge)
    Examples.lengths ["length"] None
  = Ok (Elem "way" [("id", "7")]
          [Elem "tag" [("k", "length"); ("v", "5.0")] []]).
Proof.
  destruct (merged_length_tag Builtins.str [("id", "7")])
    as (Hsum & Hfirst & _); [reflexivity | reflexivity |].
  split; [exact Hsum | exact Hfirst].
Defined.

(** ** Saving: the heap *)

Lemma deref_app_l (h t : heap) (l : nat) :
  (l < length h)%nat -> deref (h ++ t) l = deref h l.
Proof. intros Hl. unfold deref. by rewrite lookup_app_l. Qed.

Lemma deref_app_seq (pre ds post : heap) :
  deref (pre ++ ds ++ post) <$> seq (length pre) (length ds) = ds.
Proof.
  revert pre. induction ds as [|d ds IH]; intros pre; [done|].
  simpl. f_equal.
  - unfold deref. rewrite lookup_app_r by lia.
    by rewrite Nat.sub_diag.
  - specialize (IH (pre ++ [d])).
    rewrite length_app, Nat.add_1_r, <- app_assoc in IH. exact IH.
Qed.

Lemma alloc_all_spec (h ds : heap) :
  alloc_all h ds = (h ++ ds, seq (length h) (length ds)).
Proof.
  revert h. induction ds as [|d ds IH]; intros h; simpl.
  - by rewrite app_nil_r.
  - rewrite IH, length_app, Nat.add_1_r, <- app_assoc. done.
Qed.

Lemma map_dicts_ext {A B} (f g : A -> B) (G : Nx.MultiDiGraph A) :
  f (Nx.graph G) = g (Nx.graph G) ->
  Forall (λ nd, f nd.2 = g nd.2) (Nx._node G) ->
  Forall (λ e, f (Nx.data e) = g (Nx.data e)) (Nx._edge G) ->
  map_dicts f G = map_dicts g G.
Proof.
  intros Hg Hn He. unfold map_dicts. rewrite Hg. f_equal.
  - apply Forall_fmap_ext_1. eapply Forall_impl; [exact Hn|].
    intros nd H. simpl in H. by rewrite H.
  - apply Forall_fmap_ext_1. eapply Forall_impl; [exact He|].
    intros e H. simpl in H. by rewrite H.
Qed.

Lemma map_dicts_ext_locs {B} (f g : nat -> B) (G : Nx.MultiDiGraph nat) :
  (forall l, l ∈ locs G -> f l = g l) -> map_dicts f G = map_dicts g G.
Proof.
  intros H. apply map_dicts_ext.
  - apply H. left.
  - apply Forall_forall. intros nd Hnd. apply H. right.
    apply elem_of_app. left. apply list_elem_of_fmap. by exists nd.
  - apply Forall_forall. intros e He. apply H. right.
    apply elem_of_app. right. apply list_elem_of_fmap. by exists e.
Qed.

Lemma map_dicts_compose {A B C} (f : B -> C) (g : A -> B)
    (G : Nx.MultiDiGraph A) :
  map_dicts f (map_dicts g G) = map_dicts (f ∘ g) G.
Proof.
  unfold map_dicts. simpl. f_equal; rewrite <- list_fmap_compose; done.
Qed.

Section Save_facts.
Variable str : value -> string.

Abbreviation stringify := (stringify str).
Abbreviation stringify_at := (stringify_at str).
Abbreviation save_graphml := (save_graphml str).
Abbreviation written := (written str).

Lemma length_stringify_all (h : heap) (ls : list nat) :
  length (foldl stringify_at h ls) = length h.
Proof.
  revert h. induction ls as [|a ls IH]; intros h; [done|].
  simpl. rewrite IH. unfold Io.stringify_at. apply length_insert.
Qed.

(** Stringifying the dicts at some addresses leaves the dicts at the
    other addresses as they are. *)
Lemma stringify_all_frame (h : heap) (ls : list nat) (l : nat) :
  l ∉ ls -> foldl stringify_at h ls !! l = h !! l.
Proof.
  revert h. induction ls as [|a ls IH]; intros h Hl; [done|].
  apply not_elem_of_cons in Hl as [Hne Hl].
  simpl. rewrite IH by done. unfold Io.stringify_at.
  by apply list_lookup_insert_ne.
Qed.

(** Stringifying the dicts at distinct addresses stringifies each once. *)
Lemma stringify_all_deref (h : heap) (ls : list nat) (l : nat) :
  NoDup ls -> Forall (λ a, a < length h)%nat ls -> l ∈ ls ->
  deref (foldl stringify_at h ls) l = stringify (deref h l).
Proof.
  revert h. induction ls as [|a ls IH]; intros h Hnd Hin Hl;
    [by apply elem_of_nil in Hl|].
  apply NoDup_cons in Hnd as [Ha Hnd].
  apply Forall_cons in Hin as [Hlt Hin].
  simpl. apply elem_of_cons in Hl as [->|Hl].
  - unfold deref at 1. rewrite stringify_all_frame by done.
    unfold Io.stringify_at. by rewrite list_lookup_insert_eq.
  - rewrite IH; [|done| |done].
    + unfold Io.stringify_at at 1. unfold deref at 1.
      rewrite list_lookup_insert_ne; [done|]. intros ->. done.
    + eapply Forall_impl; [exact Hin|]. intros b Hb. simpl.
      unfold Io.stringify_at. by rewrite length_insert.
Qed.

Lemma save_graphml_unfold h G gephi :
  save_graphml h G gephi
  = let st := if gephi then from_edgelist h (enumerate_edges h G)
              else copy h G in
    (foldl stringify_at st.1 (locs st.2), st.2).
Proof.
  unfold Io.save_graphml, locs.
  destruct (if gephi then _ else _) as [h1 G1]. simpl.
  by rewrite foldl_app.
Qed.

End Save_facts.

(** *** [G.copy()] *)

Lemma fmap_zip_snd {A B C} (f : B -> C) (xs : list A) (ys : list B) :
  (λ p, (p.1, f p.2)) <$> zip xs ys = zip xs (f <$> ys).
Proof.
  revert ys. induction xs as [|x xs IH]; intros [|y ys]; simpl; try done.
  by rewrite IH.
Qed.

Lemma zip_fst_fmap_snd {A B C} (f : B -> C) (l : list (A * B)) :
  zip l.*1 (f <$> l.*2) = (λ p, (p.1, f p.2)) <$> l.
Proof.
  induction l as [|[a b] l IH]; [done|].
  rewrite !fmap_cons. simpl. by f_equal.
Qed.

Lemma fmap_with_data {A B C} (f : B -> C) (es : list (Nx.edge A))
    (ds : list B) :
  (λ e, with_data e (f (Nx.data e))) <$> zip_with with_data es ds
  = zip_with with_data es (f <$> ds).
Proof.
  revert ds. induction es as [|e es IH]; intros [|d ds]; simpl; try done.
  by rewrite IH.
Qed.

Lemma with_data_fmap_data {A C} (f : A -> C) (es : list (Nx.edge A)) :
  zip_with with_data es (f <$> (Nx.data <$> es))
  = (λ e, with_data e (f (Nx.data e))) <$> es.
Proof.
  induction es as [|e es IH]; [done|].
  rewrite !fmap_cons. simpl. by f_equal.
Qed.

Lemma data_with_data {A B} (es : list (Nx.edge A)) (ds : list B) :
  length ds = length es -> Nx.data <$> zip_with with_data es ds = ds.
Proof.
  revert ds. induction es as [|e es IH]; intros [|d ds] Hlen; simpl;
    try done.
  rewrite IH; [done|]. simpl in Hlen. lia.
Qed.

Lemma copy_spec (h : heap) (G : Nx.MultiDiGraph nat) :
  exists t,
    (copy h G).1 = h ++ t /\
    length t = length (locs G) /\
    locs (copy h G).2 = seq (length h) (length (locs G)) /\
    snapshot (copy h G).1 (copy h G).2 = snapshot h G.
Proof.
  unfold copy, alloc. rewrite !alloc_all_spec. simpl.
  set (dg := deref h (Nx.graph G)).
  set (nds := deref h <$> (Nx._node G).*2).
  set (eds := deref h <$> (Nx.data <$> Nx._edge G)).
  assert (Hn : length nds = length (Nx._node G))
    by (unfold nds; by rewrite !length_fmap).
  assert (He : length eds = length (Nx._edge G))
    by (unfold eds; by rewrite !length_fmap).
  exists ([dg] ++ nds ++ eds).
  split; [by rewrite <- !app_assoc|].
  split.
  { unfold locs. simpl. rewrite !length_app, !length_fmap.
    rewrite Hn, He. done. }
  split.
  - unfold locs. simpl.
    rewrite snd_zip by (rewrite length_seq, length_fmap; lia).
    rewrite data_with_data by (rewrite length_seq; lia).
    rewrite !length_app, !length_fmap. simpl.
    rewrite Nat.add_1_r, Hn, He.
    f_equal. by rewrite seq_app.
  - unfold snapshot, map_dicts. simpl. f_equal.
    + unfold deref at 1. rewrite <- !app_assoc.
      rewrite lookup_app_r by lia. by rewrite Nat.sub_diag.
    + rewrite fmap_zip_snd.
      rewrite <- (app_assoc (h ++ [dg]) nds eds).
      rewrite deref_app_seq. unfold nds. apply zip_fst_fmap_snd.
    + rewrite fmap_with_data.
      rewrite <- (app_nil_r eds) at 1.
      rewrite (deref_app_seq ((h ++ [dg]) ++ nds) eds []).
      unfold eds. apply with_data_fmap_data.
Qed.

(** *** [nx.MultiDiGraph(uvkd)] *)

Lemma unique_snoc (l : list Z) (x : Z) :
  Nx.unique (l ++ [x])
  = if bool_decide (x ∈ Nx.unique l) then Nx.unique l else Nx.unique l ++ [x].
Proof. unfold Nx.unique. by rewrite foldl_app. Qed.

Lemma snapshot_alloc (h : heap) (d : gmap string value)
    (G : Nx.MultiDiGraph nat) :
  Forall (λ l, l < length h)%nat (locs G) ->
  snapshot (h ++ [d]) G = snapshot h G.
Proof.
  intros Hin. apply map_dicts_ext_locs. intros l Hl.
  apply deref_app_l. by apply (proj1 (Forall_forall _ _) Hin).
Qed.

Lemma deref_alloc (h : heap) (d : gmap string value) :
  deref (h ++ [d]) (length h) = d.
Proof.
  unfold deref. rewrite lookup_app_r by lia. by rewrite Nat.sub_diag.
Qed.

Lemma built_nodes h st ns ts :
  built h st ns ts -> Nx.nodes st.2 = Nx.unique ns.
Proof.
  intros (_ & _ & _ & Hs). unfold Nx.nodes.
  transitivity ((Nx._node (snapshot st.1 st.2)).*1).
  - unfold snapshot, map_dicts. simpl.
    induction (Nx._node st.2) as [|nd l IH]; [done|].
    rewrite !fmap_cons. simpl. by f_equal.
  - rewrite Hs. simpl. clear Hs.
    induction (Nx.unique ns) as [|n l IH]; [done|].
    rewrite !fmap_cons. simpl. by f_equal.
Qed.

Lemma built_lt h st ns ts :
  built h st ns ts -> Forall (λ l, l < length st.1)%nat (locs st.2).
Proof.
  intros (_ & _ & Hb & _). eapply Forall_impl; [exact Hb|].
  intros l Hl. simpl in Hl. lia.
Qed.

Lemma built_add_node h st ns ts n :
  built h st ns ts -> built h (add_node_ref st n) (ns ++ [n]) ts.
Proof.
  intros Hb. pose proof (built_nodes _ _ _ _ Hb) as Hnodes.
  pose proof (built_lt _ _ _ _ Hb) as Hlt.
  destruct Hb as ((t & Ht) & Hnd & Hbd & Hs).
  destruct st as [h' G]. simpl in *.
  unfold add_node_ref, Nx.has_node. rewrite Hnodes.
  destruct (bool_decide (n ∈ Nx.unique ns)) eqn:Hn;
    unfold built, alloc; rewrite unique_snoc, Hn.
  - simpl. eauto.
  - assert (Hperm : locs (Nx.Graph (Nx.graph G)
                            (Nx._node G ++ [(n, length h')]) (Nx._edge G))
                    ≡ₚ length h' :: locs G).
    { unfold locs. simpl. rewrite fmap_app. simpl.
      rewrite <- app_assoc. simpl.
      rewrite <- Permutation_middle. apply perm_swap. }
    split; [|split; [|split]]; simpl.
    + exists (t ++ [∅]). by rewrite Ht, app_assoc.
    + rewrite Hperm. apply NoDup_cons. split; [|done].
      intros Hin. apply (proj1 (Forall_forall _ _) Hlt) in Hin. lia.
    + rewrite Hperm, length_app. simpl. apply Forall_cons. split.
      * rewrite Ht, length_app. lia.
      * eapply Forall_impl; [exact Hbd|]. intros l Hl. simpl in Hl. lia.
    + unfold snapshot, map_dicts in *. simpl.
      injection Hs as Hg Hn' He.
      rewrite fmap_app. simpl. rewrite deref_alloc.
      assert (Hlt' : forall l, l ∈ locs G -> deref (h' ++ [∅]) l = deref h' l).
      { intros l Hl. apply deref_app_l.
        by apply (proj1 (Forall_forall _ _) Hlt). }
      f_equal.
      * rewrite Hlt' by left. done.
      * rewrite fmap_app. simpl. f_equal. rewrite <- Hn'.
        apply Forall_fmap_ext_1, Forall_forall. intros nd Hin.
        rewrite Hlt'; [done|]. right. apply elem_of_app. left.
        apply list_elem_of_fmap. by exists nd.
      * rewrite <- He.
        apply Forall_fmap_ext_1, Forall_forall. intros e Hin.
        rewrite Hlt'; [done|]. right. apply elem_of_app. right.
        apply list_elem_of_fmap. by exists e.
Qed.

Lemma built_keys h st ns ts :
  built h st ns ts -> Nx.key <$> Nx._edge st.2 = Nx.key <$> (edge_of <$> ts).
Proof.
  intros (_ & _ & _ & Hs).
  apply (f_equal (λ G, Nx.key <$> Nx._edge G)) in Hs. simpl in Hs.
  rewrite <- Hs. clear Hs.
  induction (Nx._edge st.2) as [|e l IH]; [done|].
  rewrite !fmap_cons. simpl. by f_equal.
Qed.

Lemma built_add_edge h st ns ts u v k d :
  built h st ns ts ->
  k ∉ Nx.key <$> (edge_of <$> ts) ->
  built h (add_edge_ref st (u, v, k, d)) (ns ++ [u; v]) (ts ++ [(u, v, k, d)]).
Proof.
  intros Hb Hk.
  apply (built_add_node _ _ _ _ u) in Hb.
  apply (built_add_node _ _ _ _ v) in Hb.
  rewrite <- app_assoc in Hb. simpl in Hb.
  unfold add_edge_ref.
  destruct (add_node_ref (add_node_ref st u) v) as [h' G].
  pose proof (built_keys _ _ _ _ Hb) as Hkeys.
  pose proof (built_lt _ _ _ _ Hb) as Hlt.
  destruct Hb as ((t & Ht) & Hnd & Hbd & Hs). simpl in *.
  destruct (list_find _ (Nx._edge G)) as [[i e]|] eqn:Hfind.
  { apply list_find_Some in Hfind as (Hi & (_ & _ & Hke) & _).
    exfalso. apply Hk. rewrite <- Hkeys, <- Hke.
    apply list_elem_of_fmap. exists e. split; [done|].
    by apply list_elem_of_lookup_2 in Hi. }
  assert (Hperm : locs (Nx.Graph (Nx.graph G) (Nx._node G)
                          (Nx._edge G ++ [Nx.Edge u v k (length h')]))
                  ≡ₚ length h' :: locs G).
  { unfold locs. simpl. rewrite fmap_app. simpl.
    rewrite !app_comm_cons, app_assoc.
    by rewrite <- Permutation_cons_append. }
  unfold built, alloc. simpl.
  split; [|split; [|split]].
  - exists (t ++ [d]). by rewrite Ht, app_assoc.
  - rewrite Hperm. apply NoDup_cons. split; [|done].
    intros Hin. apply (proj1 (Forall_forall _ _) Hlt) in Hin. lia.
  - rewrite Hperm, length_app. simpl. apply Forall_cons. split.
    + rewrite Ht, length_app. lia.
    + eapply Forall_impl; [exact Hbd|]. intros l Hl. simpl in Hl. lia.
  - unfold snapshot, map_dicts in *. simpl.
    injection Hs as Hg Hn' He.
    rewrite !fmap_app. simpl. rewrite deref_alloc.
    assert (Hlt' : forall l, l ∈ locs G -> deref (h' ++ [d]) l = deref h' l).
    { intros l Hl. apply deref_app_l.
      by apply (proj1 (Forall_forall _ _) Hlt). }
    f_equal.
    + rewrite Hlt' by left. done.
    + rewrite <- Hn'.
      apply Forall_fmap_ext_1, Forall_forall. intros nd Hin.
      rewrite Hlt'; [done|]. right. apply elem_of_app. left.
      apply list_elem_of_fmap. by exists nd.
    + f_equal. rewrite <- He.
      apply Forall_fmap_ext_1, Forall_forall. intros e Hin.
      rewrite Hlt'; [done|]. right. apply elem_of_app. right.
      apply list_elem_of_fmap. by exists e.
Qed.

Lemma built_foldl h ts : forall st ns0 ts0,
  built h st ns0 ts0 ->
  NoDup (Nx.key <$> (edge_of <$> (ts0 ++ ts))) ->
  built h (foldl add_edge_ref st ts) (ns0 ++ endpoints ts) (ts0 ++ ts).
Proof.
  induction ts as [|[[[u v] k] d] ts IH]; intros st ns0 ts0 Hb Hnd.
  - simpl. unfold endpoints. simpl. by rewrite !app_nil_r.
  - change (foldl add_edge_ref st ((u, v, k, d) :: ts))
      with (foldl add_edge_ref (add_edge_ref st (u, v, k, d)) ts).
    change (endpoints ((u, v, k, d) :: ts)) with ([u; v] ++ endpoints ts).
    rewrite (app_assoc ns0), (cons_middle _ ts0 ts), (app_assoc ts0).
    rewrite (cons_middle _ ts0 ts), (app_assoc ts0) in Hnd.
    apply IH; [|done].
    apply built_add_edge; [done|].
    rewrite !fmap_app in Hnd.
    apply NoDup_app in Hnd as (Hnd & _ & _).
    apply NoDup_app in Hnd as (_ & Hdisj & _).
    intros Hin. apply (Hdisj _ Hin). simpl. left.
Qed.

Lemma built_from_edgelist h ts :
  NoDup (Nx.key <$> (edge_of <$> ts)) ->
  built h (from_edgelist h ts) (endpoints ts) ts.
Proof.
  intros Hnd. unfold from_edgelist, alloc.
  apply (built_foldl h ts _ [] []); [|done].
  unfold built. simpl. split; [|split; [|split]].
  - by exists [∅].
  - unfold locs. simpl. apply NoDup_singleton.
  - unfold locs. simpl. rewrite length_app. simpl.
    apply Forall_singleton. lia.
  - unfold snapshot, map_dicts. simpl. by rewrite deref_alloc.
Qed.

Lemma enumerate_edges_keys h G :
  Nx.key <$> (edge_of <$> enumerate_edges h G)
  = Z.of_nat <$> seq 0 (length (Nx._edge G)).
Proof.
  unfold enumerate_edges.
  assert (H : forall j es,
    Nx.key <$> (edge_of <$>
      imap (λ k e, (Nx.src e, Nx.dst e, Z.of_nat (j + k),
                    deref h (Nx.data e))) es)
    = Z.of_nat <$> seq j (length es)).
  { intros j es. revert j. induction es as [|e es IH]; intros j; [done|].
    simpl. rewrite Nat.add_0_r. f_equal.
    rewrite <- IH. do 2 f_equal. apply imap_ext. intros i x _. simpl.
    do 2 f_equal. lia. }
  apply (H 0%nat).
Qed.

Lemma enumerate_edges_NoDup h G :
  NoDup (Nx.key <$> (edge_of <$> enumerate_edges h G)).
Proof.
  rewrite enumerate_edges_keys.
  apply NoDup_fmap; [apply Nat2Z.inj'|apply NoDup_seq].
Qed.

Lemma elem_of_unique (l : list Z) (n : Z) : n ∈ Nx.unique l <-> n ∈ l.
Proof.
  induction l as [|x l IH] using rev_ind; [done|].
  rewrite unique_snoc, elem_of_app, list_elem_of_singleton.
  case_bool_decide as Hx.
  - rewrite IH. split; [tauto|]. intros [?| ->]; [done|]. by apply IH.
  - rewrite elem_of_app, list_elem_of_singleton, IH. done.
Qed.

Lemma endpoints_enumerate_edges h G :
  endpoints (enumerate_edges h G)
  = Nx._edge G ≫= (λ e, [Nx.src e; Nx.dst e]).
Proof.
  unfold enumerate_edges, endpoints.
  assert (H : forall es j,
    imap (λ k e, (Nx.src e, Nx.dst e, Z.of_nat (j + k),
                  deref h (Nx.data e))) es
      ≫= (λ t, [Nx.src (edge_of t); Nx.dst (edge_of t)])
    = es ≫= (λ e, [Nx.src e; Nx.dst e])).
  { induction es as [|e es IH]; intros i; [done|].
    rewrite imap_cons, !bind_cons. f_equal.
    rewrite <- (IH (S i)). f_equal.
    apply imap_ext. intros k x _. simpl. do 3 f_equal. lia. }
  apply (H _ 0%nat).
Qed.

(** What the construction of the graph to write gives in either mode:
    the heap grown at its end and distinct new dicts. *)
Lemma constructed_fresh h G (gephi : bool) :
  let st := if gephi then from_edgelist h (enumerate_edges h G)
            else copy h G in
  (exists t, st.1 = h ++ t) /\
  NoDup (locs st.2) /\
  Forall (λ l, length h <= l < length st.1)%nat (locs st.2).
Proof.
  destruct gephi; simpl.
  - destruct (built_from_edgelist h _ (enumerate_edges_NoDup h G))
      as (Ht & Hnd & Hbd & _). done.
  - destruct (copy_spec h G) as (t & Ht & Hlen & Hlocs & _).
    split; [eauto|]. rewrite Hlocs. split; [apply NoDup_seq|].
    apply Forall_forall. intros l Hl. apply elem_of_seq in Hl.
    rewrite Ht, length_app. lia.
Qed.

Section Save_properties.
Variable str : value -> string.

Abbreviation stringify := (stringify str).
Abbreviation stringify_at := (stringify_at str).
Abbreviation save_graphml := (save_graphml str).
Abbreviation written := (written str).

(** The dicts that were in the heap before the call are as they were. *)
Lemma save_graphml_frame h G gephi l :
  (l < length h)%nat -> (save_graphml h G gephi).1 !! l = h !! l.
Proof.
  intros Hl. rewrite save_graphml_unfold. cbv zeta. cbn [fst snd].
  destruct (constructed_fresh h G gephi) as ((t & Ht) & _ & Hbd).
  rewrite stringify_all_frame.
  - rewrite Ht. by apply lookup_app_l.
  - intros Hin. apply (proj1 (Forall_forall _ _) Hbd) in Hin. lia.
Qed.

Lemma length_save_graphml h G gephi :
  (length h <= length (save_graphml h G gephi).1)%nat.
Proof.
  rewrite save_graphml_unfold. cbv zeta. cbn [fst snd].
  rewrite length_stringify_all.
  destruct (constructed_fresh h G gephi) as ((t & ->) & _).
  rewrite length_app. lia.
Qed.

Lemma save_graphml_snapshot h G gephi :
  in_heap h G -> snapshot (save_graphml h G gephi).1 G = snapshot h G.
Proof.
  intros Hin. apply map_dicts_ext_locs. intros l Hl.
  unfold deref. rewrite save_graphml_frame; [done|].
  by apply (proj1 (Forall_forall _ _) Hin).
Qed.

(** What is written is the constructed graph with every dict
    stringified once. *)
Lemma written_unfold h G gephi :
  written h G gephi
  = map_dicts stringify
      (let st := if gephi then from_edgelist h (enumerate_edges h G)
                 else copy h G in snapshot st.1 st.2).
Proof.
  unfold Io.written. rewrite save_graphml_unfold.
  destruct (constructed_fresh h G gephi) as (_ & Hnd & Hbd).
  cbv zeta in *.
  set (st := if gephi then from_edgelist h (enumerate_edges h G)
             else copy h G) in *.
  cbv beta iota. unfold snapshot. rewrite map_dicts_compose.
  apply map_dicts_ext_locs. intros l Hl. unfold compose.
  apply stringify_all_deref; [done| |done].
  eapply Forall_impl; [exact Hbd|]. intros a Ha. simpl in Ha. lia.
Qed.

Lemma written_default h G :
  written h G false = map_dicts stringify (snapshot h G).
Proof.
  rewrite written_unfold. simpl.
  destruct (copy_spec h G) as (_ & _ & _ & _ & ->). done.
Qed.

Lemma written_gephi h G :
  written h G true
  = Nx.Graph ∅
      ((λ n, (n, ∅)) <$> Nx.unique (Nx._edge G ≫= (λ e, [Nx.src e; Nx.dst e])))
      (imap (λ k e, Nx.Edge (Nx.src e) (Nx.dst e) (Z.of_nat k)
                      (stringify (deref h (Nx.data e)))) (Nx._edge G)).
Proof.
  rewrite written_unfold. simpl.
  destruct (built_from_edgelist h _ (enumerate_edges_NoDup h G))
    as (_ & _ & _ & ->).
  unfold map_dicts. cbn [Nx.graph Nx._node Nx._edge]. f_equal.
  - rewrite <- list_fmap_compose, endpoints_enumerate_edges.
    apply list_fmap_ext. intros i n _. done.
  - rewrite <- list_fmap_compose. unfold enumerate_edges.
    rewrite fmap_imap. apply imap_ext. done.
Qed.

End Save_properties.

(** ** Saving: the caller's graph and what is written *)

Lemma fst_fmap_pair {A B} (b : B) (l : list A) :
  ((λ n, (n, b)) <$> l).*1 = l.
Proof.
  induction l as [|x l IH]; [done|]. rewrite !fmap_cons. simpl. by f_equal.
Qed.

Section Save_claims.
Variable str : value -> string.

Abbreviation stringify := (stringify str).
Abbreviation save_graphml := (save_graphml str).
Abbreviation written := (written str).

Lemma save_graphml_gephi_keys h G :
  Nx.key <$> Nx._edge (save_graphml h G true).2
  = Z.of_nat <$> seq 0 (length (Nx._edge G)).
Proof.
  rewrite save_graphml_unfold. cbv zeta. cbn [fst snd].
  rewrite (built_keys h _ _ _
             (built_from_edgelist h _ (enumerate_edges_NoDup h G))).
  apply enumerate_edges_keys.
Qed.

Lemma in_heap_save_graphml h G G0 gephi :
  in_heap h G0 -> in_heap (save_graphml h G gephi).1 G0.
Proof.
  intros Hin. eapply Forall_impl; [exact Hin|]. intros l Hl. simpl in Hl.
  pose proof (length_save_graphml str h G gephi). lia.
Qed.

(** C8: [save_graphml] leaves every dict that was in the heap as it was,
    so the graph-, node- and edge-attribute values of the caller's graph
    are unchanged, in either mode.  In gephi mode the graph it writes is a
    new one whose edge keys are [0, 1, ..., n-1], all distinct; a second
    call in gephi mode on the same graph leaves it unchanged again, gives
    the same keys and writes the same graph. *)
Theorem save_graphml_leaves_graph h G gephi :
  in_heap h G ->
  (forall l, (l < length h)%nat -> (save_graphml h G gephi).1 !! l = h !! l) /\
  snapshot (save_graphml h G gephi).1 G = snapshot h G /\
  Nx.key <$> Nx._edge (save_graphml h G true).2
    = Z.of_nat <$> seq 0 (length (Nx._edge G)) /\
  NoDup (Nx.key <$> Nx._edge (save_graphml h G true).2) /\
  snapshot (save_graphml (save_graphml h G true).1 G true).1 G
    = snapshot h G /\
  Nx.key <$> Nx._edge (save_graphml (save_graphml h G true).1 G true).2
    = Z.of_nat <$> seq 0 (length (Nx._edge G)) /\
  written (save_graphml h G true).1 G true = written h G true.
Proof.
  intros Hin.
  split; [intros l Hl; by apply save_graphml_frame|].
  split; [by apply save_graphml_snapshot|].
  split; [apply save_graphml_gephi_keys|].
  split.
  { rewrite save_graphml_gephi_keys.
    apply NoDup_fmap; [apply Nat2Z.inj'|apply NoDup_seq]. }
  split.
  { rewrite save_graphml_snapshot by (by apply in_heap_save_graphml).
    by apply save_graphml_snapshot. }
  split; [apply save_graphml_gephi_keys|].
  rewrite !written_gephi. f_equal.
  apply imap_ext. intros k e He. simpl. f_equal. f_equal.
  unfold deref. rewrite save_graphml_frame; [done|].
  apply (proj1 (Forall_forall _ _) Hin). right.
  apply elem_of_app. right. apply list_elem_of_fmap. exists e.
  split; [done|]. by apply list_elem_of_lookup_2 in He.
Qed.

(** C9: in gephi mode the graph that is written has no graph-level
    attribute, its nodes have no attribute, and its nodes are the end
    nodes of the edges, so a node without an edge is not in it; its edges
    are the edges of the input in their order, keyed by their position,
    each with its data stringified.  In default mode the graph that is
    written is the input with every dict stringified: graph-level
    attributes, all nodes and their attributes are in it. *)
Theorem gephi_writes_edges_only h G :
  Nx.graph (written h G true) = ∅ /\
  Forall (λ nd, nd.2 = ∅) (Nx._node (written h G true)) /\
  (forall n, n ∈ Nx.nodes (written h G true) <->
             exists e, e ∈ Nx._edge G /\ (n = Nx.src e \/ n = Nx.dst e)) /\
  Nx._edge (written h G true)
    = imap (λ k e, Nx.Edge (Nx.src e) (Nx.dst e) (Z.of_nat k)
                     (stringify (deref h (Nx.data e)))) (Nx._edge G) /\
  written h G false = map_dicts stringify (snapshot h G) /\
  Nx.graph (written h G false) = stringify (deref h (Nx.graph G)) /\
  Nx._node (written h G false)
    = (λ nd, (nd.1, stringify (deref h nd.2))) <$> Nx._node G.
Proof.
  rewrite written_gephi, written_default. simpl.
  split; [done|]. split.
  { apply Forall_fmap, Forall_forall. done. }
  split.
  { intros n. unfold Nx.nodes. cbn [Nx._node].
    rewrite fst_fmap_pair, elem_of_unique, list_elem_of_bind.
    split.
    - intros (e & Hn & He). exists e. split; [done|].
      apply elem_of_cons in Hn as [->|Hn]; [by left|].
      apply list_elem_of_singleton in Hn. by right.
    - intros (e & He & [-> | ->]); exists e; split; try done.
      + left.
      + right. left. }
  split; [done|]. split; [done|]. split; [done|].
  rewrite <- list_fmap_compose. done.
Qed.

End Save_claims.

Lemma save_graphml_leaves_graph_witness :
  in_heap Examples.store Examples.held /\
  snapshot (save_graphml Builtins.str Examples.store Examples.held true).1
           Examples.held
    = snapshot Examples.store Examples.held /\
  Nx.key <$> Nx._edge
               (save_graphml Builtins.str Examples.store Examples.held true).2
    = [0; 1].
Proof.
  assert (Hin : in_heap Examples.store Examples.held).
  { unfold in_heap. repeat constructor. }
  destruct (save_graphml_leaves_graph Builtins.str Examples.store
              Examples.held true Hin) as (_ & Hsnap & Hkeys & _).
  split; [exact Hin|]. split; [exact Hsnap|]. exact Hkeys.
Defined.

(** On the example: node 30 has no edge and is written in default mode
    only; the attributes of the graph and of the nodes are written in
    default mode only. *)
Example written_held :
  written Builtins.str Examples.store Examples.held true
  = Nx.Graph ∅ [ (10, ∅); (20, ∅) ]
      [ Nx.Edge 10 20 0 {[ "osmid" := VStr "7" ]};
        Nx.Edge 10 20 1 {[ "osmid" := VStr "8" ]} ] /\
  written Builtins.str Examples.store Examples.held false
  = Nx.Graph {[ "simplified" := VStr "True" ]}
      [ (10, {[ "x" := VStr "1" ]}); (20, {[ "x" := VStr "2" ]});
        (30, {[ "x" := VStr "3" ]}) ]
      [ Nx.Edge 10 20 0 {[ "osmid" := VStr "7" ]};
        Nx.Edge 10 20 1 {[ "osmid" := VStr "8" ]} ].
Proof. split; vm_compute; reflexivity. Qed.

(** * More of the code *)

(** ** Results and dicts, continued *)

Lemma mapM_Err_elem {A B} (f : A -> res B) (l : list A) x e :
  x ∈ l -> f x = Err e -> exists e', mapM f l = Err e'.
Proof.
  intros Hin Hx. induction l as [|y l IH]; [by apply elem_of_nil in Hin|].
  simpl. apply elem_of_cons in Hin as [->|Hin].
  - rewrite Hx. eauto.
  - destruct (f y); simpl; [|eauto].
    destruct (IH Hin) as [e' ->]. simpl. eauto.
Qed.

Lemma mapM_total {A B} (f : A -> res B) (l : list A) :
  (forall x, x ∈ l -> exists y, f x = Ok y) -> exists ys, mapM f l = Ok ys.
Proof.
  induction l as [|x l IH]; intros H; simpl; [eauto|].
  destruct (H x) as [y ->]; [left|]. simpl.
  destruct IH as [ys ->]; [|simpl; eauto].
  intros z Hz. apply H. by right.
Qed.

Lemma dict_mapM_total (f : string -> value -> res value)
    (d : gmap string value) :
  (forall k x, d !! k = Some x -> exists y, f k x = Ok y) ->
  exists d', dict_mapM f d = Ok d'.
Proof.
  intros H. unfold dict_mapM.
  destruct (mapM_total (λ kv, x <- f kv.1 kv.2;; Ok (kv.1, x)) (map_to_list d))
    as [kvs ->]; [|simpl; eauto].
  intros [k x] Hin. apply elem_of_map_to_list in Hin.
  destruct (H k x Hin) as [y Hy]. simpl. rewrite Hy. simpl. eauto.
Qed.

Lemma dict_mapM_Err (f : string -> value -> res value)
    (d : gmap string value) k x e :
  d !! k = Some x -> f k x = Err e -> exists e', dict_mapM f d = Err e'.
Proof.
  intros Hk Hf. unfold dict_mapM.
  destruct (mapM_Err_elem (λ kv, x <- f kv.1 kv.2;; Ok (kv.1, x))
              (map_to_list d) (k, x) e) as [e' ->]; simpl; eauto.
  - by apply elem_of_map_to_list.
  - by rewrite Hf.
Qed.

Lemma dict_mapM_dom (f : string -> value -> res value)
    (d d' : gmap string value) :
  dict_mapM f d = Ok d' -> dom d' = dom d.
Proof.
  intros H. apply set_eq. intros k. rewrite !elem_of_dom.
  pose proof (dict_mapM_Ok _ _ _ H k) as Hk.
  destruct (d !! k) as [x|].
  - destruct Hk as (y & _ & ->). split; eauto.
  - rewrite Hk. done.
Qed.

(** A dict goes through a conversion that undoes [g] on every value. *)
Lemma dict_mapM_inverse (f : string -> value -> res value)
    (g : value -> value) (d : gmap string value) :
  (forall k x, d !! k = Some x -> f k (g x) = Ok x) ->
  dict_mapM f (g <$> d) = Ok d.
Proof.
  intros H.
  destruct (dict_mapM_total f (g <$> d)) as [d' Hd'].
  { intros k y Hk. rewrite lookup_fmap in Hk.
    destruct (d !! k) as [x|] eqn:Hx; [|done].
    injection Hk as <-. eauto. }
  rewrite Hd'. f_equal. apply map_eq. intros k.
  pose proof (dict_mapM_Ok _ _ _ Hd' k) as Hk.
  rewrite lookup_fmap in Hk.
  destruct (d !! k) as [x|] eqn:Hx; simpl in Hk; [|done].
  destruct Hk as (y & Hy & ->). rewrite (H k x Hx) in Hy. congruence.
Qed.

(** ** [_convert_bool_string] on what is no text *)

(** X1: whatever [_convert_bool_string] returns is a boolean, and a
    boolean is returned as it is: converting the result again gives the
    same result. *)
Theorem convert_bool_string_result (v r : value) :
  _convert_bool_string v = Ok r ->
  exists b, r = VBool b /\ _convert_bool_string r = Ok r.
Proof.
  unfold _convert_bool_string.
  destruct (hashable v); simpl; [|discriminate].
  destruct v; try discriminate.
  - intros [= <-]. eauto.
  - case_decide; [|discriminate]. intros [= <-]. eauto.
Qed.

Lemma convert_bool_string_result_witness :
  exists b, VBool true = VBool b /\
            _convert_bool_string (VBool true) = Ok (VBool true).
Proof. apply (convert_bool_string_result (VStr "True")). reflexivity. Defined.

(** ** [make_requirement] *)

Lemma string_app_assoc (a b c : string) : (a +:+ b) +:+ c = a +:+ b +:+ c.
Proof.
  induction a as [|x a IH]; [done|].
  change (String x ((a +:+ b) +:+ c) = String x (a +:+ b +:+ c)).
  by rewrite IH.
Qed.

Lemma rev_app_app (a b acc : string) :
  String.rev_app (a +:+ b) acc = String.rev_app b (String.rev_app a acc).
Proof.
  revert acc. induction a as [|x a IH]; intros acc; [done|].
  change (String x a +:+ b) with (String x (a +:+ b)). simpl. apply IH.
Qed.

Lemma rev_app_rev (p acc : string) :
  String.rev_app p acc = String.rev p +:+ acc.
Proof.
  unfold String.rev. revert acc.
  induction p as [|x p IH]; intros acc; [done|].
  simpl. rewrite IH, (IH (String x "")), string_app_assoc. done.
Qed.

Lemma prefix_app (p x : string) : String.prefix p (p +:+ x) = true.
Proof.
  induction p as [|c p IH]; [by destruct x|].
  change (String c p +:+ x) with (String c (p +:+ x)). simpl.
  destruct (Ascii.ascii_dec c c); [exact IH|done].
Qed.

Lemma endswith_app (p s : string) : endswith p (s +:+ p) = true.
Proof.
  unfold endswith. unfold String.rev at 2.
  rewrite rev_app_app, (rev_app_rev p (String.rev_app s "")).
  apply prefix_app.
Qed.

Import Env_files.

(** X2: for a requirement with exactly one specifier, pinned: the conda
    form ends with [".*"], which is added only where the pinned text does
    not end with it yet, and the pip form is the name, [==] and the
    version.  With no specifier or with several, pinning is ignored and
    the text of the requirement is returned. *)
Theorem make_requirement_pinned (r : Requirement) (s : Specifier) :
  specifier r = [s] ->
  make_requirement r true false = name r +:+ "==" +:+ version s /\
  endswith ".*" (make_requirement r true true) = true /\
  (endswith ".*" (name r +:+ "==" +:+ version s) = true ->
   make_requirement r true true = name r +:+ "==" +:+ version s) /\
  (endswith ".*" (name r +:+ "==" +:+ version s) = false ->
   make_requirement r true true = (name r +:+ "==" +:+ version s) +:+ ".*") /\
  (forall r' is_conda, length (specifier r') <> 1%nat ->
     make_requirement r' true is_conda = text r').
Proof.
  intros Hs. unfold make_requirement. rewrite Hs. simpl.
  split; [done|].
  destruct (endswith ".*" (name r +:+ "==" +:+ version s)) eqn:He; simpl.
  - split; [done|]. split; [done|]. split; [done|].
    intros r' c Hlen. by destruct (specifier r') as [|? [|? ?]].
  - split; [apply endswith_app|]. split; [done|]. split; [done|].
    intros r' c Hlen. by destruct (specifier r') as [|? [|? ?]].
Qed.

Lemma make_requirement_pinned_witness :
  make_requirement
    {| name := "numpy"; specifier := [ {| operator := ">="; version := "1.22" |} ];
       text := "numpy>=1.22" |} true true = "numpy==1.22.*" /\
  make_requirement
    {| name := "numpy"; specifier := [ {| operator := ">="; version := "1.22" |} ];
       text := "numpy>=1.22" |} true false = "numpy==1.22".
Proof.
  destruct (make_requirement_pinned
              {| name := "numpy";
                 specifier := [ {| operator := ">="; version := "1.22" |} ];
                 text := "numpy>=1.22" |}
              {| operator := ">="; version := "1.22" |} eq_refl)
    as (Hpip & _ & _ & Hconda & _).
  split; [|exact Hpip]. rewrite Hconda; reflexivity.
Defined.

(** ** Loading: what the conversions keep *)

Section Load_more.
Variable literal_eval : string -> res value.
Variable wkt_loads : value -> res value.
Variables py_float py_int : value -> res value.
Variable read_graphml : string -> (value -> res value) -> res MultiDiGraph.
Variable parse_graphml : string -> (value -> res value) -> res MultiDiGraph.

Abbreviation eval_literal := (eval_literal literal_eval).
Abbreviation eval_literals := (eval_literals literal_eval).
Abbreviation convert_node_data := (convert_node_data literal_eval).
Abbreviation convert_edge_data := (convert_edge_data literal_eval wkt_loads).
Abbreviation _convert_node_attr_types := (_convert_node_attr_types literal_eval).
Abbreviation _convert_edge_attr_types :=
  (_convert_edge_attr_types literal_eval wkt_loads).
Abbreviation load_graphml :=
  (load_graphml literal_eval wkt_loads py_float py_int read_graphml
                parse_graphml).
Abbreviation default_node_dtypes := (default_node_dtypes py_float py_int).
Abbreviation default_edge_dtypes := (default_edge_dtypes py_float py_int).

Implicit Types (data : gmap string value)
  (dtypes : gmap string (value -> res value)) (G : MultiDiGraph).

(** The graph the reader returned for the source that was given. *)
Lemma load_graphml_Ok filepath graphml_str node_dtypes edge_dtypes
    graph_dtypes events G :
  load_graphml filepath graphml_str node_dtypes edge_dtypes graph_dtypes
    = (events, Ok G) ->
  exists node_type G0 G1 G2,
    updated default_node_dtypes node_dtypes !! "osmid" = Some node_type /\
    ((exists fp, filepath = Some fp /\ graphml_str = None /\
                 read_graphml fp node_type = Ok G0) \/
     (exists doc, filepath = None /\ graphml_str = Some doc /\
                  parse_graphml doc node_type = Ok G0)) /\
    _convert_graph_attr_types G0 (updated default_graph_dtypes graph_dtypes)
      = Ok G1 /\
    _convert_node_attr_types G1 (updated default_node_dtypes node_dtypes)
      = Ok G2 /\
    _convert_edge_attr_types G2 (updated default_edge_dtypes edge_dtypes)
      = Ok G.
Proof.
  unfold Io.load_graphml.
  destruct filepath as [fp|], graphml_str as [doc|]; try discriminate.
  - destruct (_ !! "osmid") as [nt|] eqn:Hnt; [|discriminate].
    destruct (read_graphml fp nt) as [G0|] eqn:Hread; [|discriminate].
    destruct (_convert_graph_attr_types G0 _) as [G1|] eqn:H1; simpl;
      [|discriminate].
    destruct (Io._convert_node_attr_types _ G1 _) as [G2|] eqn:H2; simpl;
      [|discriminate].
    destruct (Io._convert_edge_attr_types _ _ G2 _) as [G3|] eqn:H3;
      [|discriminate].
    intros [= _ <-]. exists nt, G0, G1, G2. eauto 10.
  - destruct (_ !! "osmid") as [nt|] eqn:Hnt; [|discriminate].
    simpl. destruct (parse_graphml doc nt) as [G0|] eqn:Hread; [|discriminate].
    destruct (_convert_graph_attr_types G0 _) as [G1|] eqn:H1; simpl;
      [|discriminate].
    destruct (Io._convert_node_attr_types _ G1 _) as [G2|] eqn:H2; simpl;
      [|discriminate].
    destruct (Io._convert_edge_attr_types _ _ G2 _) as [G3|] eqn:H3;
      [|discriminate].
    intros [= _ <-]. exists nt, G0, G1, G2. eauto 10.
Qed.

Lemma convert_graph_attr_types_inv G dtypes G' :
  _convert_graph_attr_types G dtypes = Ok G' ->
  Nx._node G' = Nx._node G /\ Nx._edge G' = Nx._edge G /\
  dom (Nx.graph G')
  = dom (Nx.graph G) ∖ {[ "node_default"; "edge_default" ]}.
Proof.
  unfold _convert_graph_attr_types.
  destruct (convert_whole _ _) as [graph'|] eqn:Hc; simpl; [|discriminate].
  intros [= <-]. simpl. split; [done|]. split; [done|].
  apply dict_mapM_dom in Hc. rewrite Hc, !dom_delete_L.
  by rewrite difference_difference_l_L.
Qed.

Lemma convert_node_attr_types_inv G dtypes G' :
  _convert_node_attr_types G dtypes = Ok G' ->
  Nx.graph G' = Nx.graph G /\ Nx._edge G' = Nx._edge G.
Proof.
  unfold Io._convert_node_attr_types.
  destruct (mapM _ (Nx._node G)); simpl; [|discriminate].
  by intros [= <-].
Qed.

Lemma convert_edge_attr_types_inv G dtypes G' :
  _convert_edge_attr_types G dtypes = Ok G' ->
  Nx.graph G' = Nx.graph G /\ Nx._node G' = Nx._node G.
Proof.
  unfold Io._convert_edge_attr_types.
  destruct (mapM _ (Nx._edge G)); simpl; [|discriminate].
  by intros [= <-].
Qed.

Lemma convert_node_data_dom dtypes data data' :
  convert_node_data dtypes data = Ok data' -> dom data' = dom data.
Proof.
  unfold Io.convert_node_data.
  destruct (Io.eval_literals _ _) as [data1|] eqn:H1; simpl; [|discriminate].
  intros H2. apply dict_mapM_dom in H1, H2. congruence.
Qed.

Lemma convert_edge_data_dom dtypes data data' :
  convert_edge_data dtypes data = Ok data' ->
  dom data' = dom data ∖ {[ "id" ]}.
Proof.
  unfold Io.convert_edge_data.
  destruct (Io.eval_literals _ _) as [data1|] eqn:H1; simpl; [|discriminate].
  destruct (convert_items dtypes data1) as [data2|] eqn:H2; simpl;
    [|discriminate].
  apply dict_mapM_dom in H1, H2. rewrite dom_delete_L in H1.
  destruct (data2 !! "geometry") as [g|] eqn:Hg.
  - destruct (wkt_loads g); simpl; [|discriminate]. intros [= <-].
    rewrite dom_insert_lookup_L by eauto. congruence.
  - intros [= <-]. congruence.
Qed.

(** X3: a load that returns has read the one source that was given, and
    returns the reader's graph with the same nodes in the same order and
    the same edges [(u, v, key)] in the same order: the conversions
    neither add nor drop nor reorder nodes or edges. *)
Theorem load_graphml_keeps_structure filepath graphml_str node_dtypes
    edge_dtypes graph_dtypes events G :
  load_graphml filepath graphml_str node_dtypes edge_dtypes graph_dtypes
    = (events, Ok G) ->
  exists node_type G0,
    ((exists fp, filepath = Some fp /\ graphml_str = None /\
                 read_graphml fp node_type = Ok G0) \/
     (exists doc, filepath = None /\ graphml_str = Some doc /\
                  parse_graphml doc node_type = Ok G0)) /\
    Nx.nodes G = Nx.nodes G0 /\
    Codec.skeleton G = Codec.skeleton G0.
Proof.
  intros Hload.
  destruct (load_graphml_Ok _ _ _ _ _ _ _ Hload)
    as (nt & G0 & G1 & G2 & _ & Hsrc & H1 & H2 & H3).
  exists nt, G0. split; [exact Hsrc|].
  destruct (convert_graph_attr_types_inv _ _ _ H1) as (Hn1 & He1 & _).
  destruct (convert_node_attr_types_inv _ _ _ H2) as (_ & He2).
  destruct (convert_edge_attr_types_inv _ _ _ H3) as (_ & Hn3).
  split.
  - unfold Nx.nodes. rewrite Hn3, <- Hn1.
    apply convert_node_attr_types_nodes in H2.
    clear -H2. induction H2 as [|nd nd' l l' [Hfst _] _ IH]; [done|].
    rewrite !fmap_cons. by f_equal.
  - unfold Codec.skeleton. rewrite <- He1, <- He2.
    apply convert_edge_attr_types_edges in H3.
    clear -H3. induction H3 as [|e e' l l' (Hs & Hd & Hk & _) _ IH]; [done|].
    rewrite !fmap_cons. f_equal; [|done]. by rewrite Hs, Hd, Hk.
Qed.

(** X4: a load that returns keeps the attribute names: every node has
    the names it had, every edge the names it had without ["id"], and the
    graph the names it had without ["node_default"] and
    ["edge_default"]. *)
Theorem load_graphml_keeps_attribute_names filepath graphml_str node_dtypes
    edge_dtypes graph_dtypes events G :
  load_graphml filepath graphml_str node_dtypes edge_dtypes graph_dtypes
    = (events, Ok G) ->
  exists node_type G0,
    ((exists fp, filepath = Some fp /\ graphml_str = None /\
                 read_graphml fp node_type = Ok G0) \/
     (exists doc, filepath = None /\ graphml_str = Some doc /\
                  parse_graphml doc node_type = Ok G0)) /\
    dom (Nx.graph G)
    = dom (Nx.graph G0) ∖ {[ "node_default"; "edge_default" ]} /\
    Forall2 (λ nd nd0, dom nd.2 = dom nd0.2) (Nx._node G) (Nx._node G0) /\
    Forall2 (λ e e0, dom (Nx.data e) = dom (Nx.data e0) ∖ {[ "id" ]})
            (Nx._edge G) (Nx._edge G0).
Proof.
  intros Hload.
  destruct (load_graphml_Ok _ _ _ _ _ _ _ Hload)
    as (nt & G0 & G1 & G2 & _ & Hsrc & H1 & H2 & H3).
  exists nt, G0. split; [exact Hsrc|].
  destruct (convert_graph_attr_types_inv _ _ _ H1) as (Hn1 & He1 & Hg1).
  destruct (convert_node_attr_types_inv _ _ _ H2) as (Hg2 & He2).
  destruct (convert_edge_attr_types_inv _ _ _ H3) as (Hg3 & Hn3).
  split; [by rewrite Hg3, Hg2|]. split.
  - rewrite Hn3, <- Hn1. apply convert_node_attr_types_nodes in H2.
    apply Forall2_flip. eapply Forall2_impl; [exact H2|].
    intros nd nd' [_ Hc]. by apply convert_node_data_dom in Hc.
  - rewrite <- He1, <- He2. apply convert_edge_attr_types_edges in H3.
    apply Forall2_flip. eapply Forall2_impl; [exact H3|].
    intros e e' (_ & _ & _ & Hc). by apply convert_edge_data_dom in Hc.
Qed.

End Load_more.

Lemma loaded_example :
  load_graphml Builtins.literal_eval Builtins.wkt_loads Builtins.float
    Builtins.int Examples.no_such_file (Examples.parsed_as Examples.saved)
    None (Some "<graphml/>") None None None
  = (Examples.loaded.1, Ok Examples.loaded_graph).
Proof.
  vm_cast_no_check (eq_refl (Examples.loaded.1, Ok Examples.loaded_graph)).
Qed.

Lemma load_graphml_keeps_structure_witness :
  Nx.nodes Examples.loaded_graph = Nx.nodes Examples.saved /\
  Codec.skeleton Examples.loaded_graph = Codec.skeleton Examples.saved.
Proof.
  destruct (load_graphml_keeps_structure _ _ _ _ _ _ _ _ _ _ _ _ _
              loaded_example)
    as (nt & G0 & [(fp & Hfp & _)|(doc & _ & _ & Hread)] & Hn & He);
    [discriminate|].
  injection Hread as <-. split; [exact Hn | exact He].
Defined.

Lemma load_graphml_keeps_attribute_names_witness :
  dom (Nx.graph Examples.loaded_graph) = {[ "simplified" ]} /\
  Forall2 (λ e e0, dom (Nx.data e) = dom (Nx.data e0) ∖ {[ "id" ]})
          (Nx._edge Examples.loaded_graph) (Nx._edge Examples.saved).
Proof.
  destruct (load_graphml_keeps_attribute_names _ _ _ _ _ _ _ _ _ _ _ _ _
              loaded_example)
    as (nt & G0 & [(fp & Hfp & _)|(doc & _ & _ & Hread)] & Hg & _ & He);
    [discriminate|].
  injection Hread as <-. split; [|exact He].
  rewrite Hg. vm_compute. reflexivity.
Defined.

(** ** Loading: what aborts it, geometries, and the round trip *)

Section Load_errors.
Variable literal_eval : string -> res value.
Variable wkt_loads : value -> res value.
Variables py_float py_int : value -> res value.
Variable read_graphml : string -> (value -> res value) -> res MultiDiGraph.
Variable parse_graphml : string -> (value -> res value) -> res MultiDiGraph.

Abbreviation eval_literal := (eval_literal literal_eval).
Abbreviation eval_literals := (eval_literals literal_eval).
Abbreviation convert_node_data := (convert_node_data literal_eval).
Abbreviation convert_edge_data := (convert_edge_data literal_eval wkt_loads).
Abbreviation _convert_node_attr_types := (_convert_node_attr_types literal_eval).
Abbreviation _convert_edge_attr_types :=
  (_convert_edge_attr_types literal_eval wkt_loads).
Abbreviation load_graphml :=
  (load_graphml literal_eval wkt_loads py_float py_int read_graphml
                parse_graphml).
Abbreviation default_node_dtypes := (default_node_dtypes py_float py_int).
Abbreviation default_edge_dtypes := (default_edge_dtypes py_float py_int).

Implicit Types (data : gmap string value)
  (dtypes : gmap string (value -> res value)) (G : MultiDiGraph).

Lemma eval_literal_not_shaped (s : string) :
  bracket_shaped s = false -> eval_literal (VStr s) = Ok (VStr s).
Proof. intros H. unfold Io.eval_literal. by rewrite H. Qed.

Lemma eval_literal_not_text (x : value) :
  (forall s, x <> VStr s) ->
  exists msg, eval_literal x = Err (PyExn AttributeError msg).
Proof. intros H. destruct x; simpl; eauto. by destruct (H s). Qed.

Lemma convert_node_attr_types_Err G dtypes n data e :
  (n, data) ∈ Nx._node G -> convert_node_data dtypes data = Err e ->
  exists e', _convert_node_attr_types G dtypes = Err e'.
Proof.
  intros Hin Hc. unfold Io._convert_node_attr_types.
  destruct (mapM_Err_elem
              (λ nd, data <- convert_node_data dtypes nd.2;; Ok (nd.1, data))
              (Nx._node G) (n, data) e Hin) as [e' ->]; simpl; eauto.
  by rewrite Hc.
Qed.

Lemma convert_edge_attr_types_Err G dtypes ed e :
  ed ∈ Nx._edge G -> convert_edge_data dtypes (Nx.data ed) = Err e ->
  exists e', _convert_edge_attr_types G dtypes = Err e'.
Proof.
  intros Hin Hc. unfold Io._convert_edge_attr_types.
  destruct (mapM_Err_elem
              (λ e, data <- convert_edge_data dtypes (Nx.data e);;
                    Ok (Nx.Edge (Nx.src e) (Nx.dst e) (Nx.key e) data))
              (Nx._edge G) ed e Hin) as [e' ->]; simpl; eauto.
  by rewrite Hc.
Qed.

(** X5: the conversions take every node and edge attribute value for a
    string: a value that is no [str] (a typed GraphML attribute) raises
    [AttributeError] where its text is inspected, and the conversion of
    the node or edge attributes of a graph with such a value raises. *)
Theorem non_text_value_aborts_conversion G dtypes :
  (forall x, (forall s, x <> VStr s) ->
     class_of_result (eval_literal x) = Some AttributeError) /\
  (forall n data attr x,
     (n, data) ∈ Nx._node G -> data !! attr = Some x ->
     (forall s, x <> VStr s) ->
     exists e, _convert_node_attr_types G dtypes = Err e) /\
  (forall ed attr x,
     ed ∈ Nx._edge G -> Nx.data ed !! attr = Some x -> attr <> "id" ->
     (forall s, x <> VStr s) ->
     exists e, _convert_edge_attr_types G dtypes = Err e).
Proof.
  split; [|split].
  - intros x Hx. by destruct (eval_literal_not_text x Hx) as [msg ->].
  - intros n data attr x Hin Hattr Hx.
    destruct (eval_literal_not_text x Hx) as [msg Hmsg].
    destruct (dict_mapM_Err (λ _ y, eval_literal y) data attr x _ Hattr Hmsg)
      as [e He].
    apply (convert_node_attr_types_Err G dtypes n data e Hin).
    unfold Io.convert_node_data, Io.eval_literals. by rewrite He.
  - intros ed attr x Hin Hattr Hid Hx.
    destruct (eval_literal_not_text x Hx) as [msg Hmsg].
    destruct (dict_mapM_Err (λ _ y, eval_literal y)
                (delete "id" (Nx.data ed)) attr x
                (PyExn AttributeError msg)) as [e He];
      [by rewrite lookup_delete_ne | exact Hmsg |].
    apply (convert_edge_attr_types_Err G dtypes ed e Hin).
    unfold Io.convert_edge_data, Io.eval_literals. by rewrite He.
Qed.

(** What [load_graphml] returns or raises once the source is read. *)
Lemma load_graphml_result filepath graphml_str node_dtypes edge_dtypes
    graph_dtypes node_type G0 :
  updated default_node_dtypes node_dtypes !! "osmid" = Some node_type ->
  (exists fp, filepath = Some fp /\ graphml_str = None /\
              read_graphml fp node_type = Ok G0) \/
  (exists doc, filepath = None /\ graphml_str = Some doc /\
               parse_graphml doc node_type = Ok G0) ->
  (load_graphml filepath graphml_str node_dtypes edge_dtypes graph_dtypes).2
  = (G1 <- _convert_graph_attr_types G0
             (updated default_graph_dtypes graph_dtypes);;
     G2 <- _convert_node_attr_types G1
             (updated default_node_dtypes node_dtypes);;
     _convert_edge_attr_types G2 (updated default_edge_dtypes edge_dtypes)).
Proof.
  intros Hnt [(fp & -> & -> & Hread)|(doc & -> & -> & Hread)];
    unfold Io.load_graphml; rewrite Hnt; simpl; rewrite Hread;
    by destruct (bind _ _).
Qed.

(** X6: a malformed boolean aborts the load: when the graph that was
    read has an edge attribute registered for [_convert_bool_string]
    (as ["oneway"] and ["reversed"] are by default) whose text is
    neither ["True"] nor ["False"], [load_graphml] raises. *)
Theorem malformed_boolean_aborts_load filepath graphml_str node_dtypes
    edge_dtypes graph_dtypes node_type G0 ed attr s :
  updated default_node_dtypes node_dtypes !! "osmid" = Some node_type ->
  (exists fp, filepath = Some fp /\ graphml_str = None /\
              read_graphml fp node_type = Ok G0) \/
  (exists doc, filepath = None /\ graphml_str = Some doc /\
               parse_graphml doc node_type = Ok G0) ->
  ed ∈ Nx._edge G0 ->
  Nx.data ed !! attr = Some (VStr s) -> attr <> "id" ->
  bracket_shaped s = false -> s <> "True" -> s <> "False" ->
  updated default_edge_dtypes edge_dtypes !! attr
    = Some _convert_bool_string ->
  exists e,
    (load_graphml filepath graphml_str node_dtypes edge_dtypes graph_dtypes).2
    = Err e.
Proof.
  intros Hnt Hsrc Hin Hattr Hid Hshape HT HF Hdt.
  rewrite (load_graphml_result _ _ _ _ _ _ _ Hnt Hsrc).
  destruct (_convert_graph_attr_types G0 _) as [G1|] eqn:H1; simpl; [|eauto].
  destruct (Io._convert_node_attr_types _ G1 _) as [G2|] eqn:H2; simpl;
    [|eauto].
  destruct (convert_graph_attr_types_inv _ _ _ H1) as (_ & He1 & _).
  destruct (convert_node_attr_types_inv _ _ _ _ H2) as (_ & He2).
  assert (Hin2 : ed ∈ Nx._edge G2) by (by rewrite He2, He1).
  assert (Hc : exists e, convert_edge_data
                 (updated default_edge_dtypes edge_dtypes) (Nx.data ed)
               = Err e).
  { unfold Io.convert_edge_data.
    destruct (Io.eval_literals _ _) as [data1|] eqn:Hev; simpl; [|eauto].
    pose proof (dict_mapM_Ok _ _ _ Hev attr) as Ha.
    rewrite lookup_delete_ne, Hattr in Ha by done.
    destruct Ha as (y & Hy & Hl1).
    rewrite eval_literal_not_shaped in Hy by done. injection Hy as <-.
    destruct (dict_mapM_Err
                (coerce_items (updated default_edge_dtypes edge_dtypes))
                data1 attr (VStr s) (InvalidBoolLiteral (VStr s)) Hl1)
      as [e He].
    { unfold coerce_items. rewrite Hdt.
      by apply convert_bool_string_strict. }
    unfold convert_items. rewrite He. simpl. eauto. }
  destruct Hc as [e Hc].
  by apply (convert_edge_attr_types_Err G2 _ ed e).
Qed.

(** X7: an edge's ["geometry"] text with no coercion registered for it
    is replaced by what [wkt.loads] makes of it, and an error of
    [wkt.loads] on it makes the conversion of the edge raise. *)
Theorem geometry_goes_through_wkt_loads dtypes data s :
  data !! "geometry" = Some (VStr s) ->
  bracket_shaped s = false ->
  dtypes !! "geometry" = None ->
  (forall data', convert_edge_data dtypes data = Ok data' ->
     exists g, wkt_loads (VStr s) = Ok g /\ data' !! "geometry" = Some g) /\
  (forall e, wkt_loads (VStr s) = Err e ->
     exists e', convert_edge_data dtypes data = Err e').
Proof.
  intros Hgeo Hshape Hdt.
  assert (Hpre : forall data1 data2,
    Io.eval_literals literal_eval (delete "id" data) = Ok data1 ->
    convert_items dtypes data1 = Ok data2 ->
    data2 !! "geometry" = Some (VStr s)).
  { intros data1 data2 H1 H2.
    pose proof (dict_mapM_Ok _ _ _ H1 "geometry") as Ha.
    rewrite lookup_delete_ne, Hgeo in Ha by done.
    destruct Ha as (y & Hy & Hl1).
    rewrite eval_literal_not_shaped in Hy by done. injection Hy as <-.
    pose proof (dict_mapM_Ok _ _ _ H2 "geometry") as Hb.
    rewrite Hl1 in Hb. destruct Hb as (y & Hy & Hl2).
    unfold coerce_items in Hy. rewrite Hdt in Hy. congruence. }
  split.
  - intros data'. unfold Io.convert_edge_data.
    destruct (Io.eval_literals _ _) as [data1|] eqn:H1; simpl; [|discriminate].
    destruct (convert_items dtypes data1) as [data2|] eqn:H2; simpl;
      [|discriminate].
    rewrite (Hpre _ _ eq_refl H2).
    destruct (wkt_loads (VStr s)) as [g|]; simpl; [|discriminate].
    intros [= <-]. exists g. split; [done|]. apply lookup_insert_eq.
  - intros e He. unfold Io.convert_edge_data.
    destruct (Io.eval_literals _ _) as [data1|] eqn:H1; simpl; [|eauto].
    destruct (convert_items dtypes data1) as [data2|] eqn:H2; simpl; [|eauto].
    rewrite (Hpre _ _ eq_refl H2), He. simpl. eauto.
Qed.

End Load_errors.

Lemma non_text_value_aborts_conversion_witness :
  exists e,
    _convert_node_attr_types Builtins.literal_eval More_examples.typed
      (default_node_dtypes Builtins.float Builtins.int) = Err e.
Proof.
  apply (proj1 (proj2 (non_text_value_aborts_conversion Builtins.literal_eval
                         Builtins.wkt_loads More_examples.typed _))
           1 {[ "street_count" := VInt 3 ]} "street_count" (VInt 3)).
  - left.
  - reflexivity.
  - discriminate.
Defined.

Lemma malformed_boolean_aborts_load_witness :
  exists e,
    (load_graphml Builtins.literal_eval Builtins.wkt_loads Builtins.float
       Builtins.int Examples.no_such_file
       (Examples.parsed_as More_examples.bad_oneway)
       None (Some "<graphml/>") None None None).2 = Err e.
Proof.
  apply (malformed_boolean_aborts_load Builtins.literal_eval
           Builtins.wkt_loads Builtins.float Builtins.int
           Examples.no_such_file (Examples.parsed_as More_examples.bad_oneway)
           None (Some "<graphml/>") None None None Builtins.int
           More_examples.bad_oneway
           (Nx.Edge 1 2 0 {[ "oneway" := VStr "yes" ]}) "oneway" "yes").
  - reflexivity.
  - right. exists "<graphml/>". done.
  - left.
  - reflexivity.
  - discriminate.
  - reflexivity.
  - discriminate.
  - discriminate.
  - reflexivity.
Defined.

Lemma geometry_goes_through_wkt_loads_witness :
  convert_edge_data Builtins.literal_eval Builtins.wkt_loads ∅
    More_examples.with_geometry = Ok More_examples.with_geometry_converted /\
  More_examples.with_geometry_converted !! "geometry"
    = Some (VGeometry "LINESTRING (0 0, 1 1)").
Proof.
  assert (Hc :
    convert_edge_data Builtins.literal_eval Builtins.wkt_loads ∅
      More_examples.with_geometry = Ok More_examples.with_geometry_converted).
  { vm_cast_no_check (eq_refl (Ok More_examples.with_geometry_converted)). }
  split; [exact Hc|].
  destruct (proj1 (geometry_goes_through_wkt_loads Builtins.literal_eval
                     Builtins.wkt_loads ∅ More_examples.with_geometry
                     "LINESTRING (0 0, 1 1)" eq_refl eq_refl
                     (lookup_empty _))
              _ Hc) as (g & Hg & Hl).
  injection Hg as <-. exact Hl.
Defined.

(** ** What is written, and reading it back *)

Lemma dicts_map_dicts {A B} (f : A -> B) (G : Nx.MultiDiGraph A) :
  Codec.dicts (map_dicts f G) = f <$> Codec.dicts G.
Proof.
  unfold Codec.dicts, map_dicts. cbn [Nx.graph Nx._node Nx._edge].
  rewrite fmap_cons, fmap_app, <- !list_fmap_compose. done.
Qed.

Section Round_trip.
Variable literal_eval : string -> res value.
Variable wkt_loads : value -> res value.
Variable str : value -> string.

Abbreviation stringify := (stringify str).
Abbreviation written := (written str).
Abbreviation convert_node_data := (convert_node_data literal_eval).
Abbreviation convert_edge_data := (convert_edge_data literal_eval wkt_loads).
Abbreviation _convert_node_attr_types := (_convert_node_attr_types literal_eval).
Abbreviation _convert_edge_attr_types :=
  (_convert_edge_attr_types literal_eval wkt_loads).

(** X8: every attribute value of the graph that [save_graphml] hands to
    the writer is a string, in either mode: graph-level, node and edge
    values alike. *)
Theorem written_values_are_strings h G gephi d k x :
  d ∈ Codec.dicts (written h G gephi) -> d !! k = Some x ->
  exists s, x = VStr s.
Proof.
  rewrite written_unfold, dicts_map_dicts.
  intros Hd Hk. apply list_elem_of_fmap in Hd as (d0 & -> & _).
  unfold Io.stringify in Hk. rewrite lookup_fmap in Hk.
  destruct (d0 !! k) as [y|]; [|done]. injection Hk as <-. eauto.
Qed.

Hypothesis str_bool : forall b, str (VBool b) = if b then "True" else "False".
Hypothesis str_str : forall s, str (VStr s) = s.

Lemma coerce_stringified parsed dtypes d k x :
  Codec.plain parsed dtypes d -> d !! k = Some x ->
  coerce dtypes k (VStr (str x)) = Ok x /\
  coerce_items dtypes k (VStr (str x)) = Ok x /\
  (parsed = true -> Io.eval_literal literal_eval (VStr (str x))
                    = Ok (VStr (str x))).
Proof.
  intros Hp Hk. unfold coerce, coerce_items.
  destruct (Hp k x Hk) as [(b & -> & ->)|(s & -> & -> & Hs)].
  - rewrite str_bool. destruct b; repeat split; done.
  - rewrite str_str. repeat split; [done..|].
    intros Hpar. unfold Io.eval_literal. by rewrite (Hs Hpar).
Qed.

Lemma eval_literals_stringified dtypes d :
  Codec.plain true dtypes d ->
  Io.eval_literals literal_eval (stringify d) = Ok (stringify d).
Proof.
  intros Hp. unfold Io.eval_literals.
  rewrite <- (map_fmap_id (stringify d)) at 1.
  apply dict_mapM_inverse. intros k y Hk.
  unfold Io.stringify in Hk. rewrite lookup_fmap in Hk.
  destruct (d !! k) as [x|] eqn:Hx; [|done]. injection Hk as <-.
  by apply (coerce_stringified true dtypes d k x Hp Hx).
Qed.

Lemma convert_node_data_stringified dtypes d :
  Codec.plain true dtypes d -> convert_node_data dtypes (stringify d) = Ok d.
Proof.
  intros Hp. unfold Io.convert_node_data.
  rewrite (eval_literals_stringified dtypes d Hp). simpl.
  apply dict_mapM_inverse. intros k x Hk.
  by apply (coerce_stringified true dtypes d k x Hp Hk).
Qed.

Lemma convert_edge_data_stringified dtypes d :
  Codec.plain true dtypes d -> d !! "id" = None -> d !! "geometry" = None ->
  convert_edge_data dtypes (stringify d) = Ok d.
Proof.
  intros Hp Hid Hgeo. unfold Io.convert_edge_data.
  rewrite delete_id by (unfold Io.stringify; by rewrite lookup_fmap, Hid).
  rewrite (eval_literals_stringified dtypes d Hp). simpl.
  unfold Io.convert_items, Io.stringify. rewrite dict_mapM_inverse.
  - simpl. by rewrite Hgeo.
  - intros k x Hk. by apply (coerce_stringified true dtypes d k x Hp Hk).
Qed.

(** X9: reading back what was written: for a graph whose attribute
    values are booleans under names registered for [_convert_bool_string]
    and strings under names with no registered coercion (node and edge
    strings not bracket-shaped, no edge attribute ["id"] or
    ["geometry"], no graph attribute ["node_default"] or
    ["edge_default"]), the three conversions of [load_graphml] applied to
    what [save_graphml] writes in default mode give the graph back,
    provided [str] writes booleans and strings as Python does. *)
Theorem save_then_convert_round_trip h G graph_dtypes node_dtypes edge_dtypes :
  Codec.plain false graph_dtypes (Nx.graph (snapshot h G)) ->
  Nx.graph (snapshot h G) !! "node_default" = None ->
  Nx.graph (snapshot h G) !! "edge_default" = None ->
  Forall (λ nd, Codec.plain true node_dtypes nd.2) (Nx._node (snapshot h G)) ->
  Forall (λ e, Codec.plain true edge_dtypes (Nx.data e) /\
               Nx.data e !! "id" = None /\ Nx.data e !! "geometry" = None)
         (Nx._edge (snapshot h G)) ->
  (G1 <- _convert_graph_attr_types (written h G false) graph_dtypes;;
   G2 <- _convert_node_attr_types G1 node_dtypes;;
   _convert_edge_attr_types G2 edge_dtypes) = Ok (snapshot h G).
Proof.
  intros Hg Hnd Hed Hn He. rewrite written_default.
  set (S := snapshot h G) in *. destruct S as [g ns es]. simpl in *.
  unfold _convert_graph_attr_types, map_dicts. simpl.
  rewrite !delete_id
    by (unfold Io.stringify; rewrite ?lookup_delete_ne by done;
        by rewrite lookup_fmap, ?Hnd, ?Hed).
  unfold Io.convert_whole, Io.stringify at 1. rewrite dict_mapM_inverse; simpl.
  2:{ intros k x Hk. by apply (coerce_stringified false graph_dtypes g k x). }
  unfold Io._convert_node_attr_types. simpl.
  replace (mapM _ ((λ nd, (nd.1, stringify nd.2)) <$> ns)) with (Ok ns).
  2:{ symmetry. apply mapM_Ok_Forall2, Forall2_fmap_l, Forall_Forall2_diag.
      eapply Forall_impl; [exact Hn|]. intros [n d] Hp. simpl in *.
      by rewrite (convert_node_data_stringified node_dtypes d Hp). }
  simpl. unfold Io._convert_edge_attr_types. simpl.
  replace (mapM _ ((λ e, with_data e (stringify (Nx.data e))) <$> es))
    with (Ok es); [done|].
  symmetry. apply mapM_Ok_Forall2, Forall2_fmap_l, Forall_Forall2_diag.
  eapply Forall_impl; [exact He|]. intros [u v k d] (Hp & Hid & Hgeo).
  simpl in *.
  by rewrite (convert_edge_data_stringified edge_dtypes d Hp Hid Hgeo).
Qed.

End Round_trip.

Lemma plain_empty parsed dtypes : Codec.plain parsed dtypes ∅.
Proof. intros k x Hk. by rewrite lookup_empty in Hk. Qed.

Lemma plain_insert_bool parsed dtypes d k b :
  dtypes !! k = Some _convert_bool_string -> Codec.plain parsed dtypes d ->
  Codec.plain parsed dtypes (<[k := VBool b]> d).
Proof.
  intros Hk Hd k' x Hx. destruct (decide (k = k')) as [<-|Hne].
  - rewrite lookup_insert_eq in Hx. injection Hx as <-. left. eauto.
  - rewrite lookup_insert_ne in Hx by done. by apply Hd.
Qed.

Lemma plain_insert_str parsed dtypes d k s :
  dtypes !! k = None -> (parsed = true -> bracket_shaped s = false) ->
  Codec.plain parsed dtypes d ->
  Codec.plain parsed dtypes (<[k := VStr s]> d).
Proof.
  intros Hk Hs Hd k' x Hx. destruct (decide (k = k')) as [<-|Hne].
  - rewrite lookup_insert_eq in Hx. injection Hx as <-. right. eauto.
  - rewrite lookup_insert_ne in Hx by done. by apply Hd.
Qed.

Lemma written_values_are_strings_witness :
  exists s, VStr "stop" = VStr s.
Proof.
  apply (written_values_are_strings Builtins.str More_examples.plain_store
           More_examples.plain_held false {[ "highway" := VStr "stop" ]}
           "highway").
  - apply (list_elem_of_lookup_2 _ 1%nat).
    vm_cast_no_check
      (eq_refl (Some ({[ "highway" := VStr "stop" ]} : gmap string value))).
  - reflexivity.
Defined.

Lemma save_then_convert_round_trip_witness :
  (G1 <- _convert_graph_attr_types
           (written Builtins.str More_examples.plain_store
              More_examples.plain_held false)
           (More_examples.bool_dtypes ["simplified"]);;
   G2 <- _convert_node_attr_types Builtins.literal_eval G1 ∅;;
   _convert_edge_attr_types Builtins.literal_eval Builtins.wkt_loads G2
     (More_examples.bool_dtypes ["oneway"]))
  = Ok (snapshot More_examples.plain_store More_examples.plain_held).
Proof.
  apply (save_then_convert_round_trip Builtins.literal_eval
           Builtins.wkt_loads Builtins.str).
  - by intros [].
  - done.
  - apply plain_insert_bool; [done|].
    rewrite <- insert_empty. apply plain_insert_str; [done..|].
    apply plain_empty.
  - reflexivity.
  - reflexivity.
  - apply Forall_cons. split; [|apply Forall_cons; split; [|constructor]].
    + change (Codec.plain true ∅ {[ "highway" := VStr "stop" ]}).
      rewrite <- insert_empty. apply plain_insert_str; [done..|].
      apply plain_empty.
    + apply plain_empty.
  - apply Forall_cons. split; [|constructor].
    split; [|by split].
    change (Codec.plain true (More_examples.bool_dtypes ["oneway"])
              {[ "oneway" := VBool false; "name" := VStr "Main" ]}).
    apply plain_insert_bool; [done|].
    rewrite <- insert_empty. apply plain_insert_str; [done..|].
    apply plain_empty.
Defined.

(** ** The node and way records of the tree *)

Import Osm_tree.

Lemma select_Ok series labels attrib :
  select series labels = Ok attrib ->
  attrib.*1 = labels /\ Forall (λ kv, series !! kv.1 = Some kv.2) attrib.
Proof.
  unfold select. revert attrib.
  induction labels as [|a labels IH]; intros attrib H; simpl in H.
  - injection H as <-. split; [done|constructor].
  - destruct (series !! a) as [x|] eqn:Ha; simpl in H; [|discriminate].
    destruct (mapM _ labels) as [attrib'|]; simpl in H; [|discriminate].
    injection H as <-. destruct (IH _ eq_refl) as [Hkeys Hall].
    split; [by rewrite fmap_cons, Hkeys|]. by constructor.
Qed.

Lemma select_result series labels :
  (exists attrib, select series labels = Ok attrib /\
                  forall a, a ∈ labels -> is_Some (series !! a)) \/
  (exists a, select series labels = Err (PyExn KeyError a) /\
             a ∈ labels /\ series !! a = None).
Proof.
  unfold select. induction labels as [|a labels IH]; simpl.
  - left. eexists. split; [done|]. intros a Ha. by apply elem_of_nil in Ha.
  - destruct (series !! a) as [x|] eqn:Hx; simpl.
    + destruct IH as [(attrib & -> & Hall)|(b & -> & Hb & Hnone)]; simpl.
      * left. eexists. split; [done|]. intros b Hb.
        apply elem_of_cons in Hb as [->|Hb]; [by rewrite Hx|by apply Hall].
      * right. exists b. split; [done|]. split; [by right|done].
    + right. exists a. split; [done|]. split; [by left|done].
Qed.

Lemma append_tags_children row tags t a cs :
  append_tags row tags (Elem t a cs)
  = Elem t a (cs ++ omap (λ tag, (λ x, Elem "tag" [("k", tag); ("v", x)] [])
                                   <$> row !! tag) tags).
Proof.
  unfold append_tags. revert cs.
  induction tags as [|tag tags IH]; intros cs; simpl.
  - by rewrite app_nil_r.
  - destruct (row !! tag) as [x|]; simpl; [|apply IH].
    rewrite IH. by rewrite <- app_assoc.
Qed.

Lemma tags_of_row (row : gmap string string) tags :
  Forall (λ e, exists k x, k ∈ tags /\ row !! k = Some x /\
                           e = Elem "tag" [("k", k); ("v", x)] [])
    (omap (λ tag, (λ x, Elem "tag" [("k", tag); ("v", x)] [])
                    <$> row !! tag) tags).
Proof.
  apply Forall_forall. intros e He.
  apply list_elem_of_omap in He as (k & Hk & He).
  destruct (row !! k) as [x|] eqn:Hx; [|done].
  injection He as <-. eauto.
Qed.

Lemma dropna_u_v str df r :
  dropna_astype_str str df r !! "u" = Some (str (VInt (u r))) /\
  dropna_astype_str str df r !! "v" = Some (str (VInt (v r))).
Proof.
  unfold dropna_astype_str. simpl. split.
  - apply lookup_insert_eq.
  - rewrite lookup_insert_ne by done. apply lookup_insert_eq.
Qed.

Section Tree_facts.
Variable str : value -> string.

Abbreviation _append_nodes_xml_tree := (_append_nodes_xml_tree str).
Abbreviation _create_way_for_each_edge := (_create_way_for_each_edge str).
Abbreviation dropna_astype_str := (dropna_astype_str str).

(** X10: when [_append_nodes_xml_tree] returns, the root has kept its
    children and gained one [node] element per row of the frame, in the
    order of the rows; the attribute names of a node are [node_attrs] in
    their order, with the row's values as strings, and its children are
    [tag] elements only, each for a label of [node_tags] that the row has
    a value for. *)
Theorem nodes_tree_one_node_per_row t a cs gdf_nodes node_attrs node_tags
    root' :
  _append_nodes_xml_tree (Elem t a cs) gdf_nodes node_attrs node_tags
    = Ok root' ->
  exists nodes,
    root' = Elem t a (cs ++ nodes) /\
    Forall2
      (λ cells node,
         exists attrib ts,
           node = Elem "node" attrib ts /\
           attrib.*1 = node_attrs /\
           Forall (λ kv, (str <$> cells) !! kv.1 = Some kv.2) attrib /\
           Forall (λ e, exists k x, k ∈ node_tags /\
                          (str <$> cells) !! k = Some x /\
                          e = Elem "tag" [("k", k); ("v", x)] []) ts)
      gdf_nodes nodes.
Proof.
  unfold Osm_tree._append_nodes_xml_tree. revert cs.
  induction gdf_nodes as [|cells rest IH]; intros cs H; simpl in H.
  - injection H as <-. exists []. by rewrite app_nil_r.
  - destruct (select (str <$> cells) node_attrs) as [attrib|] eqn:Hsel;
      simpl in H; [|discriminate].
    rewrite append_tags_children in H. simpl in H.
    destruct (IH _ H) as (nodes & -> & Hall).
    eexists (_ :: nodes). rewrite <- app_assoc. split; [done|].
    constructor; [|done].
    destruct (select_Ok _ _ _ Hsel) as [Hkeys Hvals].
    eexists _, _. split; [done|]. split; [done|]. split; [done|].
    apply tags_of_row.
Qed.

(** X11: [_append_nodes_xml_tree] raises [KeyError] exactly when some
    row has no value (has NaN) for one of [node_attrs], and returns
    otherwise. *)
Theorem nodes_tree_missing_attribute root gdf_nodes node_attrs node_tags :
  ((exists cells a, cells ∈ gdf_nodes /\ a ∈ node_attrs /\ cells !! a = None)
   <-> exists msg, _append_nodes_xml_tree root gdf_nodes node_attrs node_tags
                   = Err (PyExn KeyError msg)) /\
  ((forall cells a, cells ∈ gdf_nodes -> a ∈ node_attrs ->
                    is_Some (cells !! a))
   <-> exists root', _append_nodes_xml_tree root gdf_nodes node_attrs node_tags
                     = Ok root').
Proof.
  assert (Hcases :
    (exists root', _append_nodes_xml_tree root gdf_nodes node_attrs node_tags
                   = Ok root' /\
       forall cells a, cells ∈ gdf_nodes -> a ∈ node_attrs ->
                       is_Some (cells !! a)) \/
    (exists msg, _append_nodes_xml_tree root gdf_nodes node_attrs node_tags
                 = Err (PyExn KeyError msg) /\
       exists cells a, cells ∈ gdf_nodes /\ a ∈ node_attrs /\
                       cells !! a = None)).
  { unfold Osm_tree._append_nodes_xml_tree. revert root.
    induction gdf_nodes as [|cells rest IH]; intros root; simpl.
    - left. eexists. split; [done|]. intros c b Hc.
      by apply elem_of_nil in Hc.
    - destruct (select_result (str <$> cells) node_attrs)
        as [(attrib & -> & Hall)|(b & -> & Hb & Hnone)]; simpl.
      + destruct (IH (append_child root
                        (append_tags (str <$> cells) node_tags
                           (Elem "node" attrib []))))
          as [(root' & -> & Hrest)|(msg & -> & c & b & Hc & Hb & Hnone)].
        * left. eexists. split; [done|]. intros c b Hc Hb.
          apply elem_of_cons in Hc as [->|Hc]; [|by apply Hrest].
          specialize (Hall b Hb). rewrite lookup_fmap in Hall.
          by apply fmap_is_Some in Hall.
        * right. eexists. split; [done|]. exists c, b.
          split; [by right|done].
      + right. eexists. split; [done|]. exists cells, b.
        split; [by left|]. split; [done|].
        rewrite lookup_fmap in Hnone. by apply fmap_None in Hnone. }
  split; split.
  - intros (c & b & Hc & Hb & Hnone).
    destruct Hcases as [(root' & _ & Hall)|(msg & -> & _)]; [|eauto].
    destruct (Hall c b Hc Hb) as [x Hx]. congruence.
  - intros (msg & Hmsg).
    destruct Hcases as [(root' & Hok & _)|(_ & _ & Hex)]; [congruence|done].
  - intros Hall.
    destruct Hcases as [(root' & -> & _)|(_ & _ & c & b & Hc & Hb & Hnone)];
      [eauto|].
    destruct (Hall c b Hc Hb) as [x Hx]. congruence.
  - intros (root' & Hok).
    destruct Hcases as [(_ & _ & Hall)|(msg & Herr & _)]; [done|congruence].
Qed.

(** X12: when [_create_way_for_each_edge] returns, the root has kept
    its children and gained one [way] element per row of the frame, in
    the order of the rows; a way's attribute names are [edge_attrs], its
    first two children are the [nd] references to the row's [u] and [v],
    and all its other children are [tag] elements for labels of
    [edge_tags] that the row has a value for. *)
Theorem one_way_per_edge t a cs gdf_edges edge_attrs edge_tags root' :
  _create_way_for_each_edge (Elem t a cs) gdf_edges edge_attrs edge_tags
    = Ok root' ->
  exists ways,
    root' = Elem t a (cs ++ ways) /\
    Forall2
      (λ r way,
         exists attrib ts,
           way = Elem "way" attrib
                   (Elem "nd" [("ref", str (VInt (u r)))] []
                    :: Elem "nd" [("ref", str (VInt (v r)))] [] :: ts) /\
           attrib.*1 = edge_attrs /\
           Forall (λ kv, dropna_astype_str gdf_edges r !! kv.1 = Some kv.2)
                  attrib /\
           Forall (λ e, exists k x, k ∈ edge_tags /\
                          dropna_astype_str gdf_edges r !! k = Some x /\
                          e = Elem "tag" [("k", k); ("v", x)] []) ts)
      (rows gdf_edges) ways.
Proof.
  unfold Osm_tree._create_way_for_each_edge.
  generalize (rows gdf_edges) as rs. intros rs. revert cs.
  induction rs as [|r rest IH]; intros cs H; simpl in H.
  - injection H as <-. exists []. by rewrite app_nil_r.
  - destruct (select (dropna_astype_str gdf_edges r) edge_attrs)
      as [attrib|] eqn:Hsel; simpl in H; [|discriminate].
    destruct (dropna_u_v str gdf_edges r) as [Hu Hv].
    rewrite Hu, Hv in H. simpl in H.
    rewrite append_tags_children in H. simpl in H.
    destruct (IH _ H) as (ways & -> & Hall).
    eexists (_ :: ways). rewrite <- app_assoc. split; [done|].
    constructor; [|done].
    destruct (select_Ok _ _ _ Hsel) as [Hkeys Hvals].
    eexists _, _. split; [done|]. split; [done|]. split; [done|].
    apply tags_of_row.
Qed.

(** X13: on a way of one edge with no aggregations, merging changes
    nothing: the loop body of [_append_edges_xml_tree] for the group
    returns or raises what [_create_way_for_each_edge] does for the
    frame, logs nothing and leaves the frame as it is. *)
Theorem one_edge_way_merged_or_not root (all_way_edges : DataFrame)
    edge_attrs edge_tags log :
  length (rows all_way_edges) = 1%nat ->
  let o := append_merged_way str root all_way_edges edge_attrs edge_tags
             None log in
  result o = _create_way_for_each_edge root all_way_edges edge_attrs edge_tags
  /\ log_after o = log /\ frame_after o = all_way_edges.
Proof.
  intros Hlen. unfold append_merged_way, Osm_tree._create_way_for_each_edge.
  destruct (rows all_way_edges) as [|r [|r' rest]] eqn:Hrows;
    [discriminate| |discriminate].
  cbv zeta. unfold select. cbn [Nx.foldM].
  destruct (mapM _ edge_attrs) as [attrib|]; simpl; [|done].
  unfold _append_nodes_as_edge_attrs. rewrite Hrows. simpl.
  destruct (dropna_u_v str all_way_edges r) as [Hu Hv].
  rewrite Hu, Hv. simpl. split; [|done].
  destruct root as [t a cs]. unfold append_tags. done.
Qed.

End Tree_facts.

Lemma nodes_tree_one_node_per_row_witness :
  exists nodes,
    More_examples.nodes_tree = Elem "osm" [] ([] ++ nodes) /\
    Forall2
      (λ cells node,
         exists attrib ts,
           node = Elem "node" attrib ts /\
           attrib.*1 = ["id"] /\
           Forall (λ kv, (Builtins.str <$> cells) !! kv.1 = Some kv.2)
                  attrib /\
           Forall (λ e, exists k x, k ∈ ["highway"] /\
                          (Builtins.str <$> cells) !! k = Some x /\
                          e = Elem "tag" [("k", k); ("v", x)] []) ts)
      More_examples.node_rows nodes.
Proof.
  apply (nodes_tree_one_node_per_row Builtins.str "osm" [] []
           More_examples.node_rows ["id"] ["highway"]).
  vm_cast_no_check (eq_refl (Ok More_examples.nodes_tree)).
Defined.

Lemma one_way_per_edge_witness :
  exists ways,
    More_examples.ways_tree = Elem "osm" [] ([] ++ ways) /\
    Forall2
      (λ r way,
         exists attrib ts,
           way = Elem "way" attrib
                   (Elem "nd" [("ref", Builtins.str (VInt (u r)))] []
                    :: Elem "nd" [("ref", Builtins.str (VInt (v r)))] []
                    :: ts) /\
           attrib.*1 = ["id"] /\
           Forall (λ kv, dropna_astype_str Builtins.str Examples.lengths r
                           !! kv.1 = Some kv.2) attrib /\
           Forall (λ e, exists k x, k ∈ ["length"] /\
                          dropna_astype_str Builtins.str Examples.lengths r
                            !! k = Some x /\
                          e = Elem "tag" [("k", k); ("v", x)] []) ts)
      (rows Examples.lengths) ways.
Proof.
  apply (one_way_per_edge Builtins.str "osm" [] [] Examples.lengths
           ["id"] ["length"]).
  vm_cast_no_check (eq_refl (Ok More_examples.ways_tree)).
Defined.

Lemma one_edge_way_merged_or_not_witness :
  result (append_merged_way Builtins.str (Elem "osm" [] [])
            More_examples.one_edge ["id"] ["length"] None [])
  = Osm_tree._create_way_for_each_edge Builtins.str (Elem "osm" [] [])
      More_examples.one_edge ["id"] ["length"] /\
  log_after (append_merged_way Builtins.str (Elem "osm" [] [])
               More_examples.one_edge ["id"] ["length"] None []) = [] /\
  frame_after (append_merged_way Builtins.str (Elem "osm" [] [])
                 More_examples.one_edge ["id"] ["length"] None [])
  = More_examples.one_edge.
Proof.
  apply (one_edge_way_merged_or_not Builtins.str (Elem "osm" [] [])
           More_examples.one_edge ["id"] ["length"] []).
  reflexivity.
Defined.

(** ** Merged tags, in general *)

Lemma tag_values_SubElement e t attrib k :
  tag_values (SubElement e t attrib) k
  = tag_values e k ++ tag_values (Elem "" [] [Elem t attrib []]) k.
Proof.
  destruct e as [t0 a0 cs]. unfold tag_values, SubElement, children_of.
  apply omap_app.
Qed.

Lemma tag_values_other_tag e k' x k :
  k' <> k ->
  tag_values (SubElement e "tag" [("k", k'); ("v", x)]) k = tag_values e k.
Proof.
  intros Hne. rewrite tag_values_SubElement. unfold tag_values at 2. simpl.
  destruct (decide (k' = k)); [done|]. apply app_nil_r.
Qed.

Lemma tag_values_same_tag e k x :
  tag_values (SubElement e "tag" [("k", k); ("v", x)]) k
  = tag_values e k ++ [x].
Proof.
  rewrite tag_values_SubElement. unfold tag_values at 2. simpl.
  by destruct (decide (k = k)).
Qed.

Section Merged_tags.
Variable str : value -> string.

Lemma sample_tags_leave_others (sample : gmap string string)
    (keep : string -> bool) e edge_tags k :
  keep k = false ->
  tag_values
    (foldl (λ e tag, match sample !! tag with
                     | Some val =>
                         if keep tag
                         then SubElement e "tag" [("k", tag); ("v", val)]
                         else e
                     | None => e
                     end) e edge_tags) k
  = tag_values e k.
Proof.
  intros Hk. revert e. induction edge_tags as [|tag tags IH]; intros e; simpl.
  - done.
  - rewrite IH. destruct (sample !! tag) as [val|]; [|done].
    destruct (keep tag) eqn:Hkeep; [|done].
    apply tag_values_other_tag. congruence.
Qed.

(** X14: with aggregations, the tag of an aggregated label that is a
    column of the frame is the aggregate over the column and nothing
    else: the one [tag] element added for it has [str] of what the
    operator returns, whether or not the label is among [edge_tags] and
    whatever the sample edge has for it. *)
Theorem aggregated_tag_is_the_aggregate xml_edge
    (sample_edge : gmap string string) all_edges_df edge_tags aggs tag agg
    a e :
  NoDup aggs.*1 -> (tag, agg) ∈ aggs ->
  has_column all_edges_df tag = true ->
  agg (column all_edges_df tag) = Ok a ->
  _append_merged_edge_attrs str xml_edge sample_edge all_edges_df edge_tags
    (Some aggs) = Ok e ->
  tag_values e tag = tag_values xml_edge tag ++ [str a].
Proof.
  intros Hnd Hin Hcol Ha H. unfold _append_merged_edge_attrs in H.
  rewrite <- (sample_tags_leave_others sample_edge
                (λ t, negb (is_aggregated aggs t)) xml_edge edge_tags tag).
  2:{ unfold is_aggregated. apply negb_false_iff, bool_decide_eq_true.
      apply list_elem_of_fmap. by exists (tag, agg). }
  revert H. generalize (foldl
    (λ e tag, match sample_edge !! tag with
              | Some val =>
                  if negb (is_aggregated aggs tag)
                  then SubElement e "tag" [("k", tag); ("v", val)]
                  else e
              | None => e
              end) xml_edge edge_tags) as e1.
  clear xml_edge.
  induction aggs as [|[t g] rest IH]; intros e1 H.
  - by apply elem_of_nil in Hin.
  - rewrite fmap_cons in Hnd. apply NoDup_cons in Hnd as [Hnotin Hnd].
    simpl in H, Hnotin.
    destruct (decide (t = tag)) as [->|Hne].
    + assert (g = agg) as ->.
      { apply elem_of_cons in Hin as [[= ->]|Hin]; [done|].
        destruct Hnotin. apply list_elem_of_fmap. by exists (tag, agg). }
      rewrite Hcol, Ha in H. simpl in H.
      rewrite (aggregated_tags_leave_others str _ _ _ _ _ Hnotin H).
      apply tag_values_same_tag.
    + apply elem_of_cons in Hin as [[= -> ->]|Hin]; [done|].
      destruct (has_column all_edges_df t).
      * destruct (g (column all_edges_df t)) as [b|]; simpl in H;
          [|discriminate].
        rewrite (IH Hnd Hin _ H). by rewrite tag_values_other_tag.
      * by apply IH.
Qed.

End Merged_tags.

Lemma aggregated_tag_is_the_aggregate_witness :
  tag_values More_examples.aggregated_way "length"
  = tag_values (Elem "way" [] []) "length"
      ++ [Builtins.str (VFloat 12%float)].
Proof.
  apply (aggregated_tag_is_the_aggregate Builtins.str (Elem "way" [] [])
           (dropna_astype_str Builtins.str Examples.lengths
              Examples.first_edge)
           Examples.lengths [] [("length", agg_sum)] "length" agg_sum
           (VFloat 12%float) More_examples.aggregated_way).
  - apply NoDup_singleton.
  - left.
  - reflexivity.
  - vm_compute. reflexivity.
  - vm_cast_no_check (eq_refl (Ok More_examples.aggregated_way)).
Defined.

(** ** The SAX content handler *)

Lemma foldM_app {A B} (f : A -> B -> res A) a l1 l2 :
  Nx.foldM f a (l1 ++ l2)
  = bind (Nx.foldM f a l1) (λ a', Nx.foldM f a' l2).
Proof.
  revert a. induction l1 as [|x l1 IH]; intros a; simpl; [done|].
  destruct (f a x); simpl; [apply IH|done].
Qed.

Ltac res_inv H :=
  repeat match type of H with
  | bind ?x _ = Ok _ =>
      let E := fresh "E" in destruct x eqn:E; simpl in H; [|discriminate]
  | match ?x with _ => _ end = Ok _ =>
      let E := fresh "E" in destruct x eqn:E; simpl in H; try discriminate
  end.

Section Sax_facts.
Import Osm_sax.
Variables float int : value -> res value.

Abbreviation startElement := (startElement float int).
Abbreviation handle := (handle float int).
Abbreviation parse := (parse float int).

Lemma current_Ok h c el :
  current h = Ok (c, el) -> _element h = Some c /\ store h !! c = Some el.
Proof.
  unfold current, not_subscriptable. intros H.
  destruct (_element h) as [c'|]; [|discriminate].
  destruct (store h !! c') as [el'|] eqn:E; [|discriminate].
  by injection H as -> ->.
Qed.

(** What a start event can do to the handler: change the other keys of
    the object, make a new current record, or put a new version of the
    current record in its place. *)
Lemma startElement_Ok h name attrs h' :
  startElement h name attrs = Ok h' ->
  (name = "osm" /\ store h' = store h /\ _element h' = _element h /\
   elements h' = elements h) \/
  (name ∈ ["node"; "way"; "relation"] /\
   exists el, h' = set_current h el /\ etype el = name /\ tags el = ∅) \/
  (name ∈ ["tag"; "nd"; "member"] /\
   exists c el el', current h = Ok (c, el) /\ h' = put h c el') \/
  (h' = h /\
   ~ name ∈ ["osm"; "node"; "way"; "relation"; "tag"; "nd"; "member"]).
Proof.
  intros H. unfold Osm_sax.startElement in H.
  repeat case_decide.
  - left. by injection H as <-.
  - right. left. split; [rewrite !elem_of_cons; tauto|].
    res_inv H; injection H as <-; eauto.
  - right. left. split; [rewrite !elem_of_cons; tauto|].
    res_inv H. injection H as <-. eauto.
  - right. right. left. split; [rewrite !elem_of_cons; tauto|].
    res_inv H. injection H as <-. eauto 10.
  - right. right. left. split; [rewrite !elem_of_cons; tauto|].
    res_inv H. injection H as <-. eauto 10.
  - right. right. left. split; [rewrite !elem_of_cons; tauto|].
    res_inv H. injection H as <-. eauto 10.
  - right. right. right. injection H as <-. split; [done|].
    rewrite !elem_of_cons. rewrite elem_of_nil. tauto.
Qed.

Lemma startElement_elements h name attrs h' :
  startElement h name attrs = Ok h' -> elements h' = elements h.
Proof.
  intros H.
  destruct (startElement_Ok _ _ _ _ H)
    as [(_ & _ & _ & He)|[(_ & el & -> & _)|[(_ & c & el & el' & _ & ->)
        |(-> & _)]]]; done.
Qed.

Lemma startElement_addressed h name attrs h' :
  addressed h -> startElement h name attrs = Ok h' -> addressed h'.
Proof.
  intros [Hc He] H.
  destruct (startElement_Ok _ _ _ _ H)
    as [(_ & Hs & Hcur & Hel)|[(_ & el & -> & _)|[(_ & c & el & el' & _ & ->)
        |(-> & _)]]]; [| | |done].
  - split; rewrite Hs; [by rewrite Hcur|by rewrite Hel].
  - split; simpl.
    + intros c [= <-]. rewrite length_app. simpl. lia.
    + eapply Forall_impl; [exact He|]. intros r Hr c Hrc.
      rewrite length_app. specialize (Hr c Hrc). lia.
  - split; simpl; rewrite length_insert; done.
Qed.

Lemma handle_addressed h ev h' :
  addressed h -> handle h ev = Ok h' -> addressed h'.
Proof.
  intros Ha H. destruct ev as [name attrs|name]; simpl in H.
  - by eapply startElement_addressed.
  - injection H as <-. unfold endElement. case_decide; [|done].
    destruct Ha as [Hc He]. split; simpl; [done|].
    apply Forall_app. split; [done|]. by constructor.
Qed.

Lemma parse_addressed h evs h' :
  addressed h -> parse h evs = Ok h' -> addressed h'.
Proof.
  unfold Osm_sax.parse. revert h.
  induction evs as [|ev evs IH]; intros h Ha H; simpl in H.
  - by injection H as <-.
  - destruct (handle h ev) as [h1|] eqn:Hev; simpl in H; [|discriminate].
    eapply IH; [|exact H]. by eapply handle_addressed.
Qed.

Lemma init_addressed : addressed init.
Proof. split; [done|constructor]. Qed.

(** X15: when a document has been parsed, [object["elements"]] has one
    entry for each end of a [node], [way] or [relation] element, whatever
    was between the events: no other event adds or removes an entry. *)
Theorem one_record_per_closing_event h evs h' :
  parse h evs = Ok h' ->
  length (records h')
  = (length (records h) + length (filter closes_record evs))%nat.
Proof.
  unfold records. rewrite !length_fmap. unfold Osm_sax.parse. revert h.
  induction evs as [|ev evs IH]; intros h H; simpl in H.
  - injection H as <-. simpl. lia.
  - destruct (handle h ev) as [h1|] eqn:Hev; simpl in H; [|discriminate].
    rewrite (IH _ H). rewrite filter_cons.
    destruct ev as [name attrs|name]; simpl in Hev.
    + rewrite (startElement_elements _ _ _ _ Hev).
      destruct (decide (closes_record (Start name attrs))) as [[]|_]. done.
    + injection Hev as <-. unfold endElement.
      destruct (decide (closes_record (End_ name))) as [Hc|Hc];
        simpl in Hc; case_decide; try done; simpl.
      rewrite length_app. simpl. lia.
Qed.

Lemma set_current_put h el el' :
  put (set_current h el) (length (store h)) el' = set_current h el'.
Proof.
  unfold put, set_current. simpl. f_equal.
  rewrite insert_app_r_alt by done. by rewrite Nat.sub_diag.
Qed.

Lemma current_set_current h el :
  current (set_current h el) = Ok (length (store h), el).
Proof. unfold current, set_current. simpl. by rewrite list_lookup_middle. Qed.

Lemma nd_events_parse h el refs0 refs ns :
  nodes el = Some refs0 -> mapM (λ ref, int (VStr ref)) refs = Ok ns ->
  parse (set_current h el) (refs ≫= nd_events)
  = Ok (set_current h (Element (etype el) (fields el) (tags el)
                         (Some (refs0 ++ ns)) (members el))).
Proof.
  revert el refs0 ns.
  induction refs as [|ref refs IH]; intros el refs0 ns Hn Hm; simpl in Hm.
  - injection Hm as <-. rewrite app_nil_r, <- Hn. by destruct el.
  - destruct (int (VStr ref)) as [n|] eqn:Hi; simpl in Hm; [|discriminate].
    destruct (mapM _ refs) as [ns'|] eqn:Hrest; simpl in Hm; [|discriminate].
    injection Hm as <-. rewrite bind_cons. unfold Osm_sax.parse.
    rewrite foldM_app. unfold nd_events at 1. cbn [Nx.foldM Osm_sax.handle].
    unfold Osm_sax.startElement. simpl.
    rewrite current_set_current. simpl. rewrite Hn.
    unfold attr. rewrite lookup_singleton_eq. simpl. rewrite Hi. simpl.
    rewrite set_current_put.
    change (Nx.foldM (Osm_sax.handle float int) ?a ?l) with (parse a l).
    change (endElement ?x "nd") with x.
    rewrite (IH (Element (etype el) (fields el) (tags el)
                   (Some (refs0 ++ [n])) (members el))
                (refs0 ++ [n]) ns' eq_refl eq_refl). simpl.
    by rewrite <- app_assoc.
Qed.

Lemma tag_events_parse h el kvs :
  parse (set_current h el) (kvs ≫= tag_events)
  = Ok (set_current h
          (Element (etype el) (fields el)
             (foldl (λ m kv, <[kv.1 := kv.2]> m) (tags el) kvs)
             (nodes el) (members el))).
Proof.
  revert el. induction kvs as [|[k x] kvs IH]; intros el.
  - simpl. by destruct el.
  - rewrite bind_cons. unfold Osm_sax.parse.
    rewrite foldM_app. unfold tag_events at 1. cbn [Nx.foldM Osm_sax.handle].
    unfold Osm_sax.startElement. simpl.
    rewrite current_set_current. simpl.
    unfold attr. rewrite lookup_insert_eq. simpl.
    rewrite lookup_insert_ne by done. rewrite lookup_singleton_eq. simpl.
    rewrite set_current_put.
    change (Nx.foldM (Osm_sax.handle float int) ?a ?l) with (parse a l).
    change (endElement ?x "tag") with x.
    by rewrite IH.
Qed.

Lemma records_closed h el :
  addressed h ->
  records (endElement (set_current h el) "way") = records h ++ [Some el].
Proof.
  intros [_ He]. unfold records, endElement, set_current. simpl.
  rewrite fmap_app. simpl. rewrite list_lookup_middle by done. f_equal.
  apply Forall_fmap_ext. eapply Forall_impl; [exact He|].
  intros [c|] Hc; simpl; [|done]. apply lookup_app_l. by apply Hc.
Qed.

(** X16: a [way] element with [nd] children and then [tag] children,
    read after any part of a document, adds one record and leaves the
    records read before as they were: the record has the type ["way"],
    the converted attributes, the node references as [int] makes them,
    in their order, and the tags, where a key given twice has its last
    value. *)
Theorem way_block_gives_one_record evs0 h attrs fields refs ns kvs :
  parse init evs0 = Ok h ->
  keyword_clash ["type"; "tags"; "nodes"] attrs = None ->
  bind (convert_keys float ["lat"; "lon"] (VStr <$> attrs))
       (convert_keys int int_keys) = Ok fields ->
  mapM (λ ref, int (VStr ref)) refs = Ok ns ->
  exists h',
    parse h (Start "way" attrs
               :: (refs ≫= nd_events) ++ (kvs ≫= tag_events) ++ [End_ "way"])
    = Ok h' /\
    records h'
    = records h
        ++ [Some (Element "way" fields
                    (foldl (λ m kv, <[kv.1 := kv.2]> m) ∅ kvs)
                    (Some ns) None)].
Proof.
  intros Hh Hclash Hf Hrefs.
  pose proof (parse_addressed _ _ _ init_addressed Hh) as Ha.
  eexists. split.
  - unfold Osm_sax.parse. cbn [Nx.foldM Osm_sax.handle].
    unfold Osm_sax.startElement. simpl decide. cbv iota.
    rewrite Hclash.
    destruct (convert_keys float ["lat"; "lon"] (VStr <$> attrs))
      as [fields1|]; simpl in Hf; [|discriminate].
    simpl. rewrite Hf. simpl.
    rewrite !foldM_app.
    change (Nx.foldM (Osm_sax.handle float int) ?a (refs ≫= nd_events))
      with (parse a (refs ≫= nd_events)).
    rewrite (nd_events_parse h (Element "way" fields ∅ (Some []) None) []
               refs ns eq_refl Hrefs). simpl.
    rewrite foldM_app.
    change (Nx.foldM (Osm_sax.handle float int) ?a (kvs ≫= tag_events))
      with (parse a (kvs ≫= tag_events)).
    rewrite tag_events_parse. simpl. reflexivity.
  - by rewrite records_closed.
Qed.

Lemma no_record_yet h evs :
  _element h = None -> Forall (λ ev, ~ starts_record_or_child ev) evs ->
  exists h', parse h evs = Ok h' /\ _element h' = None.
Proof.
  unfold Osm_sax.parse. revert h.
  induction evs as [|ev evs IH]; intros h Hnone Hall.
  - eauto.
  - apply Forall_cons in Hall as [Hev Hall]. simpl.
    destruct ev as [name attrs|name]; simpl in *.
    + rewrite !elem_of_cons, elem_of_nil in Hev.
      unfold Osm_sax.startElement. repeat case_decide; try tauto; simpl.
      * by apply IH.
      * by apply IH.
    + apply IH; [|done]. unfold endElement. by case_decide.
Qed.

(** X17: a [tag], [nd] or [member] element that comes before every
    [node], [way] and [relation] element of the document makes the
    parse raise [TypeError]: there is no current record to subscript. *)
Theorem child_before_any_record evs1 name attrs evs2 :
  Forall (λ ev, ~ starts_record_or_child ev) evs1 ->
  name ∈ ["tag"; "nd"; "member"] ->
  exists msg,
    parse init (evs1 ++ Start name attrs :: evs2)
    = Err (PyExn TypeError msg).
Proof.
  intros Hall Hname.
  destruct (no_record_yet init evs1 eq_refl Hall) as (h1 & Hp & Hnone).
  unfold Osm_sax.parse in *. rewrite foldM_app, Hp. simpl.
  assert (Hcur : current h1 = not_subscriptable)
    by (unfold current; by rewrite Hnone).
  unfold Osm_sax.startElement.
  rewrite !elem_of_cons, elem_of_nil in Hname.
  destruct Hname as [->|[->|[->|[]]]]; simpl; rewrite Hcur; simpl; eauto.
Qed.

Lemma startElement_record h name attrs h' :
  name ∈ ["node"; "way"; "relation"] ->
  startElement h name attrs = Ok h' ->
  exists fields,
    h' = set_current h
           (Element name fields ∅
              (if decide (name = "relation") then None else Some [])
              (if decide (name = "relation") then Some [] else None)) /\
    bind (if decide (name = "relation") then Ok (VStr <$> attrs)
          else convert_keys float ["lat"; "lon"] (VStr <$> attrs))
         (convert_keys int int_keys) = Ok fields.
Proof.
  intros Hname H. rewrite !elem_of_cons, elem_of_nil in Hname.
  unfold Osm_sax.startElement in H.
  destruct Hname as [->|[->|[->|[]]]]; simpl in H; res_inv H;
    injection H as <-; simpl; eexists; split; try done.
  all: match goal with E : convert_keys float _ _ = _ |- _ => rewrite E end.
  all: done.
Qed.

(** X18: the record a [node], [way] or [relation] element starts has
    the element's attributes under their names: [lat] and [lon] as
    [float] makes them (not for a relation), [id], [uid], [version] and
    [changeset] as [int] makes them, every other one the string it was;
    its tags are empty. *)
Theorem record_attributes_converted h name attrs h' :
  name ∈ ["node"; "way"; "relation"] ->
  startElement h name attrs = Ok h' ->
  exists c el,
    current h' = Ok (c, el) /\ etype el = name /\ tags el = ∅ /\
    forall k,
      match attrs !! k with
      | Some x =>
          exists y, Osm_sax.fields el !! k = Some y /\
            if bool_decide (k ∈ ["lat"; "lon"])
               && negb (bool_decide (name = "relation"))
            then float (VStr x) = Ok y
            else if bool_decide (k ∈ int_keys) then int (VStr x) = Ok y
            else y = VStr x
      | None => Osm_sax.fields el !! k = None
      end.
Proof.
  intros Hname H.
  destruct (startElement_record _ _ _ _ Hname H) as (fields & -> & Hf).
  eexists _, _. split; [apply current_set_current|].
  split; [done|]. split; [done|]. simpl. intros k.
  destruct (decide (name = "relation")) as [->|Hne]; simpl in Hf.
  - pose proof (dict_mapM_Ok _ _ _ Hf k) as Hk. rewrite lookup_fmap in Hk.
    rewrite andb_false_r.
    destruct (attrs !! k) as [x|]; simpl in Hk; [|done].
    destruct Hk as (y & Hy & ->). exists y. split; [done|].
    destruct (bool_decide (k ∈ int_keys)); congruence.
  - destruct (convert_keys float ["lat"; "lon"] (VStr <$> attrs))
      as [fields1|] eqn:H1; simpl in Hf; [|discriminate].
    pose proof (dict_mapM_Ok _ _ _ H1 k) as Hk1. rewrite lookup_fmap in Hk1.
    pose proof (dict_mapM_Ok _ _ _ Hf k) as Hk2.
    rewrite (bool_decide_eq_false_2 _ Hne), andb_true_r.
    destruct (attrs !! k) as [x|]; simpl in Hk1.
    + destruct Hk1 as (y1 & Hy1 & Hl1). rewrite Hl1 in Hk2.
      destruct Hk2 as (y & Hy & ->). exists y. split; [done|].
      destruct (decide (k ∈ ["lat"; "lon"])) as [Hfl|Hfl];
        [rewrite (bool_decide_eq_true_2 _ Hfl) in Hy1 |- *
        |rewrite (bool_decide_eq_false_2 _ Hfl) in Hy1 |- *].
      * rewrite bool_decide_eq_false_2 in Hy; [congruence|].
        rewrite !elem_of_cons, elem_of_nil in Hfl. unfold int_keys.
        rewrite !elem_of_cons, elem_of_nil.
        destruct Hfl as [->|[->|[]]]; intros [?|[?|[?|[?|[]]]]]; discriminate.
      * injection Hy1 as <-.
        destruct (bool_decide (k ∈ int_keys)); congruence.
    + by rewrite Hk1 in Hk2.
Qed.


End Sax_facts.

Lemma one_record_per_closing_event_witness :
  length (Osm_sax.records More_examples.after_way)
  = (length (Osm_sax.records Osm_sax.init)
     + length (filter Osm_sax.closes_record
                 (More_examples.document ++ More_examples.way_block)))%nat.
Proof.
  apply (one_record_per_closing_event Builtins.float Builtins.int
           Osm_sax.init (More_examples.document ++ More_examples.way_block)
           More_examples.after_way).
  vm_cast_no_check (eq_refl (Ok More_examples.after_way)).
Defined.

Lemma way_block_gives_one_record_witness :
  exists h',
    Osm_sax.parse Builtins.float Builtins.int More_examples.after_node
      (Osm_sax.Start "way" {[ "id" := "7" ]}
         :: (["1"; "2"] ≫= Osm_sax.nd_events)
         ++ ([("highway", "residential")] ≫= Osm_sax.tag_events)
         ++ [Osm_sax.End_ "way"]) = Ok h' /\
    Osm_sax.records h'
    = Osm_sax.records More_examples.after_node
        ++ [Some (Osm_sax.Element "way" {[ "id" := VInt 7 ]}
                    (foldl (λ m kv, <[kv.1 := kv.2]> m) ∅
                       [("highway", "residential")])
                    (Some [VInt 1; VInt 2]) None)].
Proof.
  apply (way_block_gives_one_record Builtins.float Builtins.int
           More_examples.document More_examples.after_node
           {[ "id" := "7" ]} {[ "id" := VInt 7 ]} ["1"; "2"]
           [VInt 1; VInt 2] [("highway", "residential")]).
  - vm_cast_no_check (eq_refl (Ok More_examples.after_node)).
  - reflexivity.
  - vm_cast_no_check
      (eq_refl (Ok ({[ "id" := VInt 7 ]} : gmap string value))).
  - reflexivity.
Defined.

Lemma child_before_any_record_witness :
  exists msg,
    Osm_sax.parse Builtins.float Builtins.int Osm_sax.init
      ([Osm_sax.Start "osm" ∅; Osm_sax.End_ "node"]
         ++ Osm_sax.Start "tag" {[ "k" := "name"; "v" := "Main" ]} :: [])
    = Err (PyExn TypeError msg).
Proof.
  apply (child_before_any_record Builtins.float Builtins.int
           [Osm_sax.Start "osm" ∅; Osm_sax.End_ "node"] "tag"
           {[ "k" := "name"; "v" := "Main" ]} []).
  - apply Forall_cons. split; [|apply Forall_cons; split; [|constructor]].
    + simpl. rewrite !elem_of_cons, elem_of_nil.
      intros [?|[?|[?|[?|[?|[?|[]]]]]]]; discriminate.
    + simpl. tauto.
  - left.
Defined.

Lemma record_attributes_converted_witness :
  exists c el,
    Osm_sax.current More_examples.node_started = Ok (c, el) /\
    Osm_sax.etype el = "node" /\ Osm_sax.tags el = ∅ /\
    forall k,
      match More_examples.node_attrs !! k with
      | Some x =>
          exists y, Osm_sax.fields el !! k = Some y /\
            if bool_decide (k ∈ ["lat"; "lon"])
               && negb (bool_decide ("node" = "relation"))
            then Builtins.float (VStr x) = Ok y
            else if bool_decide (k ∈ Osm_sax.int_keys)
                 then Builtins.int (VStr x) = Ok y
                 else y = VStr x
      | None => Osm_sax.fields el !! k = None
      end.
Proof.
  apply (record_attributes_converted Builtins.float Builtins.int
           Osm_sax.init "node" More_examples.node_attrs
           More_examples.node_started).
  - left.
  - vm_cast_no_check (eq_refl (Ok More_examples.node_started)).
Defined.


(** ** The ways of the tree *)

Section Edges_tree.
Variable str : value -> string.
Variable groupby_id : DataFrame -> list DataFrame.

Lemma sample_tags_children (sample : gmap string string)
    (keep : string -> bool) t a cs tags edge_tags :
  tags ⊆ edge_tags ->
  exists tgs,
    foldl (λ e tag, match sample !! tag with
                    | Some val =>
                        if keep tag
                        then SubElement e "tag" [("k", tag); ("v", val)]
                        else e
                    | None => e
                    end) (Elem t a cs) tags
    = Elem t a (cs ++ tgs) /\
    Forall (is_tag_of edge_tags) tgs.
Proof.
  revert cs. induction tags as [|tag tags IH]; intros cs Hsub; simpl.
  - exists []. by rewrite app_nil_r.
  - assert (Htag : tag ∈ edge_tags) by (apply Hsub; left).
    assert (Hrest : tags ⊆ edge_tags) by (intros x Hx; apply Hsub; by right).
    destruct (sample !! tag) as [val|]; [|by apply IH].
    destruct (keep tag); [|by apply IH]. simpl.
    destruct (IH (cs ++ [Elem "tag" [("k", tag); ("v", val)] []]) Hrest)
      as (tgs & -> & Hall).
    eexists (_ :: tgs). rewrite <- app_assoc. split; [done|].
    constructor; [|done]. exists tag, val. done.
Qed.

Lemma is_tag_of_mono tags tags' e :
  tags ⊆ tags' -> is_tag_of tags e -> is_tag_of tags' e.
Proof. intros Hsub (k & x & Hk & ->). exists k, x. split; [by apply Hsub|done]. Qed.

Lemma merged_attrs_children t a cs (sample : gmap string string) df
    edge_tags edge_tag_aggs e :
  _append_merged_edge_attrs str (Elem t a cs) sample df edge_tags
    edge_tag_aggs = Ok e ->
  exists tgs,
    e = Elem t a (cs ++ tgs) /\
    Forall (is_tag_of (edge_tags ++ aggregated_labels edge_tag_aggs)) tgs.
Proof.
  unfold _append_merged_edge_attrs.
  destruct edge_tag_aggs as [aggs|]; simpl.
  - destruct (sample_tags_children sample
                (λ tag, negb (is_aggregated aggs tag)) t a cs edge_tags
                edge_tags) as (tgs0 & -> & H0); [done|].
    assert (H0' : Forall (is_tag_of (edge_tags ++ aggs.*1)) tgs0).
    { eapply Forall_impl; [exact H0|]. intros c.
      apply is_tag_of_mono. intros x Hx. apply elem_of_app. by left. }
    clear H0. revert H0'.
    assert (Hsub : aggs.*1 ⊆ aggs.*1) by done. revert Hsub.
    generalize aggs at 1 4 as rest. revert tgs0.
    intros tgs0 rest. revert tgs0.
    induction rest as [|[tag agg] rest IH]; intros tgs0 Hsub H0 H; simpl in H.
    + injection H as <-. eauto.
    + assert (Htag : tag ∈ aggs.*1) by (apply Hsub; left).
      assert (Hrest : rest.*1 ⊆ aggs.*1)
        by (intros x Hx; apply Hsub; by right).
      destruct (has_column df tag); [|by eapply IH].
      destruct (agg (column df tag)) as [b|]; simpl in H; [|discriminate].
      rewrite <- app_assoc in H. eapply IH; [done| |exact H].
      apply Forall_app. split; [done|]. constructor; [|done].
      exists tag, (str b). split; [|done]. apply elem_of_app. by right.
  - intros [= <-].
    destruct (sample_tags_children sample (λ _, true) t a cs edge_tags
                edge_tags) as (tgs & -> & H0); [done|].
    exists tgs. split; [done|]. by rewrite app_nil_r.
Qed.

Lemma nd_children t a cs (nodes : list Z) :
  exists nds,
    foldl (λ e node, SubElement e "nd" [("ref", str (VInt node))])
          (Elem t a cs) nodes
    = Elem t a (cs ++ nds) /\
    Forall (λ c, exists ref, is_nd ref c) nds.
Proof.
  revert cs. induction nodes as [|n nodes IH]; intros cs; simpl.
  - exists []. by rewrite app_nil_r.
  - destruct (IH (cs ++ [Elem "nd" [("ref", str (VInt n))] []]))
      as (nds & -> & Hall).
    eexists (_ :: nds). rewrite <- app_assoc. split; [done|].
    constructor; [|done]. eexists. reflexivity.
Qed.

Lemma unique_nodes_log df log :
  exists more,
    log_after (_get_unique_nodes_ordered_from_way df log) = log ++ more.
Proof.
  unfold _get_unique_nodes_ordered_from_way.
  destruct (reset_index df) as [df'|]; simpl; [|exists []; by rewrite app_nil_r].
  destruct (Nx.topological_sort _) as [ordered|]; simpl;
    [|exists []; by rewrite app_nil_r].
  case_bool_decide; [eauto|]. exists []. by rewrite app_nil_r.
Qed.

Lemma ordered_nodes_log df log :
  exists more, log_after (ordered_nodes_of_way df log) = log ++ more.
Proof.
  unfold ordered_nodes_of_way.
  destruct (unique_nodes_log df log) as (more & Hmore).
  destruct (result (_get_unique_nodes_ordered_from_way df log))
    as [ns|[cls msg|x]]; [eauto| |eauto].
  destruct cls; eauto.
  destruct (rows (frame_after _)) as [|r rest]; simpl; [eauto|].
  destruct (unique_nodes_log
              (iloc_from_1 (frame_after
                 (_get_unique_nodes_ordered_from_way df log)))
              (log_after (_get_unique_nodes_ordered_from_way df log)))
    as (more' & ->).
  rewrite Hmore, <- app_assoc. eauto.
Qed.

Lemma merged_way_appended t a cs df edge_attrs edge_tags edge_tag_aggs log :
  let o := append_merged_way str (Elem t a cs) df edge_attrs edge_tags
             edge_tag_aggs log in
  (exists more, log_after o = log ++ more) /\
  forall root', result o = Ok root' ->
    exists way,
      root' = Elem t a (cs ++ [way]) /\
      way_shaped edge_attrs
        (edge_tags ++ aggregated_labels edge_tag_aggs) way.
Proof.
  unfold append_merged_way.
  destruct (rows df) as [|r rest] eqn:Hrows; simpl.
  { split; [exists []; by rewrite app_nil_r|discriminate]. }
  destruct (mapM _ edge_attrs) as [attrib|] eqn:Hsel; simpl.
  2:{ split; [exists []; by rewrite app_nil_r|discriminate]. }
  apply (select_Ok (dropna_astype_str str df r)) in Hsel as [Hkeys _].
  unfold _append_nodes_as_edge_attrs. rewrite Hrows.
  case_bool_decide as Hone; simpl.
  - split; [exists []; by rewrite app_nil_r|]. intros root' Hr.
    destruct (dropna_u_v str df r) as [Hu Hv]. rewrite Hu, Hv in Hr.
    simpl in Hr.
    destruct (_append_merged_edge_attrs _ _ _ _ _ _) as [e|] eqn:He;
      simpl in Hr; [|discriminate].
    injection Hr as <-.
    apply merged_attrs_children in He as (tgs & -> & Htgs).
    eexists. split; [done|].
    exists attrib, [Elem "nd" [("ref", str (VInt (u r)))] [];
                    Elem "nd" [("ref", str (VInt (v r)))] []], tgs.
    split; [done|]. split; [done|]. split; [|done].
    repeat constructor; eexists; reflexivity.
  - split; [apply ordered_nodes_log|]. intros root' Hr.
    destruct (result (ordered_nodes_of_way df log)) as [ns|];
      simpl in Hr; [|discriminate].
    destruct (nd_children "way" attrib [] ns) as (nds & Hnds & Hall).
    rewrite Hnds in Hr.
    destruct (_append_merged_edge_attrs _ _ _ _ _ _) as [e|] eqn:He;
      simpl in Hr; [|discriminate].
    injection Hr as <-.
    apply merged_attrs_children in He as (tgs & -> & Htgs).
    eexists. split; [done|]. exists attrib, nds, tgs. done.
Qed.

Lemma merged_ways_appended groups t a cs edge_attrs edge_tags edge_tag_aggs
    log log' root' :
  append_merged_ways str (Elem t a cs) groups edge_attrs edge_tags
    edge_tag_aggs log = (log', Ok root') ->
  exists ways more,
    root' = Elem t a (cs ++ ways) /\ log' = log ++ more /\
    length ways = length groups /\
    Forall (way_shaped edge_attrs
              (edge_tags ++ aggregated_labels edge_tag_aggs)) ways.
Proof.
  revert cs log.
  induction groups as [|g groups IH]; intros cs log H; simpl in H.
  - injection H as <- <-. exists [], []. by rewrite !app_nil_r.
  - destruct (merged_way_appended t a cs g edge_attrs edge_tags
                edge_tag_aggs log) as [(more & Hlog) Hres].
    cbv zeta in Hlog, Hres.
    destruct (result (append_merged_way _ _ _ _ _ _ _)) as [root1|];
      [|by injection H].
    destruct (Hres _ eq_refl) as (way & -> & Hway).
    rewrite Hlog in H.
    destruct (IH _ _ H) as (ways & more' & -> & -> & Hlen & Hall).
    exists (way :: ways), (more ++ more').
    rewrite <- !app_assoc. simpl. split; [done|]. split; [done|].
    split; [by rewrite Hlen|]. by constructor.
Qed.

Lemma separate_ways_appended df rs t a cs edge_attrs edge_tags root' :
  Nx.foldM
    (λ root r,
       let row := dropna_astype_str str df r in
       attrib <- select row edge_attrs;;
       match row !! "u", row !! "v" with
       | Some ru, Some rv =>
           let edge := Elem "way" attrib [] in
           let edge := SubElement edge "nd" [("ref", ru)] in
           let edge := SubElement edge "nd" [("ref", rv)] in
           Ok (append_child root (append_tags row edge_tags edge))
       | None, _ => Err (PyExn KeyError "u")
       | _, None => Err (PyExn KeyError "v")
       end)
    (Elem t a cs) rs = Ok root' ->
  exists ways,
    root' = Elem t a (cs ++ ways) /\ length ways = length rs /\
    Forall (way_shaped edge_attrs edge_tags) ways.
Proof.
  revert cs. induction rs as [|r rest IH]; intros cs H; simpl in H.
  - injection H as <-. exists []. by rewrite app_nil_r.
  - destruct (select (dropna_astype_str str df r) edge_attrs)
      as [attrib|] eqn:Hsel; simpl in H; [|discriminate].
    destruct (dropna_u_v str df r) as [Hu Hv].
    rewrite Hu, Hv in H. simpl in H.
    rewrite append_tags_children in H. simpl in H.
    destruct (IH _ H) as (ways & -> & Hlen & Hall).
    eexists (_ :: ways). rewrite <- app_assoc. split; [done|].
    split; [simpl; by rewrite Hlen|]. constructor; [|done].
    destruct (select_Ok _ _ _ Hsel) as [Hkeys _].
    exists attrib, [Elem "nd" [("ref", str (VInt (u r)))] [];
                    Elem "nd" [("ref", str (VInt (v r)))] []],
      (omap (λ tag, (λ x, Elem "tag" [("k", tag); ("v", x)] [])
                      <$> dropna_astype_str str df r !! tag) edge_tags).
    split; [done|]. split; [done|].
    split; [repeat constructor; eexists; reflexivity|].
    eapply Forall_impl; [apply tags_of_row|]. intros c (k & x & Hk & _ & ->).
    exists k, x. done.
Qed.

(** X20: when [_append_edges_xml_tree] returns, the root has kept its
    children and gained [way] elements only: one per group of
    [groupby("id")] when merging, one per edge otherwise; each way has
    the attribute names [edge_attrs], its [nd] references first and then
    its [tag] elements, whose keys are among [edge_tags] and the
    aggregated labels.  What was logged before is still there. *)
Theorem edges_tree_appends_ways t a cs gdf_edges edge_attrs edge_tags
    edge_tag_aggs merge_edges log log' root' :
  _append_edges_xml_tree str groupby_id (Elem t a cs) gdf_edges edge_attrs
    edge_tags edge_tag_aggs merge_edges log = (log', Ok root') ->
  exists gdf ways more,
    reset_index gdf_edges = Ok gdf /\
    root' = Elem t a (cs ++ ways) /\ log' = log ++ more /\
    length ways = (if merge_edges then length (groupby_id gdf)
                   else length (rows gdf)) /\
    Forall (way_shaped edge_attrs
              (edge_tags ++ aggregated_labels edge_tag_aggs)) ways.
Proof.
  unfold _append_edges_xml_tree. intros H.
  destruct (reset_index gdf_edges) as [gdf|]; [|by injection H].
  exists gdf. destruct merge_edges.
  - destruct (merged_ways_appended _ _ _ _ _ _ _ _ _ _ H)
      as (ways & more & Hroot & Hlog & Hlen & Hall).
    exists ways, more. done.
  - injection H as <- H.
    destruct (separate_ways_appended gdf (rows gdf) t a cs edge_attrs
                edge_tags root' H) as (ways & -> & Hlen & Hall).
    exists ways, []. rewrite app_nil_r. split; [done|]. split; [done|].
    split; [done|]. split; [done|].
    eapply Forall_impl; [exact Hall|]. intros c.
    destruct 1 as (attrib & nds & tgs & -> & Hkeys & Hnds & Htgs).
    exists attrib, nds, tgs. split; [done|]. split; [done|].
    split; [done|]. eapply Forall_impl; [exact Htgs|]. intros c'.
    apply is_tag_of_mono. intros x Hx. apply elem_of_app. by left.
Qed.

End Edges_tree.

Lemma edges_tree_appends_ways_witness :
  exists gdf ways more,
    reset_index Examples.lengths = Ok gdf /\
    More_examples.merged_tree.2 = Elem "osm" [] ([] ++ ways) /\
    More_examples.merged_tree.1 = [] ++ more /\
    length ways = (if true then length (More_examples.one_group gdf)
                   else length (rows gdf)) /\
    Forall (way_shaped ["id"]
              (["length"]
                 ++ aggregated_labels (Some [("length", agg_sum)]))) ways.
Proof.
  apply (edges_tree_appends_ways Builtins.str More_examples.one_group
           "osm" [] [] Examples.lengths ["id"] ["length"]
           (Some [("length", agg_sum)]) true []).
  vm_cast_no_check
    (eq_refl (More_examples.merged_tree.1, Ok More_examples.merged_tree.2)).
Defined.
